(** * airport-api-service: the flight-and-ticket consistency subsystem

    A shallow embedding of [airport/models.py], [airport/serializers.py] and
    [airport/views.py].  Tables of the relational store are lists of rows,
    foreign keys are the integer primary keys of the rows they point to,
    Python exceptions are the constructors of [exn], and a function that can
    raise returns a [result]. *)

From Stdlib Require Import ZArith List String Ascii Bool Lia.
From Stdlib Require Import Sorted Permutation.
Import ListNotations.
Open Scope string_scope.
Open Scope list_scope.
Open Scope Z_scope.

(** ** Exceptions and results *)

(** The exceptions the modelled code raises.

    - [DRF_ValidationError] is [rest_framework.exceptions.ValidationError],
      an [APIException] whose status code is 400;
    - [Django_ValidationError] is [django.core.exceptions.ValidationError],
      raised by [Model.full_clean]; it is not an [APIException];
    - [ValueError] is Python's builtin, raised by [int] and by
      [datetime.strptime];
    - [DoesNotExist] is raised when a related row is read through a foreign
      key that points nowhere;
    - [Http404] is raised by [get_object] when the queryset has no such row.

    The detail of a validation error lists the keys of its error dictionary
    (the offending fields), or holds the message when it was raised with a
    plain message. *)
Inductive exn : Type :=
| DRF_ValidationError (detail : list string)
| Django_ValidationError (detail : list string)
| ValueError
| DoesNotExist
| Http404.

Inductive result (A : Type) : Type :=
| Ok (a : A)
| Raise (e : exn).

Arguments Ok {A} a.
Arguments Raise {A} e.

Definition bind {A B : Type} (r : result A) (k : A -> result B) : result B :=
  match r with
  | Ok a => k a
  | Raise e => Raise e
  end.

Notation "x <- r ;; k" := (bind r (fun x => k))
  (at level 61, r at next level, right associativity).
Notation "r ;;; k" := (bind r (fun _ => k))
  (at level 61, right associativity).

Definition is_ok {A : Type} (r : result A) : bool :=
  match r with Ok _ => true | Raise _ => false end.

(** The status code of the response the REST framework builds for a request
    whose handler raised [e]: its exception handler turns an [APIException]
    into a response with the exception's own status code and [Http404] into
    404; every other exception is not handled and reaches the client as an
    internal server error. *)
Definition status_code (e : exn) : Z :=
  match e with
  | DRF_ValidationError _ => 400
  | Http404 => 404
  | Django_ValidationError _ => 500
  | ValueError => 500
  | DoesNotExist => 500
  end.

Definition client_error (e : exn) : bool :=
  (400 <=? status_code e) && (status_code e <? 500).

(** ** Rows of the tables ([models.py]) *)

Module Airport.
Record t : Type := Build
  { id : Z;
    name : string;
    closest_big_city : string }.
End Airport.

Module Route.
Record t : Type := Build
  { id : Z;
    source : Z;
    destination : Z;
    distance : Z }.
End Route.

Module Airplane.
Record t : Type := Build
  { id : Z;
    name : string;
    rows : Z;
    seats_in_row : Z;
    airplane_type : Z }.

(** [Airplane.capacity] *)
Definition capacity (self : t) : Z := rows self * seats_in_row self.
End Airplane.

Module Order.
Record t : Type := Build
  { id : Z;
    created_at : Z;
    user : Z }.
End Order.

Module Flight.
(** A row of the flight table; times are instants on one time line.  The
    many-to-many [crew] field lives in a table of its own, [flight_crew] of
    [DB]. *)
Record t : Type := Build
  { id : Z;
    route : Z;
    airplane : Z;
    departure_time : Z;
    arrival_time : Z }.

(** [Flight.clean] *)
Definition clean (self : t) : result unit :=
  if departure_time self >=? arrival_time self
  then Raise (Django_ValidationError
                ["Arrival time must be later than departure time."])
  else Ok tt.
End Flight.

Module Ticket.
Record t : Type := Build
  { id : Z;
    row : Z;
    seat : Z;
    flight : Z;
    order : Z }.

(** One turn of the loop of [validate_ticket]: the name of the ticket
    attribute, its value and the airplane attribute it is checked against
    (read with [getattr] in the source). *)
Definition check_attr (airplane : Airplane.t)
           (error_to_raise : list string -> exn)
           (item : string * Z * (Airplane.t -> Z)) : result unit :=
  let '(ticket_attr_name, ticket_attr_value, airplane_attr) := item in
  let count_attrs := airplane_attr airplane in
  if negb ((0 <? ticket_attr_value) && (ticket_attr_value <? count_attrs))
  then Raise (error_to_raise [ticket_attr_name])
  else Ok tt.

Fixpoint for_each {A : Type} (body : A -> result unit) (l : list A)
  : result unit :=
  match l with
  | [] => Ok tt
  | x :: l' => body x ;;; for_each body l'
  end.

(** [Ticket.validate_ticket] *)
Definition validate_ticket (row seat : Z) (airplane : Airplane.t)
           (error_to_raise : list string -> exn) : result unit :=
  for_each (check_attr airplane error_to_raise)
           [ ("row", row, Airplane.rows);
             ("seat", seat, Airplane.seats_in_row) ].
End Ticket.

(** ** The store *)

Record DB : Type := BuildDB
  { airports : list Airport.t;
    routes : list Route.t;
    airplane_types : list Z;         (* primary keys of the airplane types *)
    airplanes : list Airplane.t;
    crews : list Z;                  (* primary keys of the crew members *)
    flights : list Flight.t;
    flight_crew : list (Z * Z);      (* (flight id, crew id) *)
    orders : list Order.t;
    tickets : list Ticket.t }.

Definition get {A : Type} (pk_of : A -> Z) (table : list A) (pk : Z)
  : option A :=
  find (fun r => pk_of r =? pk) table.

(** Reading a related object through a foreign key. *)
Definition related {A : Type} (pk_of : A -> Z) (table : list A) (pk : Z)
  : result A :=
  match get pk_of table pk with
  | Some r => Ok r
  | None => Raise DoesNotExist
  end.

(** The primary key of a new row.  The database takes it from a sequence
    of the table, which gives a key above every key of the table and also
    above the keys of the rows that were deleted.  The store holds the rows
    and not the sequences, so the model takes the key above every key of
    the table: it is the key of the database as long as the row with the
    largest key was not deleted, and in every case a key that no row of
    the table has. *)
Definition fresh_id {A : Type} (pk_of : A -> Z) (table : list A) : Z :=
  1 + fold_right (fun r m => Z.max (pk_of r) m) 0 table.

Definition set_orders (os : list Order.t) (db : DB) : DB :=
  BuildDB (airports db) (routes db) (airplane_types db) (airplanes db)
          (crews db) (flights db) (flight_crew db) os (tickets db).

Definition set_tickets (ts : list Ticket.t) (db : DB) : DB :=
  BuildDB (airports db) (routes db) (airplane_types db) (airplanes db)
          (crews db) (flights db) (flight_crew db) (orders db) ts.

Definition set_flights (fs : list Flight.t) (db : DB) : DB :=
  BuildDB (airports db) (routes db) (airplane_types db) (airplanes db)
          (crews db) fs (flight_crew db) (orders db) (tickets db).

Definition set_flight_crew (fc : list (Z * Z)) (db : DB) : DB :=
  BuildDB (airports db) (routes db) (airplane_types db) (airplanes db)
          (crews db) (flights db) fc (orders db) (tickets db).

Definition set_airplanes (ps : list Airplane.t) (db : DB) : DB :=
  BuildDB (airports db) (routes db) (airplane_types db) ps
          (crews db) (flights db) (flight_crew db) (orders db) (tickets db).

(** ** Code that writes to the store

    A computation takes the store and returns the store it leaves behind
    together with its value or the exception it raised.  What was written
    before an exception stays written, unless the computation runs inside
    [atomic]. *)

Definition M (A : Type) : Type := DB -> DB * result A.

Definition ret {A : Type} (a : A) : M A := fun db => (db, Ok a).

Definition raise {A : Type} (e : exn) : M A := fun db => (db, Raise e).

Definition lift {A : Type} (r : result A) : M A := fun db => (db, r).

Definition bindM {A B : Type} (m : M A) (k : A -> M B) : M B :=
  fun db =>
    match m db with
    | (db', Ok a) => k a db'
    | (db', Raise e) => (db', Raise e)
    end.

Notation "x <~ m ;; k" := (bindM m (fun x => k))
  (at level 61, m at next level, right associativity).

(** [with transaction.atomic(): body]: when the body raises, everything it
    wrote is rolled back and the exception goes on. *)
Definition atomic {A : Type} (body : M A) : M A :=
  fun db =>
    match body db with
    | (db', Ok a) => (db', Ok a)
    | (_, Raise e) => (db, Raise e)
    end.

(** ** Model validation and saving ([models.py])

    [Model.full_clean] runs [clean_fields], [clean] and [validate_unique],
    gathers the [ValidationError]s they raise and raises one
    [ValidationError] with all of them when there is any; another exception
    goes through at once.  Fields already in error are left out of the
    uniqueness checks.  The range validators of the integer fields depend
    on the database backend and are left out. *)

(** Adds the fields of a [ValidationError] raised by a step of [full_clean]
    to the errors gathered so far. *)
Definition collect (errors : list string) (step : result unit)
  : result (list string) :=
  match step with
  | Ok _ => Ok errors
  | Raise (Django_ValidationError d) => Ok (errors ++ d)
  | Raise e => Raise e
  end.

Definition raise_if_any (errors : list string) : result unit :=
  match errors with
  | [] => Ok tt
  | _ :: _ => Raise (Django_ValidationError errors)
  end.

(** A foreign key is valid when the row it names exists. *)
Definition check_fk {A : Type} (pk_of : A -> Z) (table : list A) (pk : Z)
           (field : string) : list string :=
  match get pk_of table pk with
  | Some _ => []
  | None => [field]
  end.

Definition mem (field : string) (l : list string) : bool :=
  existsb (String.eqb field) l.

(** [UPDATE] of the row with the key of [r], [INSERT] when there is none. *)
Definition update_row {A : Type} (pk_of : A -> Z) (r : A) (table : list A)
  : list A :=
  if existsb (fun x => pk_of x =? pk_of r) table
  then map (fun x => if pk_of x =? pk_of r then r else x) table
  else table ++ [r].

(** *** Flight *)

Definition Flight_clean_fields (db : DB) (self : Flight.t) : list string :=
  check_fk Route.id (routes db) (Flight.route self) "route" ++
  check_fk Airplane.id (airplanes db) (Flight.airplane self) "airplane".

Definition Flight_full_clean (db : DB) (self : Flight.t) : result unit :=
  errors <- collect (Flight_clean_fields db self) (Flight.clean self) ;;
  raise_if_any errors.

Definition Flight_with_id (pk : Z) (self : Flight.t) : Flight.t :=
  Flight.Build pk (Flight.route self) (Flight.airplane self)
               (Flight.departure_time self) (Flight.arrival_time self).

(** [Flight.save].  [adding] tells an instance that was never stored (its
    key is still [None], the store gives it one) from one read from the
    store, whose row is updated. *)
Definition Flight_save (adding : bool) (self : Flight.t) : M Flight.t :=
  _ <~ (fun db => (db, Flight_full_clean db self)) ;;
  fun db =>
    if adding
    then let r := Flight_with_id (fresh_id Flight.id (flights db)) self in
         (set_flights (flights db ++ [r]) db, Ok r)
    else (set_flights (update_row Flight.id self (flights db)) db, Ok self).

(** [self.tickets.count()] *)
Definition tickets_count (db : DB) (self : Flight.t) : Z :=
  Z.of_nat (List.length (filter (fun t => Ticket.flight t =? Flight.id self)
                           (tickets db))).

(** [Flight.tickets_available] *)
Definition Flight_tickets_available (db : DB) (self : Flight.t)
  : result Z :=
  airplane <- related Airplane.id (airplanes db) (Flight.airplane self) ;;
  Ok (Airplane.capacity airplane - tickets_count db self).

(** *** Ticket *)

Definition Ticket_clean_fields (db : DB) (self : Ticket.t) : list string :=
  check_fk Flight.id (flights db) (Ticket.flight self) "flight" ++
  check_fk Order.id (orders db) (Ticket.order self) "order".

(** [Ticket.clean] *)
Definition Ticket_clean (db : DB) (self : Ticket.t) : result unit :=
  flight <- related Flight.id (flights db) (Ticket.flight self) ;;
  airplane <- related Airplane.id (airplanes db) (Flight.airplane flight) ;;
  Ticket.validate_ticket (Ticket.row self) (Ticket.seat self) airplane
                         Django_ValidationError.

Definition same_seat (a b : Ticket.t) : bool :=
  (Ticket.row a =? Ticket.row b) && (Ticket.seat a =? Ticket.seat b) &&
  (Ticket.flight a =? Ticket.flight b).

(** [unique_together = ["row", "seat", "flight"]]: the check is skipped
    when one of the three fields is excluded; a stored instance does not
    clash with its own row. *)
Definition Ticket_validate_unique (db : DB) (adding : bool)
           (exclude : list string) (self : Ticket.t) : result unit :=
  if mem "row" exclude || mem "seat" exclude || mem "flight" exclude
  then Ok tt
  else if existsb (fun t => same_seat t self &&
                            (adding || negb (Ticket.id t =? Ticket.id self)))
                  (tickets db)
       then Raise (Django_ValidationError ["__all__"])
       else Ok tt.

Definition Ticket_full_clean (db : DB) (adding : bool) (self : Ticket.t)
  : result unit :=
  errors <- collect (Ticket_clean_fields db self) (Ticket_clean db self) ;;
  errors <- collect errors (Ticket_validate_unique db adding errors self) ;;
  raise_if_any errors.

Definition Ticket_with_id (pk : Z) (self : Ticket.t) : Ticket.t :=
  Ticket.Build pk (Ticket.row self) (Ticket.seat self) (Ticket.flight self)
               (Ticket.order self).

(** [Ticket.save] *)
Definition Ticket_save (adding : bool) (self : Ticket.t) : M Ticket.t :=
  _ <~ (fun db => (db, Ticket_full_clean db adding self)) ;;
  fun db =>
    if adding
    then let r := Ticket_with_id (fresh_id Ticket.id (tickets db)) self in
         (set_tickets (tickets db ++ [r]) db, Ok r)
    else (set_tickets (update_row Ticket.id self (tickets db)) db, Ok self).

(** [Ticket.objects.create(order=..., row=..., seat=..., flight=...)]: the
    manager builds the instance and saves it. *)
Definition Ticket_objects_create (order : Order.t) (row seat : Z)
           (flight : Flight.t) : M Ticket.t :=
  Ticket_save true (Ticket.Build 0 row seat (Flight.id flight)
                                 (Order.id order)).

(** [Order.objects.create(user=...)]; [created_at] is the time of the
    insertion ([auto_now_add]).  [Order] does not override [save], so
    nothing is validated. *)
Definition Order_objects_create (now user : Z) : M Order.t :=
  fun db =>
    let r := Order.Build (fresh_id Order.id (orders db)) now user in
    (set_orders (orders db ++ [r]) db, Ok r).

(** [order.delete()]: the tickets of the order go with it
    ([on_delete=models.CASCADE]). *)
Definition Order_delete (self : Order.t) : M unit :=
  fun db =>
    (set_orders
       (filter (fun o => negb (Order.id o =? Order.id self)) (orders db))
       (set_tickets
          (filter (fun t => negb (Ticket.order t =? Order.id self))
                  (tickets db)) db),
     Ok tt).

(** ** Python strings

    Query parameters and names are strings of characters whose code points
    are below 256; what Python does with the characters above is not
    modelled. *)

Definition code (c : ascii) : Z := Z.of_nat (nat_of_ascii c).

(** [str.isspace] on one character: the white space that [str.strip]
    takes away.  Below 256 these are the tab, the line feed, the vertical
    tab, the form feed and the carriage return (9 to 13), the four
    separators and the blank (28 to 32), the next line (133) and the
    no-break space (160). *)
Definition is_space (c : ascii) : bool :=
  let n := code c in
  ((9 <=? n) && (n <=? 13)) || ((28 <=? n) && (n <=? 32)) ||
  (n =? 133) || (n =? 160).

(** The white space [int] drops around a literal.  It is the white space
    of C ([Py_ISSPACE]: 9 to 13 and the blank), and the next line and the
    no-break space, which [int] turns into blanks before it reads a string
    that is not ASCII.  The separators 28 to 31 are white space for
    [str.strip] but not for [int], which raises [ValueError] on a literal
    with one of them before or after it. *)
Definition is_int_space (c : ascii) : bool :=
  let n := code c in
  ((9 <=? n) && (n <=? 13)) || (n =? 32) || (n =? 133) || (n =? 160).

Definition is_digit (c : ascii) : bool :=
  let n := code c in (48 <=? n) && (n <=? 57).

(** The string without the characters of the class [space] at its
    start. *)
Fixpoint lstrip (space : ascii -> bool) (s : string) : string :=
  match s with
  | String c s' => if space c then lstrip space s' else s
  | EmptyString => EmptyString
  end.

(** The string without the characters of the class [space] at its end. *)
Fixpoint rstrip (space : ascii -> bool) (s : string) : string :=
  match s with
  | String c s' =>
      match rstrip space s' with
      | EmptyString => if space c then EmptyString
                       else String c EmptyString
      | t => String c t
      end
  | EmptyString => EmptyString
  end.

(** [str.strip()] *)
Definition strip (s : string) : string :=
  rstrip is_space (lstrip is_space s).

(** [s.split(sep)] for a separator of one character: never empty, and
    [""] splits into [[""]]. *)
Fixpoint split (sep : ascii) (s : string) : list string :=
  match s with
  | EmptyString => [EmptyString]
  | String c s' =>
      if Ascii.eqb c sep then EmptyString :: split sep s'
      else match split sep s' with
           | piece :: pieces => String c piece :: pieces
           | [] => [String c EmptyString]
           end
  end.

(** The digits of a decimal literal: a digit, then digits each optionally
    preceded by one underscore.  [seen] counts the digits read,
    [after_digit] tells whether the last character read was a digit. *)
Fixpoint decimal (s : string) (acc : Z) (seen : Z) (after_digit : bool)
  : option (Z * Z) :=
  match s with
  | EmptyString => if after_digit then Some (acc, seen) else None
  | String c s' =>
      if is_digit c
      then decimal s' (10 * acc + (code c - 48)) (seen + 1) true
      else if Ascii.eqb c "_" && after_digit
           then decimal s' acc seen false
           else None
  end.

(** The default of [sys.get_int_max_str_digits()]. *)
Definition int_max_str_digits : Z := 4300.

(** [int(s)] for a string [s]: the white space of [is_int_space] around
    the literal is dropped, a sign may come first; [None] stands for
    [ValueError]. *)
Definition int (s : string) : option Z :=
  let unsigned (sign : Z) (digits : string) :=
    match decimal digits 0 0 false with
    | Some (n, seen) =>
        if seen <=? int_max_str_digits then Some (sign * n) else None
    | None => None
    end in
  match rstrip is_int_space (lstrip is_int_space s) with
  | String "-" digits => unsigned (-1) digits
  | String "+" digits => unsigned 1 digits
  | digits => unsigned 1 digits
  end.

Definition lower_char (c : ascii) : ascii :=
  let n := code c in
  if (65 <=? n) && (n <=? 90) then ascii_of_nat (nat_of_ascii c + 32) else c.

Fixpoint lower (s : string) : string :=
  match s with
  | EmptyString => EmptyString
  | String c s' => String (lower_char c) (lower s')
  end.

Fixpoint contains (needle hay : string) : bool :=
  prefix needle hay ||
  match hay with
  | EmptyString => false
  | String _ hay' => contains needle hay'
  end.

(** [chr(0) in s] *)
Fixpoint has_null (s : string) : bool :=
  match s with
  | EmptyString => false
  | String c s' => (code c =? 0) || has_null s'
  end.

(** The [icontains] lookup: [value] occurs in [field], letter case apart. *)
Definition icontains (field value : string) : bool :=
  contains (lower value) (lower field).

(** Truth value of an optional query parameter: absent and empty are
    false. *)
Definition truthy (p : option string) : option string :=
  match p with
  | Some EmptyString => None
  | other => other
  end.

(** ** Serializers ([serializers.py]) *)

(** One entry of the [tickets] list of an order request. *)
Module TicketSpec.
Record t : Type := Build
  { row : Z;
    seat : Z;
    flight : Z }.
End TicketSpec.

(** The validated data of a ticket: [attrs["flight"]] is the flight the
    primary key of the request stands for. *)
Module TicketAttrs.
Record t : Type := Build
  { row : Z;
    seat : Z;
    flight : Flight.t }.
End TicketAttrs.

Module TicketSerializer.

(** The [flight] field is a primary-key field over all flights. *)
Definition to_internal_value (db : DB) (data : TicketSpec.t)
  : result TicketAttrs.t :=
  match get Flight.id (flights db) (TicketSpec.flight data) with
  | Some f => Ok (TicketAttrs.Build (TicketSpec.row data)
                                    (TicketSpec.seat data) f)
  | None => Raise (DRF_ValidationError ["flight"])
  end.

(** The validator a model serializer adds for
    [unique_together = ["row", "seat", "flight"]]: no stored ticket has
    the three values. *)
Definition unique_together_validator (db : DB) (attrs : TicketAttrs.t)
  : result unit :=
  if existsb (fun t => (Ticket.row t =? TicketAttrs.row attrs) &&
                       (Ticket.seat t =? TicketAttrs.seat attrs) &&
                       (Ticket.flight t =?
                          Flight.id (TicketAttrs.flight attrs)))
             (tickets db)
  then Raise (DRF_ValidationError ["non_field_errors"])
  else Ok tt.

(** [TicketSerializer.validate] *)
Definition validate (db : DB) (attrs : TicketAttrs.t)
  : result TicketAttrs.t :=
  let data := attrs in
  airplane <- related Airplane.id (airplanes db)
                      (Flight.airplane (TicketAttrs.flight attrs)) ;;
  Ticket.validate_ticket (TicketAttrs.row attrs) (TicketAttrs.seat attrs)
                         airplane DRF_ValidationError ;;;
  Ok data.

(** [run_validation]: the fields, then the validators, then [validate]. *)
Definition run_validation (db : DB) (data : TicketSpec.t)
  : result TicketAttrs.t :=
  attrs <- to_internal_value db data ;;
  unique_together_validator db attrs ;;;
  validate db attrs.

(** [TicketSerializer(many=True)]: every entry is validated, the errors are
    gathered. *)
Fixpoint many (db : DB) (data : list TicketSpec.t)
  : result (list TicketAttrs.t * list string) :=
  match data with
  | [] => Ok ([], [])
  | item :: rest =>
      match run_validation db item with
      | Ok validated =>
          r <- many db rest ;; Ok (validated :: fst r, snd r)
      | Raise (DRF_ValidationError d) =>
          r <- many db rest ;; Ok (fst r, d ++ snd r)
      | Raise e => Raise e
      end
  end.

End TicketSerializer.

Module OrderSerializer.

(** The [tickets] field,
    [TicketSerializer(many=True, read_only=False, allow_empty=False)]. *)
Definition tickets (db : DB) (data : list TicketSpec.t)
  : result (list TicketAttrs.t) :=
  match data with
  | [] => Raise (DRF_ValidationError ["tickets"])
  | _ :: _ =>
      r <- TicketSerializer.many db data ;;
      match snd r with
      | [] => Ok (fst r)
      | errors => Raise (DRF_ValidationError errors)
      end
  end.

(** The loop of [create]. *)
Fixpoint create_tickets (order : Order.t) (tickets_data : list TicketAttrs.t)
  : M unit :=
  match tickets_data with
  | [] => ret tt
  | ticket_data :: rest =>
      _ <~ Ticket_objects_create order (TicketAttrs.row ticket_data)
                                 (TicketAttrs.seat ticket_data)
                                 (TicketAttrs.flight ticket_data) ;;
      create_tickets order rest
  end.

(** [OrderSerializer.create]; [validated_data] is the validated [tickets]
    and the [user] the view passes to [save]. *)
Definition create (now user : Z) (tickets_data : list TicketAttrs.t)
  : M Order.t :=
  atomic (order <~ Order_objects_create now user ;;
          _ <~ create_tickets order tickets_data ;;
          ret order).

End OrderSerializer.

(** The validated data of a flight. *)
Module FlightAttrs.
Record t : Type := Build
  { route : Route.t;
    airplane : Airplane.t;
    departure_time : Z;
    arrival_time : Z;
    crew : list Z }.
End FlightAttrs.

(** The body of a flight request. *)
Module FlightData.
Record t : Type := Build
  { route : Z;
    airplane : Z;
    departure_time : Z;
    arrival_time : Z;
    crew : list Z }.
End FlightData.

Module FlightSerializer.

Definition pk_field {A : Type} (pk_of : A -> Z) (table : list A) (pk : Z)
           (field : string) : result A :=
  match get pk_of table pk with
  | Some r => Ok r
  | None => Raise (DRF_ValidationError [field])
  end.

(** The fields of the serializer; [crew] is a list of primary keys that may
    not be empty, as the model field is not [blank]. *)
Definition to_internal_value (db : DB) (data : FlightData.t)
  : result FlightAttrs.t :=
  route <- pk_field Route.id (routes db) (FlightData.route data) "route" ;;
  airplane <- pk_field Airplane.id (airplanes db)
                       (FlightData.airplane data) "airplane" ;;
  if match FlightData.crew data with [] => true | _ => false end ||
     negb (forallb (fun c => existsb (Z.eqb c) (crews db))
                   (FlightData.crew data))
  then Raise (DRF_ValidationError ["crew"])
  else Ok (FlightAttrs.Build route airplane
                             (FlightData.departure_time data)
                             (FlightData.arrival_time data)
                             (FlightData.crew data)).

(** [FlightSerializer.validate] *)
Definition validate (attrs : FlightAttrs.t) : result FlightAttrs.t :=
  let data := attrs in
  if FlightAttrs.departure_time attrs >=? FlightAttrs.arrival_time attrs
  then Raise (DRF_ValidationError
                ["Arrival time must be later than departure time."])
  else Ok data.

Definition run_validation (db : DB) (data : FlightData.t)
  : result FlightAttrs.t :=
  attrs <- to_internal_value db data ;;
  validate attrs.

(** [ModelSerializer.create]: the row is created by the manager, that is
    built and saved, then the crew is set. *)
Definition create (attrs : FlightAttrs.t) : M Flight.t :=
  instance <~ Flight_save true
     (Flight.Build 0 (Route.id (FlightAttrs.route attrs))
                   (Airplane.id (FlightAttrs.airplane attrs))
                   (FlightAttrs.departure_time attrs)
                   (FlightAttrs.arrival_time attrs)) ;;
  fun db =>
    (set_flight_crew
       (flight_crew db ++
        map (fun c => (Flight.id instance, c)) (nodup Z.eq_dec
                                                  (FlightAttrs.crew attrs)))
       db,
     Ok instance).

End FlightSerializer.

(** The body of an airplane request. *)
Module AirplaneData.
Record t : Type := Build
  { name : string;
    rows : Z;
    seats_in_row : Z;
    airplane_type : Z }.
End AirplaneData.

Module AirplaneSerializer.
Section Backend.

(** The range of an [IntegerField] on the database backend in use; the
    serializer takes the bounds of its integer fields from it. *)
Variables min_value max_value : Z.

Definition integer_field (field : string) (value : Z) : list string :=
  if (min_value <=? value) && (value <=? max_value) then [] else [field].

(** A [CharField(max_length=255)]: the value is stripped and may not be
    blank; the validators of the field then refuse a value of more than
    255 characters and a value with a null character in it. *)
Definition char_field (field : string) (value : string) : list string :=
  let v := strip value in
  if (0 <? Z.of_nat (String.length v)) &&
     (Z.of_nat (String.length v) <=? 255) && negb (has_null v)
  then [] else [field].

(** [AirplaneSerializer] declares fields only: its validation is that of
    the fields [name], [rows], [seats_in_row] and [airplane_type]. *)
Definition run_validation (db : DB) (data : AirplaneData.t)
  : result AirplaneData.t :=
  match char_field "name" (AirplaneData.name data) ++
        integer_field "rows" (AirplaneData.rows data) ++
        integer_field "seats_in_row" (AirplaneData.seats_in_row data) ++
        (if existsb (Z.eqb (AirplaneData.airplane_type data))
                    (airplane_types db)
         then [] else ["airplane_type"])
  with
  | [] => Ok (AirplaneData.Build (strip (AirplaneData.name data))
                                 (AirplaneData.rows data)
                                 (AirplaneData.seats_in_row data)
                                 (AirplaneData.airplane_type data))
  | errors => Raise (DRF_ValidationError errors)
  end.

(** [ModelSerializer.create]: [Airplane] does not override [save]. *)
Definition create (validated_data : AirplaneData.t) : M Airplane.t :=
  fun db =>
    let r := Airplane.Build (fresh_id Airplane.id (airplanes db))
                            (AirplaneData.name validated_data)
                            (AirplaneData.rows validated_data)
                            (AirplaneData.seats_in_row validated_data)
                            (AirplaneData.airplane_type validated_data) in
    (set_airplanes (airplanes db ++ [r]) db, Ok r).

End Backend.
End AirplaneSerializer.

(** ** Views ([views.py]) *)

(** The query parameters [FlightViewSet.get_queryset] reads;
    [query_params.get] gives [None] for a parameter that is absent. *)
Module QueryParams.
Record t : Type := Build
  { source_airport : option string;
    destination_airport : option string;
    source_city : option string;
    destination_city : option string;
    airplane : option string;
    crew : option string;
    date_departure : option string;
    date_arrival : option string }.
End QueryParams.

Module FlightViewSet.

(** The comprehension [[int(str_id) for str_id in pieces]]. *)
Fixpoint int_each (pieces : list string) : result (list Z) :=
  match pieces with
  | [] => Ok []
  | str_id :: rest =>
      match int str_id with
      | Some n => ns <- int_each rest ;; Ok (n :: ns)
      | None => Raise ValueError
      end
  end.

(** [FlightViewSet._params_to_ints] *)
Definition _params_to_ints (qs : string) : result (list Z) :=
  int_each (split "," qs).

(** A queryset is the list of the rows its query selects; a row is there
    once for each way the joins of the query match it. *)
Definition QuerySet : Type := list Flight.t.

(** The airport a flight leaves from ([route__source]) or goes to
    ([route__destination]), through the joins of the query. *)
Definition route_airport (db : DB) (side : Route.t -> Z) (f : Flight.t)
  : option Airport.t :=
  match get Route.id (routes db) (Flight.route f) with
  | Some r => get Airport.id (airports db) (side r)
  | None => None
  end.

Definition airport_icontains (db : DB) (side : Route.t -> Z)
           (field : Airport.t -> string) (value : string) (f : Flight.t)
  : bool :=
  match route_airport db side f with
  | Some a => icontains (field a) value
  | None => false
  end.

Definition airplane_icontains (db : DB) (value : string) (f : Flight.t)
  : bool :=
  match get Airplane.id (airplanes db) (Flight.airplane f) with
  | Some a => icontains (Airplane.name a) value
  | None => false
  end.

(** [queryset.filter(...)] on columns of the flight or of rows it has one
    of. *)
Definition filter_by (p : Flight.t -> bool) (queryset : QuerySet)
  : QuerySet :=
  filter p queryset.

(** [queryset.filter(crew__id__in=crew_ids)]: the join with the crew table
    gives a flight once for every crew member of it that is in [crew_ids].
    A list [l] stands for the SQL list [IN (...)], in which a value written
    twice matches once. *)
Definition filter_crew_id_in (db : DB) (crew_ids : list Z)
           (queryset : QuerySet) : QuerySet :=
  flat_map
    (fun f =>
       map (fun _ => f)
           (filter (fun fc => (fst fc =? Flight.id f) &&
                              existsb (Z.eqb (snd fc)) crew_ids)
                   (flight_crew db)))
    queryset.

Definition Flight_eqb (a b : Flight.t) : bool :=
  (Flight.id a =? Flight.id b) && (Flight.route a =? Flight.route b) &&
  (Flight.airplane a =? Flight.airplane b) &&
  (Flight.departure_time a =? Flight.departure_time b) &&
  (Flight.arrival_time a =? Flight.arrival_time b).

(** [queryset.distinct()]: equal rows are kept once. *)
Fixpoint distinct (queryset : QuerySet) : QuerySet :=
  match queryset with
  | [] => []
  | f :: rest =>
      f :: filter (fun g => negb (Flight_eqb g f)) (distinct rest)
  end.

Fixpoint insert_by_departure (f : Flight.t) (sorted : QuerySet) : QuerySet :=
  match sorted with
  | [] => [f]
  | g :: rest =>
      if Flight.departure_time f <=? Flight.departure_time g
      then f :: sorted
      else g :: insert_by_departure f rest
  end.

(** [queryset.order_by("departure_time")] *)
Definition order_by_departure_time (queryset : QuerySet) : QuerySet :=
  fold_right insert_by_departure [] queryset.

Section Dates.

(** Calendar dates, and the two library functions the date filters go
    through: [datetime.strptime(s, "%Y-%m-%d").date()], with [None] for
    the [ValueError] of a string it cannot parse, and the instant a
    [DateTimeField] is compared with when the bound is a date (the start of
    that day). *)
Variable date : Type.
Variable strptime_date : string -> option date.
Variable start_of_day : date -> Z.

Definition when_given (p : option string)
           (f : string -> QuerySet -> result QuerySet)
           (queryset : QuerySet) : result QuerySet :=
  match truthy p with
  | Some value => f value queryset
  | None => Ok queryset
  end.

Definition filter_date_gte (column : Flight.t -> Z) (value : string)
           (queryset : QuerySet) : result QuerySet :=
  match strptime_date value with
  | Some d => Ok (filter_by (fun f => column f >=? start_of_day d) queryset)
  | None => Raise ValueError
  end.

(** [FlightViewSet.get_queryset].  The branches on [self.action] choose
    what is fetched along with the flights (the tickets, the crew), not
    the flights, and are left out. *)
Definition get_queryset (db : DB) (query_params : QueryParams.t)
  : result QuerySet :=
  let queryset := flights db in
  queryset <- when_given (QueryParams.source_airport query_params)
    (fun source_airport q =>
       Ok (filter_by (airport_icontains db Route.source Airport.name
                                        source_airport) q)) queryset ;;
  queryset <- when_given (QueryParams.destination_airport query_params)
    (fun destination_airport q =>
       Ok (filter_by (airport_icontains db Route.destination Airport.name
                                        destination_airport) q)) queryset ;;
  queryset <- when_given (QueryParams.source_city query_params)
    (fun source_city q =>
       Ok (filter_by (airport_icontains db Route.source
                                        Airport.closest_big_city
                                        source_city) q)) queryset ;;
  queryset <- when_given (QueryParams.destination_city query_params)
    (fun dc q =>
       Ok (filter_by (airport_icontains db Route.destination
                                        Airport.closest_big_city dc) q))
    queryset ;;
  queryset <- when_given (QueryParams.airplane query_params)
    (fun airplane q => Ok (filter_by (airplane_icontains db airplane) q))
    queryset ;;
  queryset <- when_given (QueryParams.crew query_params)
    (fun crew q =>
       crew_ids <- _params_to_ints crew ;;
       Ok (filter_crew_id_in db crew_ids q)) queryset ;;
  queryset <- when_given (QueryParams.date_departure query_params)
    (filter_date_gte Flight.departure_time) queryset ;;
  queryset <- when_given (QueryParams.date_arrival query_params)
    (filter_date_gte Flight.arrival_time) queryset ;;
  Ok (order_by_departure_time (distinct queryset)).

End Dates.

Arguments filter_date_gte {date} strptime_date start_of_day column value
  queryset.
Arguments get_queryset {date} strptime_date start_of_day db query_params.

(** [CreateModelMixin.create] with [FlightSerializer]. *)
Definition create (data : FlightData.t) : M Flight.t :=
  attrs <~ (fun db => (db, FlightSerializer.run_validation db data)) ;;
  FlightSerializer.create attrs.

End FlightViewSet.

Module OrderViewSet.

(** [OrderViewSet.get_queryset]; what is fetched along with the orders for
    [list] and [retrieve] does not change which orders there are. *)
Definition get_queryset (db : DB) (user : Z) : list Order.t :=
  let queryset := orders db in
  let queryset := filter (fun o => Order.user o =? user) queryset in
  queryset.

(** [get_object]: the row of the queryset with the key of the request. *)
Definition get_object (db : DB) (user pk : Z) : result Order.t :=
  match get Order.id (get_queryset db user) pk with
  | Some o => Ok o
  | None => Raise Http404
  end.

(** [RetrieveModelMixin.retrieve] *)
Definition retrieve (user pk : Z) : M Order.t :=
  fun db => (db, get_object db user pk).

(** [DestroyModelMixin.destroy] *)
Definition destroy (user pk : Z) : M unit :=
  instance <~ (fun db => (db, get_object db user pk)) ;;
  Order_delete instance.

(** [CreateModelMixin.create] with [OrderSerializer] and [perform_create]:
    the request is validated, then saved for the user of the request.  This
    is the operation [create_order(user, ticket_specs)]. *)
Definition create (now user : Z) (ticket_specs : list TicketSpec.t)
  : M Order.t :=
  tickets_data <~ (fun db => (db, OrderSerializer.tickets db ticket_specs)) ;;
  OrderSerializer.create now user tickets_data.

(** [ListModelMixin.list]; the response shows the queryset page by page. *)
Definition list (db : DB) (user : Z) : list Order.t := get_queryset db user.

End OrderViewSet.

Module AirplaneViewSet.
Section Backend.
Variables min_value max_value : Z.

(** [CreateModelMixin.create] with [AirplaneSerializer]. *)
Definition create (data : AirplaneData.t) : M Airplane.t :=
  validated_data <~
    (fun db => (db, AirplaneSerializer.run_validation min_value max_value
                                                     db data)) ;;
  AirplaneSerializer.create validated_data.

End Backend.
End AirplaneViewSet.

(** The store a request leaves behind, and its outcome. *)
Definition store_after {A : Type} (r : DB * result A) : DB := fst r.
Definition outcome {A : Type} (r : DB * result A) : result A := snd r.

(** ** A small store

    The fixtures of the tests: two airports, a route between them, an
    airplane of 20 rows of 6 seats, three crew members, and flights of that
    airplane on that route. *)

Definition sample_db : DB :=
  BuildDB [ Airport.Build 1 "Airport1" "City1";
            Airport.Build 2 "Airport2" "City2" ]
          [ Route.Build 1 1 2 600; Route.Build 2 2 1 600 ]
          [ 1 ]
          [ Airplane.Build 1 "Boeing" 20 6 1 ]
          [ 1; 2; 3 ]
          [ Flight.Build 1 1 1 300 400;
            Flight.Build 2 1 1 100 200;
            Flight.Build 3 2 1 200 500 ]
          [ (1, 1); (2, 2); (2, 3); (3, 3) ]
          []
          [].

(** The same store with an airplane of one row only. *)
Definition narrow_db : DB :=
  set_airplanes [ Airplane.Build 1 "Glider" 1 6 1 ] sample_db.

(** The store of the tests after user 7 has ordered two seats of flight 1
    and then user 8 one seat. *)
Definition booked_db : DB :=
  store_after (OrderViewSet.create 1000 7
                 [TicketSpec.Build 5 1 1; TicketSpec.Build 5 2 1] sample_db).

Definition two_users_db : DB :=
  store_after (OrderViewSet.create 1001 8 [TicketSpec.Build 6 1 1]
                                   booked_db).

Definition no_params : QueryParams.t :=
  QueryParams.Build None None None None None None None None.

Definition crew_params (crew : string) : QueryParams.t :=
  QueryParams.Build None None None None None (Some crew) None None.

(** ** Properties of stores *)

(** The seat a ticket takes: the columns of
    [unique_together = ["row", "seat", "flight"]]. *)
Definition seat_key (t : Ticket.t) : Z * Z * Z :=
  (Ticket.row t, Ticket.seat t, Ticket.flight t).

Definition spec_key (s : TicketSpec.t) : Z * Z * Z :=
  (TicketSpec.row s, TicketSpec.seat s, TicketSpec.flight s).

(** What a stored ticket says, its own key apart. *)
Definition ticket_fields (t : Ticket.t) : Z * Z * Z * Z :=
  (Ticket.row t, Ticket.seat t, Ticket.flight t, Ticket.order t).

(** What the ticket asked for by [s] says once it belongs to [order]. *)
Definition requested_fields (order : Order.t) (s : TicketSpec.t)
  : Z * Z * Z * Z :=
  (TicketSpec.row s, TicketSpec.seat s, TicketSpec.flight s, Order.id order).

Definition seats_unique (db : DB) : Prop :=
  NoDup (map seat_key (tickets db)).

Definition every_order_has_a_ticket (db : DB) : Prop :=
  forall o, In o (orders db) ->
            exists t, In t (tickets db) /\ Ticket.order t = Order.id o.

Definition every_ticket_has_its_order (db : DB) : Prop :=
  forall t, In t (tickets db) ->
            exists o, In o (orders db) /\ Order.id o = Ticket.order t.

Definition attrs_key (a : TicketAttrs.t) : Z * Z * Z :=
  (TicketAttrs.row a, TicketAttrs.seat a, Flight.id (TicketAttrs.flight a)).

Definition attrs_fields (order : Order.t) (a : TicketAttrs.t)
  : Z * Z * Z * Z :=
  (TicketAttrs.row a, TicketAttrs.seat a, Flight.id (TicketAttrs.flight a),
   Order.id order).

(** The three properties of orders and tickets together. *)
Definition consistent (db : DB) : Prop :=
  every_order_has_a_ticket db /\ every_ticket_has_its_order db /\
  seats_unique db.

(** The seat is inside the grid the way [validate_ticket] asks. *)
Definition in_range (row seat : Z) (airplane : Airplane.t) : Prop :=
  0 < row < Airplane.rows airplane /\
  0 < seat < Airplane.seats_in_row airplane.

(** Validated data the way the ticket serializer leaves it: the flight is
    the stored one, its airplane is stored and the seat is inside its
    grid. *)
Definition well_validated (db : DB) (a : TicketAttrs.t) : Prop :=
  get Flight.id (flights db) (Flight.id (TicketAttrs.flight a)) =
  Some (TicketAttrs.flight a) /\
  exists airplane,
    get Airplane.id (airplanes db) (Flight.airplane (TicketAttrs.flight a)) =
    Some airplane /\
    in_range (TicketAttrs.row a) (TicketAttrs.seat a) airplane.

(** What the fields of the airplane serializer ask of a request. *)
Definition airplane_fields_valid (min_value max_value : Z) (db : DB)
           (data : AirplaneData.t) : bool :=
  let v := strip (AirplaneData.name data) in
  (0 <? Z.of_nat (String.length v)) && (Z.of_nat (String.length v) <=? 255) &&
  negb (has_null v) &&
  ((min_value <=? AirplaneData.rows data) &&
   (AirplaneData.rows data <=? max_value)) &&
  ((min_value <=? AirplaneData.seats_in_row data) &&
   (AirplaneData.seats_in_row data <=? max_value)) &&
  existsb (Z.eqb (AirplaneData.airplane_type data)) (airplane_types db).

(** A filter on a text column, applied when its parameter is given. *)
Definition optional_filter (p : option string)
           (g : string -> Flight.t -> bool) (q : FlightViewSet.QuerySet)
  : FlightViewSet.QuerySet :=
  match truthy p with
  | Some v => FlightViewSet.filter_by (g v) q
  | None => q
  end.

(** The flights left by the five filters of [get_queryset] that cannot
    raise: airports, cities and airplane. *)
Definition text_filters (db : DB) (params : QueryParams.t)
  : FlightViewSet.QuerySet :=
  optional_filter (QueryParams.airplane params)
    (FlightViewSet.airplane_icontains db)
    (optional_filter (QueryParams.destination_city params)
       (FlightViewSet.airport_icontains db Route.destination
                                        Airport.closest_big_city)
       (optional_filter (QueryParams.source_city params)
          (FlightViewSet.airport_icontains db Route.source
                                           Airport.closest_big_city)
          (optional_filter (QueryParams.destination_airport params)
             (FlightViewSet.airport_icontains db Route.destination
                                              Airport.name)
             (optional_filter (QueryParams.source_airport params)
                (FlightViewSet.airport_icontains db Route.source
                                                 Airport.name)
                (flights db))))).

(** Flights in the order of their departure. *)
Definition by_departure (a b : Flight.t) : Prop :=
  Flight.departure_time a <= Flight.departure_time b.

(** The flight has a crew member whose key is in [ids]. *)
Definition crew_intersects (db : DB) (ids : list Z) (f : Flight.t) : Prop :=
  exists c, In c ids /\ In (Flight.id f, c) (flight_crew db).

(** A date library for queries that give no date. *)
Definition no_date : string -> option Z := fun _ => None.

(** The tables the order requests do not write. *)
Definition same_catalogue (db db' : DB) : Prop :=
  airports db' = airports db /\ routes db' = routes db /\
  airplane_types db' = airplane_types db /\ airplanes db' = airplanes db /\
  crews db' = crews db /\ flights db' = flights db /\
  flight_crew db' = flight_crew db.

(** Number of entries of a request that are for flight [f]. *)
Definition specs_on (f : Flight.t) (specs : list TicketSpec.t) : Z :=
  Z.of_nat (List.length
              (filter (fun s => TicketSpec.flight s =? Flight.id f) specs)).

(** Number of stored tickets of the order with key [pk] on flight [f]. *)
Definition tickets_of_order_on (db : DB) (pk : Z) (f : Flight.t) : Z :=
  Z.of_nat (List.length
              (filter (fun t => (Ticket.order t =? pk) &&
                                (Ticket.flight t =? Flight.id f))
                      (tickets db))).

(** ** The stores the API can reach *)

Section Reachable.

Variables min_value max_value : Z.

(** The requests that write to the store. *)
Inductive request : Type :=
| CreateOrder (now user : Z) (ticket_specs : list TicketSpec.t)
| DestroyOrder (user pk : Z)
| CreateFlight (data : FlightData.t)
| CreateAirplane (data : AirplaneData.t).

Definition handle (req : request) (db : DB) : DB :=
  match req with
  | CreateOrder now user ticket_specs =>
      store_after (OrderViewSet.create now user ticket_specs db)
  | DestroyOrder user pk => store_after (OrderViewSet.destroy user pk db)
  | CreateFlight data => store_after (FlightViewSet.create data db)
  | CreateAirplane data =>
      store_after (AirplaneViewSet.create min_value max_value data db)
  end.

(** A store is reachable when requests lead to it from a store without
    orders and tickets. *)
Inductive reachable : DB -> Prop :=
| reachable_start db :
    orders db = [] -> tickets db = [] -> reachable db
| reachable_step db req :
    reachable db -> reachable (handle req db).

End Reachable.

(** ** Further properties of stores and requests *)

(** An entry of an order request that the ticket serializer accepts on
    the store: its flight and the airplane of the flight are stored, the
    seat is inside the grid and no stored ticket has it. *)
Definition entry_acceptable (db : DB) (s : TicketSpec.t) : Prop :=
  exists flight airplane,
    get Flight.id (flights db) (TicketSpec.flight s) = Some flight /\
    get Airplane.id (airplanes db) (Flight.airplane flight) = Some airplane /\
    in_range (TicketSpec.row s) (TicketSpec.seat s) airplane /\
    ~ In (spec_key s) (map seat_key (tickets db)).

(** Every stored ticket is on a stored flight, inside the grid of the
    airplane of the flight. *)
Definition tickets_in_grid (db : DB) : Prop :=
  forall t, In t (tickets db) ->
    exists flight airplane,
      get Flight.id (flights db) (Ticket.flight t) = Some flight /\
      get Airplane.id (airplanes db) (Flight.airplane flight)
      = Some airplane /\
      in_range (Ticket.row t) (Ticket.seat t) airplane.

(** Every stored flight leaves before it arrives, on a stored route with a
    stored airplane. *)
Definition flights_valid (db : DB) : Prop :=
  forall f, In f (flights db) ->
    Flight.departure_time f < Flight.arrival_time f /\
    (exists r, get Route.id (routes db) (Flight.route f) = Some r) /\
    (exists a, get Airplane.id (airplanes db) (Flight.airplane f) = Some a).

(** What the flight serializer asks of a request: a stored route and a
    stored airplane, a crew that is not empty and made of stored crew
    members, and a departure before the arrival. *)
Definition flight_data_valid (db : DB) (data : FlightData.t) : Prop :=
  (exists r, get Route.id (routes db) (FlightData.route data) = Some r) /\
  (exists a, get Airplane.id (airplanes db) (FlightData.airplane data)
             = Some a) /\
  FlightData.crew data <> [] /\
  (forall c, In c (FlightData.crew data) -> In c (crews db)) /\
  FlightData.departure_time data < FlightData.arrival_time data.

(** The seats of the grid that [validate_ticket] lets through. *)
Definition bookable_seats (airplane : Airplane.t) : Z :=
  Z.max 0 (Airplane.rows airplane - 1) *
  Z.max 0 (Airplane.seats_in_row airplane - 1).

(** The numbers [1 .. n - 1]. *)
Definition below (n : Z) : list Z :=
  map (fun k => Z.of_nat k) (seq 1 (Z.to_nat (n - 1))).

(** ** What a flight query asks of a flight *)

(** [P] holds of the parameter when it is given (not empty). *)
Definition when_param (p : option string) (P : string -> Prop) : Prop :=
  forall value, truthy p = Some value -> P value.


(** The parameters that are parsed can be parsed. *)
Definition query_well_formed {date : Type}
           (strptime_date : string -> option date) (params : QueryParams.t)
  : Prop :=
  when_param (QueryParams.crew params)
    (fun v => forall piece, In piece (split "," v) -> int piece <> None) /\
  when_param (QueryParams.date_departure params)
    (fun v => strptime_date v <> None) /\
  when_param (QueryParams.date_arrival params)
    (fun v => strptime_date v <> None).

(** The parameters with the empty ones taken as absent. *)
Definition without_empty (params : QueryParams.t) : QueryParams.t :=
  QueryParams.Build (truthy (QueryParams.source_airport params))
                    (truthy (QueryParams.destination_airport params))
                    (truthy (QueryParams.source_city params))
                    (truthy (QueryParams.destination_city params))
                    (truthy (QueryParams.airplane params))
                    (truthy (QueryParams.crew params))
                    (truthy (QueryParams.date_departure params))
                    (truthy (QueryParams.date_arrival params)).

(** ** Display strings and the flights of an order ([models.py],
    [serializers.py]) *)

(** [Airport.__str__], which is also [Airport.name_city]. *)
Definition Airport_str (self : Airport.t) : string :=
  (Airport.name self ++ " (" ++ Airport.closest_big_city self ++ ")")%string.

(** [Route.source_dest] *)
Definition Route_source_dest (db : DB) (self : Route.t) : result string :=
  source <- related Airport.id (airports db) (Route.source self) ;;
  destination <- related Airport.id (airports db) (Route.destination self) ;;
  Ok (Airport_str source ++ " - " ++ Airport_str destination)%string.

(** An entry of the list [OrderDetailSerializer.get_flights] returns. *)
Module FlightGroup.
Record t : Type := Build
  { id : Z;
    route : string;
    airplane : string;
    departure_time : Z;
    arrival_time : Z;
    tickets : list (Z * Z) }.      (* row and seat, [TicketSeatsSerializer] *)
End FlightGroup.

Module OrderDetailSerializer.

(** The dictionary [flights] of [get_flights]: the keys in the order in
    which they were put in, each with its value. *)
Definition Flights : Type := list (Z * FlightGroup.t).

Definition has_key (key : Z) (d : Flights) : bool :=
  existsb (fun kv => fst kv =? key) d.

(** [flights[key]["tickets"].append(seat)] *)
Definition append_ticket (key : Z) (seat : Z * Z) (d : Flights) : Flights :=
  map (fun kv =>
         if fst kv =? key
         then (fst kv,
               FlightGroup.Build (FlightGroup.id (snd kv))
                                 (FlightGroup.route (snd kv))
                                 (FlightGroup.airplane (snd kv))
                                 (FlightGroup.departure_time (snd kv))
                                 (FlightGroup.arrival_time (snd kv))
                                 (FlightGroup.tickets (snd kv) ++ [seat]))
         else kv) d.

(** The value put in for a flight seen for the first time. *)
Definition new_entry (db : DB) (flight : Flight.t) : result FlightGroup.t :=
  route <- related Route.id (routes db) (Flight.route flight) ;;
  source_dest <- Route_source_dest db route ;;
  airplane <- related Airplane.id (airplanes db) (Flight.airplane flight) ;;
  Ok (FlightGroup.Build (Flight.id flight) source_dest
                        (Airplane.name airplane)
                        (Flight.departure_time flight)
                        (Flight.arrival_time flight) []).

(** The loop of [get_flights] over the tickets of the order. *)
Fixpoint for_tickets (db : DB) (order_tickets : list Ticket.t)
         (d : Flights) : result Flights :=
  match order_tickets with
  | [] => Ok d
  | ticket :: rest =>
      flight <- related Flight.id (flights db) (Ticket.flight ticket) ;;
      d <- (if has_key (Flight.id flight) d
            then Ok d
            else entry <- new_entry db flight ;;
                 Ok (d ++ [(Flight.id flight, entry)])) ;;
      for_tickets db rest
                  (append_ticket (Flight.id flight)
                                 (Ticket.row ticket, Ticket.seat ticket) d)
  end.

(** [OrderDetailSerializer.get_flights]; [order_tickets] is
    [obj.tickets.all()], the tickets of the order in the order in which
    the query gives them. *)
Definition get_flights (db : DB) (order_tickets : list Ticket.t)
  : result (list FlightGroup.t) :=
  d <- for_tickets db order_tickets [] ;;
  Ok (map snd d).

End OrderDetailSerializer.

(** The keys of [l] in the order in which they first appear, those of
    [seen] left out. *)
Fixpoint first_seen (seen l : list Z) : list Z :=
  match l with
  | [] => []
  | k :: rest =>
      if existsb (Z.eqb k) seen then first_seen seen rest
      else k :: first_seen (seen ++ [k]) rest
  end.

(** The row and seat of the tickets of [ts] that are on flight [key]. *)
Definition seats_on (key : Z) (ts : list Ticket.t) : list (Z * Z) :=
  map (fun t => (Ticket.row t, Ticket.seat t))
      (filter (fun t => Ticket.flight t =? key) ts).

(** The flights, routes, airports and airplanes that tickets lead to are
    stored. *)
Definition references_stored (db : DB) (ts : list Ticket.t) : Prop :=
  forall t, In t ts ->
    exists flight route source destination airplane,
      get Flight.id (flights db) (Ticket.flight t) = Some flight /\
      get Route.id (routes db) (Flight.route flight) = Some route /\
      get Airport.id (airports db) (Route.source route) = Some source /\
      get Airport.id (airports db) (Route.destination route)
      = Some destination /\
      get Airplane.id (airplanes db) (Flight.airplane flight)
      = Some airplane.

(** The seats listed so far under [key] in the dictionary, none when the
    key is not there. *)
Definition entry_seats (d : OrderDetailSerializer.Flights) (key : Z)
  : list (Z * Z) :=
  match find (fun kv => fst kv =? key) d with
  | Some kv => FlightGroup.tickets (snd kv)
  | None => []
  end.

(** ** Writing a crew parameter

    The tests write the crew parameter of a query from the keys of the
    crew members, [f"{crew1.id}, {crew2.id}"]; the documentation of the
    parameter writes it without the space, [?crew=2,3]. *)

(** The decimal digits of [n], which is not negative, put before [rest];
    [fuel] bounds their number. *)
Fixpoint digits (fuel : nat) (n : Z) (rest : string) : string :=
  match fuel with
  | O => rest
  | S fuel' =>
      let rest' := String (ascii_of_nat (Z.to_nat (48 + n mod 10))) rest in
      if n <? 10 then rest' else digits fuel' (n / 10) rest'
  end.

(** [str(n)] for an integer [n]. *)
Definition str (n : Z) : string :=
  if n <? 0
  then String "-" (digits (S (Z.to_nat (Z.log2 (- n)))) (- n) EmptyString)
  else digits (S (Z.to_nat (Z.log2 n))) n EmptyString.

(** The keys written one after the other with a comma between them,
    followed by a space when [spaced]. *)
Fixpoint write_ids (spaced : bool) (ids : list Z) : string :=
  match ids with
  | [] => EmptyString
  | [n] => str n
  | n :: rest =>
      (str n ++ String "," (if spaced then " " else "") ++
       write_ids spaced rest)%string
  end.

(** No character of the string is a comma or white space. *)
Fixpoint plain (s : string) : bool :=
  match s with
  | EmptyString => true
  | String c s' => negb (Ascii.eqb c ",") && negb (is_space c) && plain s'
  end.

(** The pieces between the commas of [write_ids spaced ids]. *)
Definition written_pieces (spaced : bool) (ids : list Z) : list string :=
  match ids with
  | [] => [EmptyString]
  | n :: rest =>
      str n :: map (fun m => ((if spaced then " " else "") ++ str m)%string)
                   rest
  end.

(** [taken_places] of [FlightDetailSerializer]: the row and seat of the
    tickets of the flight ([TicketSeatsSerializer] over [flight.tickets]),
    here in the order of the table. *)
Definition taken_places (db : DB) (flight : Flight.t) : list (Z * Z) :=
  seats_on (Flight.id flight) (tickets db).

(** * Proofs *)

(** ** The seat validator *)

Lemma validate_ticket_spec (row seat : Z) (airplane : Airplane.t)
      (error_to_raise : list string -> exn) :
  Ticket.validate_ticket row seat airplane error_to_raise = Ok tt <->
  in_range row seat airplane.
Proof.
  unfold Ticket.validate_ticket, in_range; simpl.
  destruct (Z.ltb_spec 0 row), (Z.ltb_spec row (Airplane.rows airplane)),
    (Z.ltb_spec 0 seat), (Z.ltb_spec seat (Airplane.seats_in_row airplane));
    simpl; split; intros H'; try reflexivity; try discriminate; lia.
Qed.

Lemma validate_ticket_raises (row seat : Z) (airplane : Airplane.t)
      (error_to_raise : list string -> exn) :
  ~ in_range row seat airplane ->
  exists field,
    Ticket.validate_ticket row seat airplane error_to_raise =
    Raise (error_to_raise [field]).
Proof.
  intros Hout.
  destruct (Ticket.validate_ticket row seat airplane error_to_raise)
    as [[]|e] eqn:E.
  - apply validate_ticket_spec in E. contradiction.
  - unfold Ticket.validate_ticket in E; simpl in E.
    destruct ((0 <? row) && (row <? Airplane.rows airplane)); simpl in E.
    + destruct ((0 <? seat) && (seat <? Airplane.seats_in_row airplane));
        simpl in E; [discriminate|].
      exists "seat". congruence.
    + exists "row". congruence.
Qed.

Lemma get_some {A : Type} (pk_of : A -> Z) (table : list A) (pk : Z) (r : A) :
  get pk_of table pk = Some r -> In r table /\ pk_of r = pk.
Proof.
  unfold get. intros H. apply find_some in H. destruct H as [H1 H2].
  split; [assumption | now apply Z.eqb_eq].
Qed.

Lemma get_none {A : Type} (pk_of : A -> Z) (table : list A) (pk : Z) :
  get pk_of table pk = None -> forall r, In r table -> pk_of r <> pk.
Proof.
  unfold get. intros H r Hin Heq.
  apply (find_none _ _ H) in Hin. apply Z.eqb_neq in Hin. contradiction.
Qed.

Lemma get_in {A : Type} (pk_of : A -> Z) (table : list A) (r : A) :
  In r table -> exists r', get pk_of table (pk_of r) = Some r'.
Proof.
  intros Hin. destruct (get pk_of table (pk_of r)) as [r'|] eqn:E.
  - now exists r'.
  - exfalso. exact (get_none _ _ _ E r Hin eq_refl).
Qed.

(** ** Saving a ticket *)

Lemma Ticket_validate_unique_cases (db : DB) (adding : bool)
      (exclude : list string) (self : Ticket.t) :
  Ticket_validate_unique db adding exclude self = Ok tt \/
  Ticket_validate_unique db adding exclude self =
  Raise (Django_ValidationError ["__all__"]).
Proof.
  unfold Ticket_validate_unique.
  destruct (mem "row" exclude || mem "seat" exclude || mem "flight" exclude);
    [now left|].
  destruct (existsb _ (tickets db)); [now right | now left].
Qed.

(** What [full_clean] has checked when it lets a ticket through. *)
Lemma Ticket_full_clean_ok (db : DB) (adding : bool) (self : Ticket.t) :
  Ticket_full_clean db adding self = Ok tt ->
  exists flight airplane,
    get Flight.id (flights db) (Ticket.flight self) = Some flight /\
    get Airplane.id (airplanes db) (Flight.airplane flight) = Some airplane /\
    in_range (Ticket.row self) (Ticket.seat self) airplane /\
    (exists o, get Order.id (orders db) (Ticket.order self) = Some o) /\
    Ticket_validate_unique db adding [] self = Ok tt.
Proof.
  unfold Ticket_full_clean, Ticket_clean_fields, Ticket_clean, check_fk,
    related.
  destruct (get Flight.id (flights db) (Ticket.flight self)) as [f|];
    simpl; [|discriminate].
  destruct (get Airplane.id (airplanes db) (Flight.airplane f)) as [a|]
    eqn:Ea;
    simpl; [|destruct (get Order.id (orders db) (Ticket.order self));
             discriminate].
  destruct (Ticket.validate_ticket (Ticket.row self) (Ticket.seat self) a
                                   Django_ValidationError) as [[]|e] eqn:V.
  - apply validate_ticket_spec in V.
    destruct (get Order.id (orders db) (Ticket.order self)) as [o|]; simpl.
    + destruct (Ticket_validate_unique_cases db adding [] self) as [U|U];
        rewrite U; simpl; [|discriminate].
      intros _. exists f, a.
      split; [reflexivity|]. split; [exact Ea|]. split; [exact V|].
      split; [now exists o | reflexivity].
    + destruct (Ticket_validate_unique_cases db adding ["order"] self)
        as [U|U]; rewrite U; simpl; discriminate.
  - destruct (validate_ticket_raises (Ticket.row self) (Ticket.seat self)
                                     a Django_ValidationError) as [field V'].
    { intros Hr. apply (validate_ticket_spec _ _ _ Django_ValidationError)
        in Hr. congruence. }
    rewrite V in V'. injection V' as ->.
    destruct (get Order.id (orders db) (Ticket.order self)) as [o|]; simpl.
    + destruct (Ticket_validate_unique_cases db adding [field] self)
        as [U|U]; rewrite U; simpl; discriminate.
    + destruct (Ticket_validate_unique_cases db adding ("order" :: [field])
                                             self)
        as [U|U]; rewrite U; simpl; discriminate.
Qed.

Lemma same_seat_key (a b : Ticket.t) :
  same_seat a b = true <-> seat_key a = seat_key b.
Proof.
  unfold same_seat, seat_key. rewrite !andb_true_iff, !Z.eqb_eq.
  split.
  - intros [[-> ->] ->]. reflexivity.
  - intros H. injection H as -> -> ->. auto.
Qed.

(** A new ticket passes the uniqueness check exactly when no stored ticket
    has its seat. *)
Lemma Ticket_validate_unique_adding (db : DB) (self : Ticket.t) :
  Ticket_validate_unique db true [] self = Ok tt <->
  ~ In (seat_key self) (map seat_key (tickets db)).
Proof.
  unfold Ticket_validate_unique; simpl.
  destruct (existsb (fun t => same_seat t self && true) (tickets db)) eqn:E.
  - split; [discriminate|]. intros Hn. exfalso. apply Hn.
    apply existsb_exists in E. destruct E as [t [Hin Hs]].
    rewrite andb_true_r in Hs. apply same_seat_key in Hs.
    rewrite <- Hs. now apply in_map.
  - split; [|reflexivity]. intros _ Hin.
    apply in_map_iff in Hin. destruct Hin as [t [Hk Hin]].
    assert (existsb (fun t => same_seat t self && true) (tickets db) = true).
    { apply existsb_exists. exists t. split; [assumption|].
      rewrite andb_true_r. now apply same_seat_key. }
    congruence.
Qed.

Lemma Ticket_full_clean_intro (db : DB) (adding : bool) (self : Ticket.t)
      (flight : Flight.t) (airplane : Airplane.t) (o : Order.t) :
  get Flight.id (flights db) (Ticket.flight self) = Some flight ->
  get Airplane.id (airplanes db) (Flight.airplane flight) = Some airplane ->
  in_range (Ticket.row self) (Ticket.seat self) airplane ->
  get Order.id (orders db) (Ticket.order self) = Some o ->
  Ticket_full_clean db adding self =
  Ticket_validate_unique db adding [] self.
Proof.
  intros Hf Ha Hr Ho.
  unfold Ticket_full_clean, Ticket_clean_fields, Ticket_clean, check_fk,
    related.
  rewrite Hf; simpl. rewrite Ha, Ho; simpl.
  apply (validate_ticket_spec _ _ _ Django_ValidationError) in Hr.
  rewrite Hr; simpl.
  destruct (Ticket_validate_unique_cases db adding [] self) as [U|U];
    rewrite U; reflexivity.
Qed.

(** A ticket whose seat is outside the grid of its airplane is not saved. *)
Lemma Ticket_full_clean_out_of_range (db : DB) (adding : bool)
      (self : Ticket.t) (flight : Flight.t) (airplane : Airplane.t) :
  get Flight.id (flights db) (Ticket.flight self) = Some flight ->
  get Airplane.id (airplanes db) (Flight.airplane flight) = Some airplane ->
  ~ in_range (Ticket.row self) (Ticket.seat self) airplane ->
  exists detail,
    Ticket_full_clean db adding self = Raise (Django_ValidationError detail).
Proof.
  intros Hf Ha Hr.
  destruct (Ticket_full_clean db adding self) as [[]|e] eqn:E.
  - apply Ticket_full_clean_ok in E.
    destruct E as [f [a [Hf' [Ha' [Hin _]]]]].
    rewrite Hf in Hf'. injection Hf' as <-.
    rewrite Ha in Ha'. injection Ha' as <-. contradiction.
  - revert E.
    unfold Ticket_full_clean, Ticket_clean_fields, Ticket_clean, check_fk,
      related.
    rewrite Hf; simpl. rewrite Ha; simpl.
    destruct (validate_ticket_raises (Ticket.row self) (Ticket.seat self)
                airplane Django_ValidationError Hr) as [field V].
    rewrite V; simpl.
    destruct (get Order.id (orders db) (Ticket.order self)); simpl.
    + destruct (Ticket_validate_unique_cases db adding [field] self)
        as [U|U]; rewrite U; simpl; intros E; injection E as <-; eauto.
    + destruct (Ticket_validate_unique_cases db adding ("order" :: [field])
                                             self)
        as [U|U]; rewrite U; simpl; intros E; injection E as <-; eauto.
Qed.

Lemma Ticket_save_raise (adding : bool) (self : Ticket.t) (db db' : DB)
      (e : exn) :
  Ticket_save adding self db = (db', Raise e) ->
  db' = db /\ Ticket_full_clean db adding self = Raise e.
Proof.
  unfold Ticket_save, bindM.
  destruct (Ticket_full_clean db adding self) as [[]|e'].
  - destruct adding; discriminate.
  - intros H. injection H as <- <-. auto.
Qed.

Lemma Ticket_save_adding_ok (self : Ticket.t) (db db' : DB) (r : Ticket.t) :
  Ticket_save true self db = (db', Ok r) ->
  r = Ticket_with_id (fresh_id Ticket.id (tickets db)) self /\
  db' = set_tickets (tickets db ++ [r]) db /\
  Ticket_full_clean db true self = Ok tt.
Proof.
  unfold Ticket_save, bindM.
  destruct (Ticket_full_clean db true self) as [[]|e']; [|discriminate].
  intros H. injection H as <- <-. auto.
Qed.

Lemma Ticket_save_adding_run (self : Ticket.t) (db : DB) :
  Ticket_full_clean db true self = Ok tt ->
  Ticket_save true self db =
  (set_tickets (tickets db ++
                [Ticket_with_id (fresh_id Ticket.id (tickets db)) self]) db,
   Ok (Ticket_with_id (fresh_id Ticket.id (tickets db)) self)).
Proof.
  intros H. unfold Ticket_save, bindM. rewrite H. reflexivity.
Qed.

(** ** Creating an order *)

Lemma atomic_raise {A : Type} (body : M A) (db db' : DB) (e : exn) :
  atomic body db = (db', Raise e) -> db' = db.
Proof.
  unfold atomic. destruct (body db) as [db1 [a|e1]]; intros H.
  - discriminate.
  - now injection H as <- _.
Qed.

Lemma atomic_ok {A : Type} (body : M A) (db db' : DB) (a : A) :
  atomic body db = (db', Ok a) -> body db = (db', Ok a).
Proof.
  unfold atomic. destruct (body db) as [db1 [a1|e1]]; intros H.
  - now injection H as <- <-.
  - discriminate.
Qed.

Lemma same_catalogue_refl (db : DB) : same_catalogue db db.
Proof. unfold same_catalogue. repeat split. Qed.

Lemma same_catalogue_trans (a b c : DB) :
  same_catalogue a b -> same_catalogue b c -> same_catalogue a c.
Proof.
  unfold same_catalogue.
  intros (A1 & A2 & A3 & A4 & A5 & A6 & A7) (B1 & B2 & B3 & B4 & B5 & B6 & B7).
  repeat split; congruence.
Qed.

Lemma same_catalogue_set_tickets (db : DB) (ts : list Ticket.t) :
  same_catalogue db (set_tickets ts db).
Proof. unfold same_catalogue. repeat split. Qed.

Lemma same_catalogue_set_orders (db : DB) (os : list Order.t) :
  same_catalogue db (set_orders os db).
Proof. unfold same_catalogue. repeat split. Qed.

(** The tickets the loop of [create] has written when it ends normally:
    one for each entry, in the order of the entries, each on a seat that no
    ticket before it had. *)
Lemma create_tickets_ok (order : Order.t) (tickets_data : list TicketAttrs.t) :
  forall db db',
    OrderSerializer.create_tickets order tickets_data db = (db', Ok tt) ->
    same_catalogue db db' /\ orders db' = orders db /\
    exists ts,
      tickets db' = tickets db ++ ts /\
      map ticket_fields ts = map (attrs_fields order) tickets_data /\
      NoDup (map seat_key ts) /\
      forall t, In t ts -> ~ In (seat_key t) (map seat_key (tickets db)).
Proof.
  induction tickets_data as [|td rest IH]; intros db db' H; simpl in H.
  - unfold ret in H. injection H as <-.
    split; [apply same_catalogue_refl|]. split; [reflexivity|].
    exists []. rewrite app_nil_r. simpl.
    repeat split; [constructor | intros t []].
  - unfold bindM, Ticket_objects_create in H.
    destruct (Ticket_save true _ db) as [db1 [r|e]] eqn:S; [|discriminate].
    apply Ticket_save_adding_ok in S. destruct S as (Hr & Hdb1 & Hclean).
    apply Ticket_full_clean_ok in Hclean.
    destruct Hclean as (_ & _ & _ & _ & _ & _ & Huniq).
    apply Ticket_validate_unique_adding in Huniq.
    apply IH in H. destruct H as (Hcat & Hord & ts & Hts & Hfields & Hnd & Hnew).
    assert (Hkey : seat_key r =
                   seat_key (Ticket.Build 0 (TicketAttrs.row td)
                               (TicketAttrs.seat td)
                               (Flight.id (TicketAttrs.flight td))
                               (Order.id order))).
    { rewrite Hr. reflexivity. }
    split.
    { apply same_catalogue_trans with db1; [|assumption].
      rewrite Hdb1. apply same_catalogue_set_tickets. }
    split.
    { rewrite Hord, Hdb1. reflexivity. }
    exists (r :: ts). split.
    { rewrite Hts, Hdb1. simpl. now rewrite <- app_assoc. }
    split.
    { simpl. rewrite Hfields. f_equal. rewrite Hr. reflexivity. }
    split.
    { simpl. constructor; [|assumption].
      intros Hin. apply in_map_iff in Hin. destruct Hin as (t & Hk & Hin).
      apply (Hnew t Hin). rewrite Hdb1. simpl. rewrite map_app.
      apply in_or_app. right. simpl. left. now symmetry. }
    intros t [<-|Hin].
    + rewrite Hkey. exact Huniq.
    + intros Hold. apply (Hnew t Hin). rewrite Hdb1. simpl.
      rewrite map_app. apply in_or_app. now left.
Qed.

(** What the ticket serializer has checked when it accepts an entry. *)
Lemma run_validation_ok (db : DB) (s : TicketSpec.t) (a : TicketAttrs.t) :
  TicketSerializer.run_validation db s = Ok a ->
  attrs_key a = spec_key s /\ well_validated db a /\
  ~ In (attrs_key a) (map seat_key (tickets db)).
Proof.
  unfold TicketSerializer.run_validation,
    TicketSerializer.to_internal_value.
  destruct (get Flight.id (flights db) (TicketSpec.flight s)) as [f|] eqn:Hf;
    simpl; [|discriminate].
  destruct (get_some _ _ _ _ Hf) as [_ Hid].
  unfold TicketSerializer.unique_together_validator; simpl.
  destruct (existsb _ (tickets db)) eqn:Hex; simpl; [discriminate|].
  unfold TicketSerializer.validate, related; simpl.
  destruct (get Airplane.id (airplanes db) (Flight.airplane f)) as [p|]
    eqn:Hp; simpl; [|discriminate].
  destruct (Ticket.validate_ticket (TicketSpec.row s) (TicketSpec.seat s) p
                                   DRF_ValidationError) as [[]|e] eqn:V;
    simpl; [|discriminate].
  intros H. injection H as <-.
  apply validate_ticket_spec in V.
  split; [unfold attrs_key, spec_key; simpl; now rewrite Hid|].
  split.
  - unfold well_validated; simpl. rewrite Hid. split; [exact Hf|].
    exists p. now split.
  - intros Hin. apply in_map_iff in Hin. destruct Hin as (t & Hk & Hin).
    unfold attrs_key, seat_key in Hk; simpl in Hk. injection Hk as H1 H2 H3.
    assert (existsb
              (fun t => (Ticket.row t =? TicketSpec.row s) &&
                        (Ticket.seat t =? TicketSpec.seat s) &&
                        (Ticket.flight t =? Flight.id f)) (tickets db)
            = true) as Hex'.
    { apply existsb_exists. exists t. split; [assumption|].
      rewrite H1, H2, H3, !Z.eqb_refl. reflexivity. }
    simpl in Hex. congruence.
Qed.

Lemma run_validation_detail (db : DB) (s : TicketSpec.t) (d : list string) :
  TicketSerializer.run_validation db s = Raise (DRF_ValidationError d) ->
  d <> [].
Proof.
  unfold TicketSerializer.run_validation,
    TicketSerializer.to_internal_value.
  destruct (get Flight.id (flights db) (TicketSpec.flight s)) as [f|];
    simpl; [|intros H; injection H as <-; discriminate].
  unfold TicketSerializer.unique_together_validator.
  destruct (existsb _ (tickets db)); simpl;
    [intros H; injection H as <-; discriminate|].
  unfold TicketSerializer.validate, related; simpl.
  destruct (get Airplane.id (airplanes db) (Flight.airplane f)) as [p|];
    simpl; [|discriminate].
  unfold Ticket.validate_ticket; simpl.
  destruct ((0 <? TicketSpec.row s) && _); simpl;
    [|intros H; injection H as <-; discriminate].
  destruct ((0 <? TicketSpec.seat s) && _); simpl;
    [discriminate | intros H; injection H as <-; discriminate].
Qed.

Lemma many_ok (db : DB) (specs : list TicketSpec.t) :
  forall vs,
    TicketSerializer.many db specs = Ok (vs, []) ->
    Forall2 (fun s a => TicketSerializer.run_validation db s = Ok a)
            specs vs.
Proof.
  induction specs as [|s rest IH]; intros vs H; simpl in H.
  - injection H as <-. constructor.
  - destruct (TicketSerializer.run_validation db s) as [a|e] eqn:R.
    + destruct (TicketSerializer.many db rest) as [[vs' errs]|e'];
        simpl in H; [|discriminate].
      injection H as <- ->. constructor; [assumption|]. now apply IH.
    + destruct e; try discriminate.
      destruct (TicketSerializer.many db rest) as [[vs' errs]|e'];
        simpl in H; [|discriminate].
      injection H as _ Herr. apply app_eq_nil in Herr.
      destruct Herr as [Hd _]. exfalso.
      exact (run_validation_detail _ _ _ R Hd).
Qed.

(** What the order serializer has checked when it accepts a request. *)
Lemma OrderSerializer_tickets_ok (db : DB) (specs : list TicketSpec.t)
      (tds : list TicketAttrs.t) :
  OrderSerializer.tickets db specs = Ok tds ->
  specs <> [] /\
  map attrs_key tds = map spec_key specs /\
  Forall (well_validated db) tds /\
  forall a, In a tds -> ~ In (attrs_key a) (map seat_key (tickets db)).
Proof.
  unfold OrderSerializer.tickets.
  destruct specs as [|s0 rest0]; [discriminate|].
  remember (s0 :: rest0) as specs eqn:Hs.
  destruct (TicketSerializer.many db specs) as [[vs errs]|e] eqn:Hm;
    simpl; [|discriminate].
  destruct errs; [|discriminate].
  intros H. injection H as <-.
  apply many_ok in Hm.
  split; [rewrite Hs; discriminate|].
  clear Hs. induction Hm as [|s a specs' vs' Hsa Hrest IH].
  - repeat split; [constructor | intros a []].
  - apply run_validation_ok in Hsa. destruct Hsa as (Hk & Hw & Hn).
    destruct IH as (IH1 & IH2 & IH3).
    split; [simpl; now rewrite Hk, IH1|].
    split; [now constructor|].
    intros a' [<-|Hin]; [assumption | now apply IH3].
Qed.

Lemma attrs_fields_requested (order : Order.t) (tds : list TicketAttrs.t)
      (specs : list TicketSpec.t) :
  map attrs_key tds = map spec_key specs ->
  map (attrs_fields order) tds = map (requested_fields order) specs.
Proof.
  revert specs. induction tds as [|a tds IH]; intros [|s specs] H;
    simpl in H; try discriminate; [reflexivity|].
  injection H as H1 H2 H3 Hrest. simpl. f_equal; [|now apply IH].
  unfold attrs_fields, requested_fields. now rewrite H1, H2, H3.
Qed.

(** A request that fails leaves the store as it was. *)
Lemma create_order_raise (now user : Z) (specs : list TicketSpec.t)
      (db db' : DB) (e : exn) :
  OrderViewSet.create now user specs db = (db', Raise e) -> db' = db.
Proof.
  unfold OrderViewSet.create, bindM.
  destruct (OrderSerializer.tickets db specs) as [tds|e'].
  - unfold OrderSerializer.create. apply atomic_raise.
  - intros H. now injection H as <- _.
Qed.

(** A request that succeeds has written the order and one ticket for each
    entry of the request, and nothing else. *)
Lemma create_order_ok (now user : Z) (specs : list TicketSpec.t)
      (db db' : DB) (o : Order.t) :
  OrderViewSet.create now user specs db = (db', Ok o) ->
  specs <> [] /\
  o = Order.Build (fresh_id Order.id (orders db)) now user /\
  orders db' = orders db ++ [o] /\
  same_catalogue db db' /\
  exists ts,
    tickets db' = tickets db ++ ts /\
    map ticket_fields ts = map (requested_fields o) specs /\
    NoDup (map seat_key ts) /\
    forall t, In t ts -> ~ In (seat_key t) (map seat_key (tickets db)).
Proof.
  unfold OrderViewSet.create, bindM.
  destruct (OrderSerializer.tickets db specs) as [tds|e'] eqn:Hv;
    [|discriminate].
  apply OrderSerializer_tickets_ok in Hv. destruct Hv as (Hne & Hkeys & _).
  unfold OrderSerializer.create. intros H. apply atomic_ok in H.
  unfold bindM, Order_objects_create in H.
  remember (Order.Build (fresh_id Order.id (orders db)) now user) as o0.
  destruct (OrderSerializer.create_tickets o0 tds _) as [db1 [[]|e]] eqn:L;
    [|discriminate].
  unfold ret in H. injection H as <- <-.
  apply create_tickets_ok in L.
  destruct L as (Hcat & Hord & ts & Hts & Hf & Hnd & Hnew).
  split; [assumption|]. split; [reflexivity|].
  split; [rewrite Hord; reflexivity|].
  split.
  { apply same_catalogue_trans with (set_orders (orders db ++ [o0]) db);
      [apply same_catalogue_set_orders | assumption]. }
  exists ts. split; [exact Hts|].
  split; [rewrite Hf; now apply attrs_fields_requested|].
  split; [assumption | exact Hnew].
Qed.

Lemma well_validated_catalogue (db db' : DB) (a : TicketAttrs.t) :
  same_catalogue db db' -> well_validated db a -> well_validated db' a.
Proof.
  unfold same_catalogue, well_validated.
  intros (_ & _ & _ & Hp & _ & Hf & _). now rewrite Hp, Hf.
Qed.

(** Saving the ticket of a validated entry can only fail on the seat being
    taken. *)
Lemma Ticket_objects_create_cases (order : Order.t) (a : TicketAttrs.t)
      (db : DB) :
  well_validated db a ->
  (exists o, get Order.id (orders db) (Order.id order) = Some o) ->
  let self := Ticket.Build 0 (TicketAttrs.row a) (TicketAttrs.seat a)
                           (Flight.id (TicketAttrs.flight a))
                           (Order.id order) in
  (~ In (attrs_key a) (map seat_key (tickets db)) /\
   Ticket_objects_create order (TicketAttrs.row a) (TicketAttrs.seat a)
                         (TicketAttrs.flight a) db =
   (set_tickets (tickets db ++
                 [Ticket_with_id (fresh_id Ticket.id (tickets db)) self]) db,
    Ok (Ticket_with_id (fresh_id Ticket.id (tickets db)) self))) \/
  (In (attrs_key a) (map seat_key (tickets db)) /\
   Ticket_objects_create order (TicketAttrs.row a) (TicketAttrs.seat a)
                         (TicketAttrs.flight a) db =
   (db, Raise (Django_ValidationError ["__all__"]))).
Proof.
  intros (Hf & p & Hp & Hr) (o & Ho) self.
  assert (Hclean : Ticket_full_clean db true self =
                   Ticket_validate_unique db true [] self).
  { apply Ticket_full_clean_intro with (TicketAttrs.flight a) p o;
      assumption. }
  unfold Ticket_objects_create. fold self.
  destruct (Ticket_validate_unique_cases db true [] self) as [U|U].
  - left. split.
    + apply Ticket_validate_unique_adding in U. exact U.
    + apply Ticket_save_adding_run. now rewrite Hclean.
  - right. split.
    + destruct (in_dec (fun x y : Z * Z * Z =>
                          ltac:(repeat decide equality)
                          : {x = y} + {x <> y})
                       (attrs_key a) (map seat_key (tickets db)))
        as [Hin|Hout]; [assumption|].
      apply (Ticket_validate_unique_adding db self) in Hout. congruence.
    + unfold Ticket_save, bindM. rewrite Hclean, U. reflexivity.
Qed.

(** The loop of [create] on validated entries ends normally when their
    seats are free and all different. *)
Lemma create_tickets_run (order : Order.t) (tds : list TicketAttrs.t) :
  forall db,
    Forall (well_validated db) tds ->
    (exists o, get Order.id (orders db) (Order.id order) = Some o) ->
    NoDup (map attrs_key tds) ->
    (forall a, In a tds -> ~ In (attrs_key a) (map seat_key (tickets db))) ->
    exists db', OrderSerializer.create_tickets order tds db = (db', Ok tt).
Proof.
  induction tds as [|a rest IH]; intros db Hw Ho Hnd Hfree; simpl.
  - exists db. reflexivity.
  - inversion Hw as [|? ? Hwa Hwrest]; subst.
    inversion Hnd as [|? ? Hna Hndrest]; subst.
    destruct (Ticket_objects_create_cases order a db Hwa Ho)
      as [[_ Hrun]|[Hin _]].
    2:{ exfalso. apply (Hfree a); [now left | assumption]. }
    unfold bindM. rewrite Hrun.
    apply IH.
    + eapply Forall_impl; [|exact Hwrest]. intros a'.
      apply well_validated_catalogue. apply same_catalogue_set_tickets.
    + exact Ho.
    + exact Hndrest.
    + intros a' Ha'. simpl. rewrite map_app. intros Hin.
      apply in_app_or in Hin. destruct Hin as [Hin|[Hin|[]]].
      * apply (Hfree a'); [now right | assumption].
      * apply Hna. unfold seat_key in Hin; simpl in Hin.
        change (attrs_key a = attrs_key a') in Hin.
        rewrite Hin. now apply in_map.
Qed.

(** On validated entries the loop ends normally or with the error of the
    uniqueness check. *)
Lemma create_tickets_cases (order : Order.t) (tds : list TicketAttrs.t) :
  forall db,
    Forall (well_validated db) tds ->
    (exists o, get Order.id (orders db) (Order.id order) = Some o) ->
    exists db',
      OrderSerializer.create_tickets order tds db = (db', Ok tt) \/
      OrderSerializer.create_tickets order tds db =
      (db', Raise (Django_ValidationError ["__all__"])).
Proof.
  induction tds as [|a rest IH]; intros db Hw Ho; simpl.
  - exists db. now left.
  - inversion Hw as [|? ? Hwa Hwrest]; subst.
    destruct (Ticket_objects_create_cases order a db Hwa Ho)
      as [[_ Hrun]|[_ Hrun]]; unfold bindM; rewrite Hrun.
    + apply IH; [|exact Ho].
      eapply Forall_impl; [|exact Hwrest]. intros a'.
      apply well_validated_catalogue. apply same_catalogue_set_tickets.
    + exists db. now right.
Qed.

Lemma seat_keys_of_fields (order : Order.t) (ts : list Ticket.t)
      (tds : list TicketAttrs.t) :
  map ticket_fields ts = map (attrs_fields order) tds ->
  map seat_key ts = map attrs_key tds.
Proof.
  revert tds. induction ts as [|t ts IH]; intros [|a tds] H; simpl in H;
    try discriminate; [reflexivity|].
  injection H as H1 H2 H3 _ Hrest. simpl. f_equal; [|now apply IH].
  unfold seat_key, attrs_key. now rewrite H1, H2, H3.
Qed.

Lemma fresh_order_stored (now user : Z) (db : DB) :
  let o := Order.Build (fresh_id Order.id (orders db)) now user in
  exists o', get Order.id (orders (set_orders (orders db ++ [o]) db))
                 (Order.id o) = Some o'.
Proof.
  intros o. apply get_in. simpl. apply in_or_app. right. now left.
Qed.

(** The outcome of a request whose entries the serializer has accepted:
    it succeeds when the entries are for different seats, and otherwise
    fails with the error of the uniqueness check of [full_clean]. *)
Lemma create_order_validated (now user : Z) (specs : list TicketSpec.t)
      (tds : list TicketAttrs.t) (db : DB) :
  OrderSerializer.tickets db specs = Ok tds ->
  (NoDup (map spec_key specs) ->
   exists db' o, OrderViewSet.create now user specs db = (db', Ok o)) /\
  (~ NoDup (map spec_key specs) ->
   OrderViewSet.create now user specs db =
   (db, Raise (Django_ValidationError ["__all__"]))).
Proof.
  intros Hv. pose proof (OrderSerializer_tickets_ok _ _ _ Hv)
    as (Hne & Hkeys & Hw & Hfree).
  unfold OrderViewSet.create, bindM. rewrite Hv.
  unfold OrderSerializer.create, atomic, bindM, Order_objects_create.
  set (o := Order.Build (fresh_id Order.id (orders db)) now user).
  set (db0 := set_orders (orders db ++ [o]) db).
  assert (Hw0 : Forall (well_validated db0) tds).
  { eapply Forall_impl; [|exact Hw]. intros a.
    apply well_validated_catalogue. apply same_catalogue_set_orders. }
  pose proof (fresh_order_stored now user db) as Ho. simpl in Ho.
  fold o db0 in Ho.
  split.
  - intros Hnd. rewrite <- Hkeys in Hnd.
    destruct (create_tickets_run o tds db0 Hw0 Ho Hnd Hfree) as [db' Hrun].
    rewrite Hrun. unfold ret. eauto.
  - intros Hdup.
    destruct (create_tickets_cases o tds db0 Hw0 Ho) as [db' [Hrun|Hrun]];
      rewrite Hrun; [|reflexivity].
    exfalso. apply Hdup. rewrite <- Hkeys.
    apply create_tickets_ok in Hrun.
    destruct Hrun as (_ & _ & ts & _ & Hf & Hnd & _).
    rewrite <- (seat_keys_of_fields o ts tds Hf). exact Hnd.
Qed.

(** A request that names one seat twice fails, whatever else it holds. *)
Lemma create_order_duplicate (now user : Z) (specs : list TicketSpec.t)
      (db : DB) :
  ~ NoDup (map spec_key specs) ->
  exists e, OrderViewSet.create now user specs db = (db, Raise e).
Proof.
  intros Hdup.
  destruct (OrderViewSet.create now user specs db) as [db' [o|e]] eqn:E.
  - exfalso. apply Hdup. apply create_order_ok in E.
    destruct E as (_ & _ & _ & _ & ts & _ & Hf & Hnd & _).
    assert (map seat_key ts = map spec_key specs) as <-; [|exact Hnd].
    clear - Hf. revert specs Hf.
    induction ts as [|t ts IH]; intros [|s specs] H; simpl in H;
      try discriminate; [reflexivity|].
    injection H as H1 H2 H3 _ Hrest. simpl. f_equal; [|now apply IH].
    unfold seat_key, spec_key. now rewrite H1, H2, H3.
  - apply create_order_raise in E. subst db'. now exists e.
Qed.

Lemma repeated_entry_not_NoDup (l1 l2 l3 : list TicketSpec.t)
      (s s' : TicketSpec.t) :
  spec_key s = spec_key s' ->
  ~ NoDup (map spec_key (l1 ++ s :: l2 ++ s' :: l3)).
Proof.
  intros Hk Hnd. rewrite map_app in Hnd. simpl in Hnd.
  apply NoDup_remove_2 in Hnd. apply Hnd.
  apply in_or_app. right. rewrite map_app. apply in_or_app. right.
  simpl. left. now symmetry.
Qed.

(** ** Deleting an order *)

Lemma get_queryset_In (db : DB) (user : Z) (o : Order.t) :
  In o (OrderViewSet.get_queryset db user) <->
  In o (orders db) /\ Order.user o = user.
Proof.
  unfold OrderViewSet.get_queryset. rewrite filter_In, Z.eqb_eq. tauto.
Qed.

Lemma destroy_raise (user pk : Z) (db db' : DB) (e : exn) :
  OrderViewSet.destroy user pk db = (db', Raise e) ->
  db' = db /\ e = Http404 /\
  forall o, In o (orders db) -> Order.user o = user -> Order.id o <> pk.
Proof.
  unfold OrderViewSet.destroy, bindM, OrderViewSet.get_object.
  destruct (get Order.id (OrderViewSet.get_queryset db user) pk) as [o|]
    eqn:G.
  - unfold Order_delete. discriminate.
  - intros H. injection H as <- <-. repeat split.
    intros o Hin Hu. apply (get_none _ _ _ G). now apply get_queryset_In.
Qed.

Lemma destroy_ok (user pk : Z) (db db' : DB) :
  OrderViewSet.destroy user pk db = (db', Ok tt) ->
  (exists o, In o (orders db) /\ Order.user o = user /\ Order.id o = pk) /\
  orders db' = filter (fun o => negb (Order.id o =? pk)) (orders db) /\
  tickets db' = filter (fun t => negb (Ticket.order t =? pk)) (tickets db) /\
  same_catalogue db db'.
Proof.
  unfold OrderViewSet.destroy, bindM, OrderViewSet.get_object.
  destruct (get Order.id (OrderViewSet.get_queryset db user) pk) as [o|]
    eqn:G; [|discriminate].
  apply get_some in G. destruct G as [Hin Hid].
  apply get_queryset_In in Hin. destruct Hin as [Hin Hu].
  unfold Order_delete. intros H. injection H as <-. subst pk.
  split; [exists o; auto|]. simpl. repeat split.
Qed.

(** Taking tickets away keeps the seats of the others apart. *)
Lemma seats_unique_filter (keep : Ticket.t -> bool) (ts : list Ticket.t) :
  NoDup (map seat_key ts) -> NoDup (map seat_key (filter keep ts)).
Proof.
  intros Hnd. induction ts as [|t ts IH]; simpl; [constructor|].
  simpl in Hnd. apply NoDup_cons_iff in Hnd. destruct Hnd as [Ht Hts].
  destruct (keep t); simpl; [|now apply IH].
  apply NoDup_cons; [|now apply IH].
  rewrite in_map_iff. intros (t' & Hk & Hin).
  apply filter_In in Hin. apply Ht. rewrite <- Hk. apply in_map. tauto.
Qed.

(** ** The other requests do not touch orders and tickets *)

Lemma flight_create_orders (data : FlightData.t) (db : DB) :
  orders (store_after (FlightViewSet.create data db)) = orders db /\
  tickets (store_after (FlightViewSet.create data db)) = tickets db.
Proof.
  unfold FlightViewSet.create, FlightSerializer.create, Flight_save, bindM,
    store_after.
  destruct (FlightSerializer.run_validation db data) as [attrs|e]; simpl;
    [|auto].
  destruct (Flight_full_clean db _) as [[]|e]; simpl; auto.
Qed.

Lemma airplane_create_orders (lo hi : Z) (data : AirplaneData.t) (db : DB) :
  orders (store_after (AirplaneViewSet.create lo hi data db)) = orders db /\
  tickets (store_after (AirplaneViewSet.create lo hi data db)) = tickets db.
Proof.
  unfold AirplaneViewSet.create, AirplaneSerializer.create, bindM,
    store_after.
  destruct (AirplaneSerializer.run_validation lo hi db data) as [v|e];
    simpl; auto.
Qed.

(** ** What holds in every store the API can reach *)

Lemma consistent_same_orders (db db' : DB) :
  orders db' = orders db -> tickets db' = tickets db ->
  consistent db -> consistent db'.
Proof.
  unfold consistent, every_order_has_a_ticket, every_ticket_has_its_order,
    seats_unique.
  intros -> ->. tauto.
Qed.

Lemma consistent_create_order (now user : Z) (specs : list TicketSpec.t)
      (db : DB) :
  consistent db ->
  consistent (store_after (OrderViewSet.create now user specs db)).
Proof.
  intros (H1 & H2 & H3).
  destruct (OrderViewSet.create now user specs db) as [db' [o|e]] eqn:E;
    unfold store_after; simpl.
  2:{ apply create_order_raise in E. subst. now repeat split. }
  apply create_order_ok in E.
  destruct E as (Hne & Ho & Hord & _ & ts & Hts & Hf & Hnd & Hnew).
  assert (Hown : forall t, In t ts -> Ticket.order t = Order.id o).
  { clear - Hf. revert specs Hf.
    induction ts as [|t ts IH]; intros [|s specs] H; simpl in H;
      try discriminate; [intros ? []|].
    injection H as _ _ _ H4 Hrest. intros t' [<-|Hin]; [exact H4|].
    now apply (IH specs). }
  repeat split.
  - intros o' Hin. rewrite Hord in Hin. apply in_app_or in Hin.
    destruct Hin as [Hin|[<-|[]]].
    + destruct (H1 o' Hin) as (t & Ht & Hto). exists t.
      split; [rewrite Hts; apply in_or_app; now left | assumption].
    + destruct ts as [|t ts'].
      * destruct specs; [now elim Hne | discriminate].
      * exists t. split; [rewrite Hts; apply in_or_app; right; now left|].
        apply Hown. now left.
  - intros t Hin. rewrite Hts in Hin. apply in_app_or in Hin.
    destruct Hin as [Hin|Hin].
    + destruct (H2 t Hin) as (o' & Ho' & Hid). exists o'.
      split; [rewrite Hord; apply in_or_app; now left | assumption].
    + exists o. split; [rewrite Hord; apply in_or_app; right; now left|].
      symmetry. now apply Hown.
  - unfold seats_unique. rewrite Hts, map_app.
    apply NoDup_app; [exact H3 | exact Hnd |].
    intros k Hold Hin. apply in_map_iff in Hin.
    destruct Hin as (t & <- & Hin). exact (Hnew t Hin Hold).
Qed.

Lemma consistent_destroy (user pk : Z) (db : DB) :
  consistent db ->
  consistent (store_after (OrderViewSet.destroy user pk db)).
Proof.
  intros (H1 & H2 & H3).
  destruct (OrderViewSet.destroy user pk db) as [db' [[]|e]] eqn:E;
    unfold store_after; simpl.
  2:{ apply destroy_raise in E. destruct E as (-> & _). now repeat split. }
  apply destroy_ok in E. destruct E as (_ & Hord & Hts & _).
  repeat split.
  - intros o Hin. rewrite Hord in Hin. apply filter_In in Hin.
    destruct Hin as [Hin Hpk]. destruct (H1 o Hin) as (t & Ht & Hto).
    exists t. split; [|assumption]. rewrite Hts. apply filter_In.
    split; [assumption|]. now rewrite Hto.
  - intros t Hin. rewrite Hts in Hin. apply filter_In in Hin.
    destruct Hin as [Hin Hpk]. destruct (H2 t Hin) as (o & Ho & Hid).
    exists o. split; [|assumption]. rewrite Hord. apply filter_In.
    split; [assumption|]. now rewrite Hid.
  - unfold seats_unique. rewrite Hts. now apply seats_unique_filter.
Qed.

Lemma reachable_consistent (lo hi : Z) (db : DB) :
  reachable lo hi db -> consistent db.
Proof.
  induction 1 as [db Ho Ht|db req _ IH].
  - unfold consistent, every_order_has_a_ticket,
      every_ticket_has_its_order, seats_unique.
    rewrite Ho, Ht. simpl. repeat split; try (intros ? []). constructor.
  - destruct req as [now user specs|user pk|data|data]; simpl.
    + now apply consistent_create_order.
    + now apply consistent_destroy.
    + destruct (flight_create_orders data db) as [A B].
      now apply (consistent_same_orders db).
    + destruct (airplane_create_orders lo hi data db) as [A B].
      now apply (consistent_same_orders db).
Qed.

(** ** The seat rule on the two ways a ticket is created *)

Lemma Ticket_save_out_of_range (db : DB) (adding : bool) (self : Ticket.t)
      (flight : Flight.t) (airplane : Airplane.t) :
  get Flight.id (flights db) (Ticket.flight self) = Some flight ->
  get Airplane.id (airplanes db) (Flight.airplane flight) = Some airplane ->
  ~ in_range (Ticket.row self) (Ticket.seat self) airplane ->
  exists detail,
    Ticket_save adding self db = (db, Raise (Django_ValidationError detail)).
Proof.
  intros Hf Ha Hr.
  destruct (Ticket_full_clean_out_of_range db adding self flight airplane
              Hf Ha Hr) as [detail E].
  exists detail. unfold Ticket_save, bindM. now rewrite E.
Qed.

Lemma create_order_in_range (now user : Z) (specs : list TicketSpec.t)
      (db db' : DB) (o : Order.t) (s : TicketSpec.t) (flight : Flight.t)
      (airplane : Airplane.t) :
  OrderViewSet.create now user specs db = (db', Ok o) ->
  In s specs ->
  get Flight.id (flights db) (TicketSpec.flight s) = Some flight ->
  get Airplane.id (airplanes db) (Flight.airplane flight) = Some airplane ->
  in_range (TicketSpec.row s) (TicketSpec.seat s) airplane.
Proof.
  intros E Hin Hf Ha.
  unfold OrderViewSet.create, bindM in E.
  destruct (OrderSerializer.tickets db specs) as [tds|e'] eqn:Hv;
    [|discriminate].
  clear E. apply OrderSerializer_tickets_ok in Hv.
  destruct Hv as (_ & Hkeys & Hw & _).
  assert (Hk : In (spec_key s) (map attrs_key tds)).
  { rewrite Hkeys. now apply in_map. }
  apply in_map_iff in Hk. destruct Hk as (a & Hk & Hina).
  rewrite Forall_forall in Hw. destruct (Hw a Hina) as (Hfa & p & Hp & Hr).
  unfold attrs_key, spec_key in Hk. injection Hk as H1 H2 H3.
  rewrite H3, Hf in Hfa. injection Hfa as Efl.
  rewrite <- Efl, Ha in Hp. injection Hp as Epl.
  now rewrite <- H1, <- H2, Epl.
Qed.

Lemma create_order_out_of_range (now user : Z) (specs : list TicketSpec.t)
      (db : DB) (s : TicketSpec.t) (flight : Flight.t)
      (airplane : Airplane.t) :
  In s specs ->
  get Flight.id (flights db) (TicketSpec.flight s) = Some flight ->
  get Airplane.id (airplanes db) (Flight.airplane flight) = Some airplane ->
  ~ in_range (TicketSpec.row s) (TicketSpec.seat s) airplane ->
  exists e, OrderViewSet.create now user specs db = (db, Raise e).
Proof.
  intros Hin Hf Ha Hr.
  destruct (OrderViewSet.create now user specs db) as [db' [o|e]] eqn:E.
  - exfalso. apply Hr.
    exact (create_order_in_range now user specs db db' o s flight airplane
                                 E Hin Hf Ha).
  - apply create_order_raise in E. subst. now exists e.
Qed.

(** C1. [validate_ticket(row, seat, airplane)] succeeds if and only if
    [0 < row < airplane.rows] and [0 < seat < airplane.seats_in_row], with
    both ends left out: it fails for row 0, for row [rows], for seat 0 and
    for seat [seats_in_row].  The rule is the one of both ways to create a
    ticket: [Ticket.clean], run by [Ticket.save], and
    [TicketSerializer.validate], run on each ticket of an order request,
    are this check on the airplane of the flight of the ticket, so a ticket
    outside the range is not saved and an order request with an entry
    outside the range fails, the store staying as it was. *)
Theorem validate_ticket_exclusive_bounds (airplane : Airplane.t) :
  (forall row seat error_to_raise,
      Ticket.validate_ticket row seat airplane error_to_raise = Ok tt <->
      0 < row < Airplane.rows airplane /\
      0 < seat < Airplane.seats_in_row airplane) /\
  (forall row seat error_to_raise,
      is_ok (Ticket.validate_ticket 0 seat airplane error_to_raise) = false /\
      is_ok (Ticket.validate_ticket (Airplane.rows airplane) seat airplane
                                    error_to_raise) = false /\
      is_ok (Ticket.validate_ticket row 0 airplane error_to_raise) = false /\
      is_ok (Ticket.validate_ticket row (Airplane.seats_in_row airplane)
                                    airplane error_to_raise) = false) /\
  (forall db adding self flight,
      get Flight.id (flights db) (Ticket.flight self) = Some flight ->
      get Airplane.id (airplanes db) (Flight.airplane flight)
      = Some airplane ->
      Ticket_clean db self =
      Ticket.validate_ticket (Ticket.row self) (Ticket.seat self) airplane
                             Django_ValidationError /\
      (~ in_range (Ticket.row self) (Ticket.seat self) airplane ->
       exists detail,
         Ticket_save adding self db =
         (db, Raise (Django_ValidationError detail)))) /\
  (forall db attrs,
      get Airplane.id (airplanes db)
          (Flight.airplane (TicketAttrs.flight attrs)) = Some airplane ->
      TicketSerializer.validate db attrs =
      (Ticket.validate_ticket (TicketAttrs.row attrs)
                              (TicketAttrs.seat attrs) airplane
                              DRF_ValidationError ;;; Ok attrs)) /\
  (forall db now user specs s flight,
      In s specs ->
      get Flight.id (flights db) (TicketSpec.flight s) = Some flight ->
      get Airplane.id (airplanes db) (Flight.airplane flight)
      = Some airplane ->
      ~ in_range (TicketSpec.row s) (TicketSpec.seat s) airplane ->
      exists e, OrderViewSet.create now user specs db = (db, Raise e)).
Proof.
  assert (Hfail : forall row seat e,
             ~ in_range row seat airplane ->
             is_ok (Ticket.validate_ticket row seat airplane e) = false).
  { intros row seat e Hr.
    destruct (validate_ticket_raises row seat airplane e Hr) as [field ->].
    reflexivity. }
  split; [intros; apply validate_ticket_spec|].
  split.
  { intros row seat e. unfold in_range in Hfail.
    repeat split; apply Hfail; lia. }
  split.
  { intros db adding self flight Hf Ha. split.
    - unfold Ticket_clean, related. rewrite Hf; simpl. now rewrite Ha.
    - now apply Ticket_save_out_of_range with flight. }
  split.
  { intros db attrs Ha. unfold TicketSerializer.validate, related.
    now rewrite Ha. }
  intros db now user specs s flight.
  apply create_order_out_of_range.
Qed.

(** The airplane of the tests has 20 rows of 6 seats: row 20 is refused on
    both ways. *)
Lemma validate_ticket_exclusive_bounds_witness :
  (exists detail,
      Ticket_save true (Ticket.Build 0 20 1 1 1) sample_db =
      (sample_db, Raise (Django_ValidationError detail))) /\
  (exists e,
      OrderViewSet.create 0 7 [TicketSpec.Build 5 1 1; TicketSpec.Build 20 1 1]
                          sample_db = (sample_db, Raise e)).
Proof.
  destruct (validate_ticket_exclusive_bounds (Airplane.Build 1 "Boeing" 20 6 1))
    as (_ & _ & Hdirect & _ & Hnested).
  split.
  - apply (Hdirect sample_db true (Ticket.Build 0 20 1 1 1)
                   (Flight.Build 1 1 1 300 400)).
    + reflexivity.
    + reflexivity.
    + unfold in_range; simpl. lia.
  - apply (Hnested sample_db 0 7 _ (TicketSpec.Build 20 1 1)
                   (Flight.Build 1 1 1 300 400)).
    + simpl. auto.
    + reflexivity.
    + reflexivity.
    + unfold in_range; simpl. lia.
Defined.

(** C10. On an airplane with [rows <= 1] or [seats_in_row <= 1]
    [validate_ticket] fails for every row and seat, so no ticket is saved
    on a flight of such an airplane and every order request with an entry
    for such a flight is rejected. *)
Theorem narrow_airplane_takes_no_ticket (airplane : Airplane.t) :
  Airplane.rows airplane <= 1 \/ Airplane.seats_in_row airplane <= 1 ->
  (forall row seat error_to_raise,
      exists field,
        Ticket.validate_ticket row seat airplane error_to_raise =
        Raise (error_to_raise [field])) /\
  (forall db adding self flight,
      get Flight.id (flights db) (Ticket.flight self) = Some flight ->
      get Airplane.id (airplanes db) (Flight.airplane flight)
      = Some airplane ->
      exists detail,
        Ticket_save adding self db =
        (db, Raise (Django_ValidationError detail))) /\
  (forall db now user specs s flight,
      In s specs ->
      get Flight.id (flights db) (TicketSpec.flight s) = Some flight ->
      get Airplane.id (airplanes db) (Flight.airplane flight)
      = Some airplane ->
      exists e, OrderViewSet.create now user specs db = (db, Raise e)).
Proof.
  intros Hnarrow.
  assert (Hout : forall row seat, ~ in_range row seat airplane).
  { unfold in_range. intros row seat. lia. }
  split; [intros; now apply validate_ticket_raises|].
  split.
  - intros db adding self flight Hf Ha.
    exact (Ticket_save_out_of_range db adding self flight airplane Hf Ha
                                    (Hout _ _)).
  - intros db now user specs s flight Hin Hf Ha.
    exact (create_order_out_of_range now user specs db s flight airplane
                                     Hin Hf Ha (Hout _ _)).
Qed.

Lemma narrow_airplane_takes_no_ticket_witness :
  exists e,
    OrderViewSet.create 0 7 [TicketSpec.Build 1 1 1] narrow_db =
    (narrow_db, Raise e).
Proof.
  destruct (narrow_airplane_takes_no_ticket (Airplane.Build 1 "Glider" 1 6 1))
    as (_ & _ & Hnested).
  - left. simpl. lia.
  - apply (Hnested narrow_db 0 7 _ (TicketSpec.Build 1 1 1)
                   (Flight.Build 1 1 1 300 400)).
    + simpl. auto.
    + reflexivity.
    + reflexivity.
Defined.

(** ** Orders are created whole *)

(** C2. [create_order(user, ticket_specs)], the [create] of
    [OrderViewSet], is all-or-nothing.  An empty list of tickets is
    rejected with a validation error and the store does not change.  When
    the request fails for any reason, in the validation or while the rows
    are written, the store is the one before the request: neither the
    order nor a ticket of it is kept.  When it succeeds, the store has one
    order more, owned by the user, and one ticket more for each entry of
    the request, in the order of the entries, each with the row, seat and
    flight asked for and pointing to the new order.  So in every store
    reached through the requests of the API from a store without orders
    and tickets, every order has a ticket and every ticket has its
    order. *)
Theorem create_order_all_or_nothing (now user : Z) (db : DB) :
  OrderViewSet.create now user [] db =
  (db, Raise (DRF_ValidationError ["tickets"])) /\
  (forall specs db' e,
      OrderViewSet.create now user specs db = (db', Raise e) -> db' = db) /\
  (forall specs db' o,
      OrderViewSet.create now user specs db = (db', Ok o) ->
      specs <> [] /\
      Order.user o = user /\
      orders db' = orders db ++ [o] /\
      same_catalogue db db' /\
      exists ts,
        tickets db' = tickets db ++ ts /\
        map ticket_fields ts = map (requested_fields o) specs) /\
  (forall min_value max_value,
      reachable min_value max_value db ->
      every_order_has_a_ticket db /\ every_ticket_has_its_order db).
Proof.
  split; [reflexivity|].
  split; [intros specs db' e; apply create_order_raise|].
  split.
  - intros specs db' o E. apply create_order_ok in E.
    destruct E as (Hne & Ho & Hord & Hcat & ts & Hts & Hf & _).
    split; [assumption|]. split; [now rewrite Ho|].
    split; [assumption|]. split; [assumption|]. now exists ts.
  - intros lo hi Hr. apply reachable_consistent in Hr.
    destruct Hr as (H1 & H2 & _). now split.
Qed.

(** The order request of the tests, two seats of row 5 of flight 1, on the
    store of the tests. *)
Lemma create_order_all_or_nothing_witness :
  exists db' o,
    OrderViewSet.create 1000 7
      [TicketSpec.Build 5 1 1; TicketSpec.Build 5 2 1] sample_db =
    (db', Ok o) /\
    orders db' = [o] /\
    map ticket_fields (tickets db') = [(5, 1, 1, Order.id o);
                                       (5, 2, 1, Order.id o)] /\
    every_order_has_a_ticket db' /\ every_ticket_has_its_order db'.
Proof.
  set (specs := [TicketSpec.Build 5 1 1; TicketSpec.Build 5 2 1]).
  set (r := OrderViewSet.create 1000 7 specs sample_db).
  assert (E : r = (fst r, Ok (Order.Build 1 1000 7))) by reflexivity.
  exists (fst r), (Order.Build 1 1000 7).
  split; [exact E|].
  destruct (create_order_all_or_nothing 1000 7 sample_db)
    as (_ & _ & Hok & _).
  destruct (Hok specs (fst r) (Order.Build 1 1000 7) E)
    as (_ & _ & Hord & _ & ts & Hts & Hf).
  split; [exact Hord|].
  split; [rewrite Hts; simpl; exact Hf|].
  destruct (create_order_all_or_nothing 1000 7 (fst r)) as (_ & _ & _ & Hinv).
  apply (Hinv 0 0).
  change (fst r) with (handle 0 0 (CreateOrder 1000 7 specs) sample_db).
  apply reachable_step. apply reachable_start; reflexivity.
Defined.

(** ** A seat is taken once *)

(** C3. In every store reached through the requests of the API no two
    tickets are for the same row and seat of the same flight.  An order
    request that has two entries with the same row, seat and flight fails
    and leaves the store as it was; when each entry alone passes the
    validation of the serializer, what fails it is the uniqueness check
    of [full_clean] on saving the later entry. *)
Theorem seat_taken_once (db : DB) :
  (forall min_value max_value,
      reachable min_value max_value db ->
      NoDup (map seat_key (tickets db))) /\
  (forall now user l1 s l2 s' l3,
      spec_key s = spec_key s' ->
      let specs := l1 ++ s :: l2 ++ s' :: l3 in
      exists e,
        OrderViewSet.create now user specs db = (db, Raise e) /\
        (is_ok (OrderSerializer.tickets db specs) = true ->
         e = Django_ValidationError ["__all__"])).
Proof.
  split.
  - intros lo hi Hr. apply reachable_consistent in Hr.
    destruct Hr as (_ & _ & H). exact H.
  - intros now user l1 s l2 s' l3 Hk specs.
    pose proof (repeated_entry_not_NoDup l1 l2 l3 s s' Hk) as Hdup.
    fold specs in Hdup.
    destruct (create_order_duplicate now user specs db Hdup) as [e E].
    exists e. split; [exact E|].
    destruct (OrderSerializer.tickets db specs) as [tds|e'] eqn:Hv;
      [|discriminate].
    intros _.
    destruct (create_order_validated now user specs tds db Hv) as [_ Hd].
    rewrite (Hd Hdup) in E. now injection E as <-.
Qed.

(** Seat 1 of row 5 of flight 1, asked for twice in one request. *)
Lemma seat_taken_once_witness :
  OrderViewSet.create 1000 7
    [TicketSpec.Build 5 1 1; TicketSpec.Build 5 1 1] sample_db =
  (sample_db, Raise (Django_ValidationError ["__all__"])).
Proof.
  destruct (seat_taken_once sample_db) as (_ & Hdup).
  destruct (Hdup 1000 7 [] (TicketSpec.Build 5 1 1) []
                 (TicketSpec.Build 5 1 1) [] eq_refl) as (e & E & He).
  simpl in E, He. rewrite E. now rewrite (He eq_refl).
Defined.

(** ** Seats left on a flight *)

Lemma tickets_available_eq (db : DB) (f : Flight.t) (a : Airplane.t) :
  get Airplane.id (airplanes db) (Flight.airplane f) = Some a ->
  Flight_tickets_available db f =
  Ok (Airplane.rows a * Airplane.seats_in_row a - tickets_count db f).
Proof.
  intros Ha. unfold Flight_tickets_available, related. now rewrite Ha.
Qed.

Lemma tickets_available_inv (db : DB) (f : Flight.t) (n : Z) :
  Flight_tickets_available db f = Ok n ->
  exists a,
    get Airplane.id (airplanes db) (Flight.airplane f) = Some a /\
    n = Airplane.capacity a - tickets_count db f.
Proof.
  unfold Flight_tickets_available, related.
  destruct (get Airplane.id (airplanes db) (Flight.airplane f)) as [a|];
    simpl; [|discriminate].
  intros H. injection H as <-. now exists a.
Qed.

Lemma count_requested (o : Order.t) (k : Z) (ts : list Ticket.t) :
  forall specs,
    map ticket_fields ts = map (requested_fields o) specs ->
    List.length (filter (fun t => Ticket.flight t =? k) ts) =
    List.length (filter (fun s => TicketSpec.flight s =? k) specs).
Proof.
  induction ts as [|t ts IH]; intros [|s specs] H; simpl in H;
    try discriminate; [reflexivity|].
  injection H as _ _ H3 _ Hrest. simpl. rewrite H3.
  destruct (TicketSpec.flight s =? k); simpl; now rewrite (IH specs).
Qed.

Lemma tickets_count_create (now user : Z) (specs : list TicketSpec.t)
      (db db' : DB) (o : Order.t) (f : Flight.t) :
  OrderViewSet.create now user specs db = (db', Ok o) ->
  tickets_count db' f = tickets_count db f + specs_on f specs.
Proof.
  intros E. apply create_order_ok in E.
  destruct E as (_ & _ & _ & _ & ts & Hts & Hf & _).
  unfold tickets_count, specs_on. rewrite Hts, filter_app, length_app.
  rewrite (count_requested o (Flight.id f) ts specs Hf). lia.
Qed.

Lemma count_without_order (pk k : Z) (ts : list Ticket.t) :
  Nat.add
    (List.length
       (filter (fun t => Ticket.flight t =? k)
               (filter (fun t => negb (Ticket.order t =? pk)) ts)))
    (List.length
       (filter (fun t => (Ticket.order t =? pk) && (Ticket.flight t =? k))
               ts))
  = List.length (filter (fun t => Ticket.flight t =? k) ts).
Proof.
  induction ts as [|t ts IH]; simpl; [reflexivity|].
  destruct (Ticket.order t =? pk) eqn:Eo, (Ticket.flight t =? k) eqn:Ef;
    simpl; rewrite ?Ef; simpl; lia.
Qed.

Lemma tickets_count_destroy (user pk : Z) (db db' : DB) (f : Flight.t) :
  OrderViewSet.destroy user pk db = (db', Ok tt) ->
  tickets_count db' f = tickets_count db f - tickets_of_order_on db pk f.
Proof.
  intros E. apply destroy_ok in E. destruct E as (_ & _ & Hts & _).
  unfold tickets_count, tickets_of_order_on. rewrite Hts.
  pose proof (count_without_order pk (Flight.id f) (tickets db)). lia.
Qed.

(** C7. [tickets_available] of a flight is
    [airplane.rows * airplane.seats_in_row] less the number of the tickets
    that point to the flight.  After an order request that succeeds it is
    less by the number of entries of the request for this flight, and
    after an order is deleted it is more by the number of tickets the order
    had on this flight. *)
Theorem tickets_available_counts (db : DB) (f : Flight.t) :
  (forall a,
      get Airplane.id (airplanes db) (Flight.airplane f) = Some a ->
      Flight_tickets_available db f =
      Ok (Airplane.rows a * Airplane.seats_in_row a -
          Z.of_nat (List.length
                      (filter (fun t => Ticket.flight t =? Flight.id f)
                              (tickets db))))) /\
  (forall now user specs db' o n,
      OrderViewSet.create now user specs db = (db', Ok o) ->
      Flight_tickets_available db f = Ok n ->
      Flight_tickets_available db' f = Ok (n - specs_on f specs)) /\
  (forall user pk db' n,
      OrderViewSet.destroy user pk db = (db', Ok tt) ->
      Flight_tickets_available db f = Ok n ->
      Flight_tickets_available db' f =
      Ok (n + tickets_of_order_on db pk f)).
Proof.
  split; [intros a; apply tickets_available_eq|].
  split.
  - intros now user specs db' o n E Hn.
    apply tickets_available_inv in Hn. destruct Hn as (a & Ha & ->).
    pose proof (tickets_count_create now user specs db db' o f E) as Hc.
    apply create_order_ok in E.
    destruct E as (_ & _ & _ & (_ & _ & _ & Hp & _) & _).
    rewrite (tickets_available_eq db' f a); [|now rewrite Hp].
    f_equal. unfold Airplane.capacity. lia.
  - intros user pk db' n E Hn.
    apply tickets_available_inv in Hn. destruct Hn as (a & Ha & ->).
    pose proof (tickets_count_destroy user pk db db' f E) as Hc.
    apply destroy_ok in E.
    destruct E as (_ & _ & _ & (_ & _ & _ & Hp & _)).
    rewrite (tickets_available_eq db' f a); [|now rewrite Hp].
    f_equal. unfold Airplane.capacity. lia.
Qed.

(** Flight 1 of the tests has 120 seats: 118 are left after an order of
    two tickets, and 120 again once the order is deleted. *)
Lemma tickets_available_counts_witness :
  let f := Flight.Build 1 1 1 300 400 in
  let booked :=
    fst (OrderViewSet.create 1000 7
           [TicketSpec.Build 5 1 1; TicketSpec.Build 5 2 1] sample_db) in
  Flight_tickets_available sample_db f = Ok 120 /\
  Flight_tickets_available booked f = Ok 118 /\
  Flight_tickets_available (fst (OrderViewSet.destroy 7 1 booked)) f = Ok 120.
Proof.
  intros f booked.
  destruct (tickets_available_counts sample_db f) as (Heq & Hcreate & _).
  destruct (tickets_available_counts booked f) as (_ & _ & Hdestroy).
  split; [exact (Heq (Airplane.Build 1 "Boeing" 20 6 1) eq_refl)|].
  split.
  - exact (Hcreate 1000 7 [TicketSpec.Build 5 1 1; TicketSpec.Build 5 2 1]
                   booked (Order.Build 1 1000 7) 120 eq_refl eq_refl).
  - exact (Hdestroy 7 1 (fst (OrderViewSet.destroy 7 1 booked)) 118
                    eq_refl eq_refl).
Defined.

(** ** Orders of the user of the request *)

Lemma same_key_same_row {A : Type} (pk_of : A -> Z) (table : list A)
      (a b : A) :
  NoDup (map pk_of table) -> In a table -> In b table ->
  pk_of a = pk_of b -> a = b.
Proof.
  induction table as [|x table IH]; simpl; intros Hnd Ha Hb Hk; [easy|].
  apply NoDup_cons_iff in Hnd. destruct Hnd as [Hx Hnd].
  destruct Ha as [->|Ha], Hb as [->|Hb].
  - reflexivity.
  - exfalso. apply Hx. rewrite Hk. now apply in_map.
  - exfalso. apply Hx. rewrite <- Hk. now apply in_map.
  - now apply IH.
Qed.

(** C9. For a user [u], the list, retrieve and delete operations of the
    orders work on the orders owned by [u] only: the list is made of the
    orders of [u], all of them and no other; retrieving or deleting with a
    key that no order of [u] has, such as the key of an order of another
    user, fails as not found and leaves the store as it was; an order that
    is retrieved is owned by [u]; and a delete that succeeds leaves the
    orders of the other users and their tickets in the store (primary keys
    being unique). *)
Theorem orders_scoped_to_user (db : DB) (u : Z) :
  (forall o, In o (OrderViewSet.list db u) <->
             In o (orders db) /\ Order.user o = u) /\
  (forall pk,
      (forall o, In o (orders db) -> Order.id o = pk -> Order.user o <> u) ->
      OrderViewSet.retrieve u pk db = (db, Raise Http404) /\
      OrderViewSet.destroy u pk db = (db, Raise Http404)) /\
  (forall pk db' o,
      OrderViewSet.retrieve u pk db = (db', Ok o) ->
      db' = db /\ In o (orders db) /\ Order.user o = u /\ Order.id o = pk) /\
  (forall pk db',
      OrderViewSet.destroy u pk db = (db', Ok tt) ->
      NoDup (map Order.id (orders db)) ->
      forall o,
        In o (orders db) -> Order.user o <> u ->
        In o (orders db') /\
        forall t, In t (tickets db) -> Ticket.order t = Order.id o ->
                  In t (tickets db')).
Proof.
  split; [intros o; apply get_queryset_In|].
  split.
  { intros pk Hother.
    assert (G : get Order.id (OrderViewSet.get_queryset db u) pk = None).
    { destruct (get Order.id (OrderViewSet.get_queryset db u) pk) as [o|]
        eqn:G; [|reflexivity].
      apply get_some in G. destruct G as [Hin Hid].
      apply get_queryset_In in Hin. destruct Hin as [Hin Hu].
      exfalso. exact (Hother o Hin Hid Hu). }
    unfold OrderViewSet.retrieve, OrderViewSet.destroy, bindM,
      OrderViewSet.get_object.
    rewrite G. now split. }
  split.
  { intros pk db' o. unfold OrderViewSet.retrieve, OrderViewSet.get_object.
    destruct (get Order.id (OrderViewSet.get_queryset db u) pk) as [o'|]
      eqn:G; [|discriminate].
    intros H. injection H as <- <-.
    apply get_some in G. destruct G as [Hin Hid].
    apply get_queryset_In in Hin. tauto. }
  intros pk db' E Hnd o Hin Hu.
  apply destroy_ok in E.
  destruct E as ((mine & Hmine & Hmu & Hmid) & Hord & Hts & _).
  assert (Hpk : Order.id o <> pk).
  { intros Hid. apply Hu. rewrite <- Hmu. f_equal.
    apply (same_key_same_row Order.id (orders db)); try assumption.
    congruence. }
  apply Z.eqb_neq in Hpk.
  split.
  - rewrite Hord. apply filter_In. split; [assumption|]. now rewrite Hpk.
  - intros t Ht Hto. rewrite Hts. apply filter_In.
    split; [assumption|]. now rewrite Hto, Hpk.
Qed.

(** User 8 asks for order 1, which is of user 7, and then deletes order 2,
    which is its own. *)
Lemma orders_scoped_to_user_witness :
  OrderViewSet.retrieve 8 1 two_users_db = (two_users_db, Raise Http404) /\
  OrderViewSet.destroy 8 1 two_users_db = (two_users_db, Raise Http404) /\
  In (Order.Build 1 1000 7)
     (orders (store_after (OrderViewSet.destroy 8 2 two_users_db))).
Proof.
  destruct (orders_scoped_to_user two_users_db 8)
    as (_ & Hother & _ & Hdestroy).
  assert (H1 : forall o, In o (orders two_users_db) -> Order.id o = 1 ->
                         Order.user o <> 8).
  { intros o Hin. vm_compute in Hin.
    destruct Hin as [<-|[<-|[]]]; simpl; lia. }
  destruct (Hother 1 H1) as [Hr Hd].
  split; [exact Hr|]. split; [exact Hd|].
  assert (Hnd : NoDup (map Order.id (orders two_users_db))).
  { vm_compute. repeat constructor; simpl; intuition discriminate. }
  assert (E : OrderViewSet.destroy 8 2 two_users_db =
              (store_after (OrderViewSet.destroy 8 2 two_users_db), Ok tt)).
  { vm_compute. reflexivity. }
  assert (A : In (Order.Build 1 1000 7) (orders two_users_db)).
  { vm_compute. auto. }
  assert (B : Order.user (Order.Build 1 1000 7) <> 8).
  { simpl. lia. }
  exact (proj1 (Hdestroy 2 _ E Hnd (Order.Build 1 1000 7) A B)).
Defined.

(** ** Flight times *)

Lemma Flight_clean_spec (self : Flight.t) :
  (Flight.clean self = Ok tt <->
   Flight.departure_time self < Flight.arrival_time self) /\
  (Flight.clean self =
   Raise (Django_ValidationError
            ["Arrival time must be later than departure time."]) <->
   Flight.departure_time self >= Flight.arrival_time self).
Proof.
  unfold Flight.clean.
  destruct (Z.geb_spec (Flight.departure_time self)
                       (Flight.arrival_time self)) as [H|H];
    split; split; intros H'; try reflexivity; try discriminate; lia.
Qed.

Lemma Flight_full_clean_late (db : DB) (self : Flight.t) :
  Flight.departure_time self >= Flight.arrival_time self ->
  exists detail,
    Flight_full_clean db self = Raise (Django_ValidationError detail).
Proof.
  intros H. destruct (Flight_clean_spec self) as [_ [_ Hraise]].
  unfold Flight_full_clean. rewrite (Hraise H). simpl.
  destruct (Flight_clean_fields db self ++ _) as [|x l] eqn:E.
  - apply app_eq_nil in E. destruct E as [_ E]. discriminate.
  - simpl. eauto.
Qed.

Lemma Flight_full_clean_ok (db : DB) (self : Flight.t) (r : Route.t)
      (a : Airplane.t) :
  get Route.id (routes db) (Flight.route self) = Some r ->
  get Airplane.id (airplanes db) (Flight.airplane self) = Some a ->
  Flight.departure_time self < Flight.arrival_time self ->
  Flight_full_clean db self = Ok tt.
Proof.
  intros Hr Ha Ht. destruct (Flight_clean_spec self) as [[_ Hok] _].
  unfold Flight_full_clean, Flight_clean_fields, check_fk.
  now rewrite Hr, Ha, (Hok Ht).
Qed.

Lemma to_internal_value_cases (db : DB) (data : FlightData.t) :
  (exists r a,
      get Route.id (routes db) (FlightData.route data) = Some r /\
      get Airplane.id (airplanes db) (FlightData.airplane data) = Some a /\
      FlightData.crew data <> [] /\
      (forall c, In c (FlightData.crew data) -> In c (crews db)) /\
      FlightSerializer.to_internal_value db data =
      Ok (FlightAttrs.Build r a (FlightData.departure_time data)
                            (FlightData.arrival_time data)
                            (FlightData.crew data))) \/
  (~ ((exists r, get Route.id (routes db) (FlightData.route data) = Some r) /\
      (exists a, get Airplane.id (airplanes db) (FlightData.airplane data)
                 = Some a) /\
      FlightData.crew data <> [] /\
      (forall c, In c (FlightData.crew data) -> In c (crews db))) /\
   exists d,
     FlightSerializer.to_internal_value db data =
     Raise (DRF_ValidationError d)).
Proof.
  unfold FlightSerializer.to_internal_value, FlightSerializer.pk_field.
  destruct (get Route.id (routes db) (FlightData.route data)) as [r|];
    cbn [bind].
  2:{ right. split; [|eauto]. intros ((r & Hr) & _). discriminate. }
  destruct (get Airplane.id (airplanes db) (FlightData.airplane data))
    as [a|]; cbn [bind].
  2:{ right. split; [|eauto]. intros (_ & (a & Ha) & _). discriminate. }
  destruct (FlightData.crew data) as [|c0 crew] eqn:Ec; simpl.
  { right. split; [|eauto]. intros (_ & _ & Hne & _). now apply Hne. }
  destruct ((existsb (Z.eqb c0) (crews db)) &&
            forallb (fun c => existsb (Z.eqb c) (crews db)) crew) eqn:Hall;
    simpl.
  - left. exists r, a. repeat split; try discriminate.
    apply andb_true_iff in Hall. destruct Hall as [H0 Hrest].
    rewrite forallb_forall in Hrest.
    intros c [<-|Hc].
    + apply existsb_exists in H0. destruct H0 as (x & Hx & E).
      apply Z.eqb_eq in E. now subst.
    + specialize (Hrest c Hc). apply existsb_exists in Hrest.
      destruct Hrest as (x & Hx & E). apply Z.eqb_eq in E. now subst.
  - right. split; [|eauto]. intros (_ & _ & _ & Hcrew).
    assert (existsb (Z.eqb c0) (crews db) &&
            forallb (fun c => existsb (Z.eqb c) (crews db)) crew = true).
    { apply andb_true_iff. split.
      - apply existsb_exists. exists c0. split; [|apply Z.eqb_refl].
        apply Hcrew. now left.
      - apply forallb_forall. intros c Hc. apply existsb_exists.
        exists c. split; [|apply Z.eqb_refl]. apply Hcrew. now right. }
    congruence.
Qed.

Lemma flight_create_run (db : DB) (data : FlightData.t) (r : Route.t)
      (a : Airplane.t) :
  get Route.id (routes db) (FlightData.route data) = Some r ->
  get Airplane.id (airplanes db) (FlightData.airplane data) = Some a ->
  FlightData.departure_time data < FlightData.arrival_time data ->
  FlightSerializer.create
    (FlightAttrs.Build r a (FlightData.departure_time data)
                       (FlightData.arrival_time data)
                       (FlightData.crew data)) db =
  let f := Flight.Build (fresh_id Flight.id (flights db))
                        (FlightData.route data) (FlightData.airplane data)
                        (FlightData.departure_time data)
                        (FlightData.arrival_time data) in
  (set_flight_crew
     (flight_crew db ++
      map (fun c => (Flight.id f, c))
          (nodup Z.eq_dec (FlightData.crew data)))
     (set_flights (flights db ++ [f]) db),
   Ok f).
Proof.
  intros Hr Ha Ht.
  destruct (get_some _ _ _ _ Hr) as [_ Hrid].
  destruct (get_some _ _ _ _ Ha) as [_ Haid].
  unfold FlightSerializer.create, bindM, Flight_save, bindM. simpl.
  rewrite Hrid, Haid.
  rewrite (Flight_full_clean_ok db _ r a); simpl; try assumption.
  reflexivity.
Qed.

(** C4, as the code has it.  [Flight.clean] raises a validation error if
    and only if [departure_time >= arrival_time], and so does
    [FlightSerializer.validate].  [Flight.save] runs the full validation
    before it writes, for a new flight and for a stored one alike, so with
    [departure_time >= arrival_time] it raises a validation error and the
    store stays as it was, whatever the row of the flight was before; a
    request to create a flight with [departure_time >= arrival_time] is
    refused with the validation error of the serializer and writes
    nothing.  The other way round holds when the rest of the flight is in
    order: a save of a flight whose route and airplane are stored, and a
    request whose route and airplane are stored and whose crew is a list,
    not empty, of stored crew members, fail if and only if
    [departure_time >= arrival_time], and otherwise store the flight with
    its times. *)
Theorem flight_departure_before_arrival (self : Flight.t) :
  (is_ok (Flight.clean self) = false <->
   Flight.departure_time self >= Flight.arrival_time self) /\
  (forall attrs,
      is_ok (FlightSerializer.validate attrs) = false <->
      FlightAttrs.departure_time attrs >= FlightAttrs.arrival_time attrs) /\
  (forall db adding,
      Flight.departure_time self >= Flight.arrival_time self ->
      exists detail,
        Flight_save adding self db =
        (db, Raise (Django_ValidationError detail))) /\
  (forall db adding r a,
      get Route.id (routes db) (Flight.route self) = Some r ->
      get Airplane.id (airplanes db) (Flight.airplane self) = Some a ->
      (is_ok (outcome (Flight_save adding self db)) = false <->
       Flight.departure_time self >= Flight.arrival_time self) /\
      (Flight.departure_time self < Flight.arrival_time self ->
       exists db' row,
         Flight_save adding self db = (db', Ok row) /\
         In row (flights db') /\
         Flight.departure_time row = Flight.departure_time self /\
         Flight.arrival_time row = Flight.arrival_time self)) /\
  (forall db data,
      FlightData.departure_time data >= FlightData.arrival_time data ->
      exists detail,
        FlightViewSet.create data db =
        (db, Raise (DRF_ValidationError detail))) /\
  (forall db data r a,
      get Route.id (routes db) (FlightData.route data) = Some r ->
      get Airplane.id (airplanes db) (FlightData.airplane data) = Some a ->
      FlightData.crew data <> [] ->
      (forall c, In c (FlightData.crew data) -> In c (crews db)) ->
      (is_ok (outcome (FlightViewSet.create data db)) = false <->
       FlightData.departure_time data >= FlightData.arrival_time data) /\
      (FlightData.departure_time data < FlightData.arrival_time data ->
       exists db' row,
         FlightViewSet.create data db = (db', Ok row) /\
         In row (flights db') /\
         Flight.departure_time row = FlightData.departure_time data /\
         Flight.arrival_time row = FlightData.arrival_time data)).
Proof.
  split.
  { destruct (Flight_clean_spec self) as [[_ Hok] [_ Hraise]].
    destruct (Flight.clean self) as [[]|e] eqn:E; simpl.
    - split; [discriminate|]. intros H. apply Hraise in H. discriminate.
    - split; [|reflexivity]. intros _.
      destruct (Z.lt_ge_cases (Flight.departure_time self)
                              (Flight.arrival_time self)) as [H|H]; [|lia].
      apply Hok in H. discriminate. }
  split.
  { intros attrs. unfold FlightSerializer.validate.
    destruct (Z.geb_spec (FlightAttrs.departure_time attrs)
                         (FlightAttrs.arrival_time attrs)); simpl;
      split; intros H'; try reflexivity; try discriminate; lia. }
  split.
  { intros db adding Hlate.
    destruct (Flight_full_clean_late db self Hlate) as [detail E].
    exists detail. unfold Flight_save, bindM. now rewrite E. }
  split.
  { intros db adding r a Hr Ha.
    assert (Hsaved :
              Flight.departure_time self < Flight.arrival_time self ->
              exists db' row,
                Flight_save adding self db = (db', Ok row) /\
                In row (flights db') /\
                Flight.departure_time row = Flight.departure_time self /\
                Flight.arrival_time row = Flight.arrival_time self).
    { intros Ht. unfold Flight_save, bindM.
      rewrite (Flight_full_clean_ok db self r a Hr Ha Ht).
      destruct adding.
      - eexists. eexists. split; [reflexivity|]. simpl.
        split; [apply in_or_app; right; now left | now split].
      - eexists. eexists. split; [reflexivity|]. simpl.
        split; [|now split]. unfold update_row.
        destruct (existsb _ (flights db)) eqn:Ex.
        + apply existsb_exists in Ex. destruct Ex as (x & Hx & Hk).
          apply in_map_iff. exists x. rewrite Hk. now split.
        + apply in_or_app. right. now left. }
    split; [|exact Hsaved].
    split.
    - intros Hfail.
      destruct (Z.lt_ge_cases (Flight.departure_time self)
                              (Flight.arrival_time self)) as [H|H]; [|lia].
      destruct (Hsaved H) as (db' & row & E & _).
      rewrite E in Hfail. discriminate.
    - intros Hlate.
      destruct (Flight_full_clean_late db self Hlate) as [detail E].
      unfold Flight_save, bindM. now rewrite E. }
  split.
  { intros db data Hlate.
    unfold FlightViewSet.create, bindM, FlightSerializer.run_validation.
    destruct (to_internal_value_cases db data)
      as [(r & a & _ & _ & _ & _ & ->)|(_ & d & ->)];
      cbn [bind]; [|now exists d].
    unfold FlightSerializer.validate; simpl.
    destruct (Z.geb_spec (FlightData.departure_time data)
                         (FlightData.arrival_time data)); [|lia].
    eauto. }
  intros db data r a Hr Ha Hne Hcrew.
  assert (Hrun : FlightSerializer.to_internal_value db data =
                 Ok (FlightAttrs.Build r a (FlightData.departure_time data)
                                       (FlightData.arrival_time data)
                                       (FlightData.crew data))).
  { destruct (to_internal_value_cases db data)
      as [(r' & a' & Hr' & Ha' & _ & _ & E)|(Hbad & _)].
    - rewrite Hr in Hr'. rewrite Ha in Ha'.
      injection Hr' as <-. injection Ha' as <-. exact E.
    - exfalso. apply Hbad. repeat split; eauto. }
  assert (Hsaved :
            FlightData.departure_time data < FlightData.arrival_time data ->
            exists db' row,
              FlightViewSet.create data db = (db', Ok row) /\
              In row (flights db') /\
              Flight.departure_time row = FlightData.departure_time data /\
              Flight.arrival_time row = FlightData.arrival_time data).
  { intros Ht.
    unfold FlightViewSet.create, bindM, FlightSerializer.run_validation.
    rewrite Hrun. cbn [bind]. unfold FlightSerializer.validate; simpl.
    destruct (Z.geb_spec (FlightData.departure_time data)
                         (FlightData.arrival_time data)); [lia|].
    rewrite (flight_create_run db data r a Hr Ha Ht). cbn zeta.
    eexists. eexists. split; [reflexivity|]. simpl.
    split; [apply in_or_app; right; now left | now split]. }
  split; [|exact Hsaved].
  split.
  - intros Hfail.
    destruct (Z.lt_ge_cases (FlightData.departure_time data)
                            (FlightData.arrival_time data)) as [H|H]; [|lia].
    destruct (Hsaved H) as (db' & row & E & _).
    rewrite E in Hfail. discriminate.
  - intros Hlate.
    unfold FlightViewSet.create, bindM, FlightSerializer.run_validation.
    rewrite Hrun. cbn [bind]. unfold FlightSerializer.validate; simpl.
    destruct (Z.geb_spec (FlightData.departure_time data)
                         (FlightData.arrival_time data)); [|lia].
    reflexivity.
Qed.

(** A request with a departure before the arrival is refused all the same
    with a validation error when its crew is empty, and so is the save of a
    flight whose route is not stored: a validation error does not tell
    that the times are wrong. *)
Lemma flight_refused_with_times_in_order :
  (FlightData.departure_time (FlightData.Build 1 1 100 200 []) <
   FlightData.arrival_time (FlightData.Build 1 1 100 200 []) /\
   FlightViewSet.create (FlightData.Build 1 1 100 200 []) sample_db =
   (sample_db, Raise (DRF_ValidationError ["crew"]))) /\
  (Flight.departure_time (Flight.Build 0 9 1 100 200) <
   Flight.arrival_time (Flight.Build 0 9 1 100 200) /\
   Flight_save true (Flight.Build 0 9 1 100 200) sample_db =
   (sample_db, Raise (Django_ValidationError ["route"]))).
Proof. repeat split. Qed.

(** Flight 1 of the tests leaves at 300 and arrives at 400; saving it with
    a departure at 500 is refused, with a departure at 350 it is stored.  A
    request for a flight from 500 to 600 with crew members 1 and 2 is
    accepted, the same request with the times swapped is refused. *)
Lemma flight_departure_before_arrival_witness :
  (exists detail,
      Flight_save false (Flight.Build 1 1 1 500 400) sample_db =
      (sample_db, Raise (Django_ValidationError detail))) /\
  (exists db' row,
      Flight_save false (Flight.Build 1 1 1 350 400) sample_db =
      (db', Ok row) /\ In row (flights db') /\
      Flight.departure_time row = 350 /\ Flight.arrival_time row = 400) /\
  (exists db' row,
      FlightViewSet.create (FlightData.Build 1 1 500 600 [1; 2]) sample_db =
      (db', Ok row) /\ In row (flights db') /\
      Flight.departure_time row = 500 /\ Flight.arrival_time row = 600) /\
  (exists detail,
      FlightViewSet.create (FlightData.Build 1 1 600 500 [1; 2]) sample_db =
      (sample_db, Raise (DRF_ValidationError detail))).
Proof.
  split; [|split; [|split]].
  - destruct (flight_departure_before_arrival (Flight.Build 1 1 1 500 400))
      as (_ & _ & Hlate & _).
    apply (Hlate sample_db false). simpl. lia.
  - destruct (flight_departure_before_arrival (Flight.Build 1 1 1 350 400))
      as (_ & _ & _ & Hsave & _).
    destruct (Hsave sample_db false (Route.Build 1 1 2 600)
                    (Airplane.Build 1 "Boeing" 20 6 1) eq_refl eq_refl)
      as [_ Hok].
    apply Hok. simpl. lia.
  - destruct (flight_departure_before_arrival (Flight.Build 1 1 1 350 400))
      as (_ & _ & _ & _ & _ & Hcreate).
    assert (Hne : FlightData.crew (FlightData.Build 1 1 500 600 [1; 2]) <> [])
      by discriminate.
    assert (Hcrew : forall c,
               In c (FlightData.crew (FlightData.Build 1 1 500 600 [1; 2])) ->
               In c (crews sample_db)).
    { intros c [<-|[<-|[]]]; simpl; auto. }
    destruct (Hcreate sample_db (FlightData.Build 1 1 500 600 [1; 2])
                      (Route.Build 1 1 2 600)
                      (Airplane.Build 1 "Boeing" 20 6 1) eq_refl eq_refl
                      Hne Hcrew) as [_ Hok].
    apply Hok. simpl. lia.
  - destruct (flight_departure_before_arrival (Flight.Build 1 1 1 350 400))
      as (_ & _ & _ & _ & Hlate & _).
    apply (Hlate sample_db (FlightData.Build 1 1 600 500 [1; 2])).
    simpl. lia.
Defined.

(** ** Airplanes *)

Lemma airplane_run_validation_cases (lo hi : Z) (db : DB)
      (data : AirplaneData.t) :
  (airplane_fields_valid lo hi db data = true /\
   AirplaneSerializer.run_validation lo hi db data =
   Ok (AirplaneData.Build (strip (AirplaneData.name data))
                          (AirplaneData.rows data)
                          (AirplaneData.seats_in_row data)
                          (AirplaneData.airplane_type data))) \/
  (airplane_fields_valid lo hi db data = false /\
   exists detail,
     AirplaneSerializer.run_validation lo hi db data =
     Raise (DRF_ValidationError detail)).
Proof.
  unfold airplane_fields_valid, AirplaneSerializer.run_validation,
    AirplaneSerializer.char_field, AirplaneSerializer.integer_field.
  destruct ((0 <? Z.of_nat (String.length (strip (AirplaneData.name data))))
            && (Z.of_nat (String.length (strip (AirplaneData.name data)))
                <=? 255)
            && negb (has_null (strip (AirplaneData.name data))));
    destruct ((lo <=? AirplaneData.rows data) &&
              (AirplaneData.rows data <=? hi));
    destruct ((lo <=? AirplaneData.seats_in_row data) &&
              (AirplaneData.seats_in_row data <=? hi));
    destruct (existsb (Z.eqb (AirplaneData.airplane_type data))
                      (airplane_types db));
    simpl; try (left; split; reflexivity); right; split; eauto.
Qed.

(** C8, as the code has it.  [rows] and [seats_in_row] are plain integer
    fields, and nothing asks them to be positive: a request to create an
    airplane is accepted exactly when the fields of the serializer are
    satisfied ([airplane_fields_valid]: a name that is not blank, has at
    most 255 characters and no null character, an airplane type that
    exists, and two numbers in the range of an integer column of the
    database, whatever their sign).  The airplane is then stored with the
    two numbers of the request; a request that is refused raises a
    validation error and stores nothing. *)
Theorem airplane_create_takes_any_integer (min_value max_value : Z)
        (db : DB) (data : AirplaneData.t) :
  (is_ok (outcome (AirplaneViewSet.create min_value max_value data db))
   = airplane_fields_valid min_value max_value db data) /\
  (forall db' row,
      AirplaneViewSet.create min_value max_value data db = (db', Ok row) ->
      airplanes db' = airplanes db ++ [row] /\
      Airplane.rows row = AirplaneData.rows data /\
      Airplane.seats_in_row row = AirplaneData.seats_in_row data /\
      min_value <= Airplane.rows row <= max_value /\
      min_value <= Airplane.seats_in_row row <= max_value) /\
  (forall db' e,
      AirplaneViewSet.create min_value max_value data db = (db', Raise e) ->
      db' = db /\ exists detail, e = DRF_ValidationError detail).
Proof.
  unfold AirplaneViewSet.create, bindM, outcome.
  destruct (airplane_run_validation_cases min_value max_value db data)
    as [[Hv E]|[Hv [detail E]]]; rewrite E, Hv; simpl.
  - split; [reflexivity|]. split.
    + intros db' row H. injection H as <- <-. simpl.
      unfold airplane_fields_valid in Hv.
      rewrite !andb_true_iff, !Z.leb_le in Hv.
      repeat split; lia.
    + discriminate.
  - split; [reflexivity|]. split; [discriminate|].
    intros db' e H. injection H as <- <-. eauto.
Qed.

(** An airplane without rows and with a negative number of seats in a row
    is accepted and stored. *)
Lemma airplane_positive_rows_counterexample :
  exists db' row,
    AirplaneViewSet.create (-2147483648) 2147483647
                           (AirplaneData.Build "Glider" 0 (-3) 1) sample_db
    = (db', Ok row) /\
    In row (airplanes db') /\
    Airplane.rows row = 0 /\ Airplane.seats_in_row row = -3 /\
    reachable (-2147483648) 2147483647 db'.
Proof.
  set (data := AirplaneData.Build "Glider" 0 (-3) 1).
  exists (handle (-2147483648) 2147483647 (CreateAirplane data) sample_db),
         (Airplane.Build 2 "Glider" 0 (-3) 1).
  split; [reflexivity|]. split; [simpl; auto|].
  split; [reflexivity|]. split; [reflexivity|].
  apply reachable_step. apply reachable_start; reflexivity.
Qed.

Lemma airplane_create_takes_any_integer_witness :
  exists db',
    AirplaneViewSet.create (-2147483648) 2147483647
                           (AirplaneData.Build "Glider" 0 (-3) 1) sample_db
    = (db', Ok (Airplane.Build 2 "Glider" 0 (-3) 1)) /\
    airplanes db' = airplanes sample_db ++ [Airplane.Build 2 "Glider" 0 (-3) 1].
Proof.
  eexists. split; [reflexivity|].
  destruct (airplane_create_takes_any_integer
              (-2147483648) 2147483647 sample_db
              (AirplaneData.Build "Glider" 0 (-3) 1)) as (_ & Hok & _).
  destruct (Hok _ (Airplane.Build 2 "Glider" 0 (-3) 1) eq_refl) as [H _].
  exact H.
Defined.

(** ** The flight query *)

Lemma int_each_raises (pieces : list string) :
  (exists piece, In piece pieces /\ int piece = None) ->
  FlightViewSet.int_each pieces = Raise ValueError.
Proof.
  induction pieces as [|p rest IH]; intros (piece & Hin & Hbad).
  - destruct Hin.
  - simpl. destruct (int p) as [n|] eqn:E; [|reflexivity].
    destruct Hin as [->|Hin]; [congruence|].
    rewrite IH; [reflexivity | now exists piece].
Qed.

Lemma int_each_cases (pieces : list string) :
  (exists ids, FlightViewSet.int_each pieces = Ok ids) \/
  FlightViewSet.int_each pieces = Raise ValueError.
Proof.
  induction pieces as [|p rest IH]; simpl; [left; now exists []|].
  destruct (int p) as [n|]; [|now right].
  destruct IH as [[ids ->] | ->]; simpl; [left; now exists (n :: ids)|].
  now right.
Qed.

Lemma Flight_eqb_eq (a b : Flight.t) :
  FlightViewSet.Flight_eqb a b = true <-> a = b.
Proof.
  unfold FlightViewSet.Flight_eqb.
  rewrite !andb_true_iff, !Z.eqb_eq. split.
  - destruct a, b; simpl. intros [[[[-> ->] ->] ->] ->]. reflexivity.
  - intros ->. auto.
Qed.

Lemma distinct_In (q : FlightViewSet.QuerySet) (f : Flight.t) :
  In f (FlightViewSet.distinct q) <-> In f q.
Proof.
  induction q as [|g q IH]; simpl; [tauto|].
  rewrite filter_In, IH. split.
  - intros [H|[H _]]; auto.
  - intros [H|H]; [now left|].
    destruct (FlightViewSet.Flight_eqb f g) eqn:E.
    + apply Flight_eqb_eq in E. now left.
    + right. now split.
Qed.

Lemma distinct_NoDup (q : FlightViewSet.QuerySet) :
  NoDup (FlightViewSet.distinct q).
Proof.
  induction q as [|g q IH]; simpl; constructor.
  - rewrite filter_In. intros [_ H].
    assert (FlightViewSet.Flight_eqb g g = true) as E
        by now apply Flight_eqb_eq.
    rewrite E in H. discriminate.
  - now apply NoDup_filter.
Qed.

Lemma insert_by_departure_perm (f : Flight.t) (l : FlightViewSet.QuerySet) :
  Permutation (f :: l) (FlightViewSet.insert_by_departure f l).
Proof.
  induction l as [|g l IH]; simpl; [reflexivity|].
  destruct (Flight.departure_time f <=? Flight.departure_time g);
    [reflexivity|].
  rewrite perm_swap. now constructor.
Qed.

Lemma insert_by_departure_sorted (f : Flight.t)
      (l : FlightViewSet.QuerySet) :
  Sorted by_departure l ->
  Sorted by_departure (FlightViewSet.insert_by_departure f l).
Proof.
  induction l as [|g l IH]; simpl; intros Hs.
  - repeat constructor.
  - destruct (Z.leb_spec (Flight.departure_time f)
                         (Flight.departure_time g)) as [Hle|Hgt].
    + constructor; [assumption|]. now constructor.
    + apply Sorted_inv in Hs. destruct Hs as [Hs Hhd].
      constructor; [now apply IH|].
      destruct l as [|h l]; simpl.
      * constructor. unfold by_departure. lia.
      * destruct (Flight.departure_time f <=? Flight.departure_time h).
        -- constructor. unfold by_departure. lia.
        -- apply HdRel_inv in Hhd. now constructor.
Qed.

Lemma order_by_perm (q : FlightViewSet.QuerySet) :
  Permutation q (FlightViewSet.order_by_departure_time q).
Proof.
  induction q as [|f q IH]; simpl; [reflexivity|].
  rewrite <- insert_by_departure_perm. now constructor.
Qed.

Lemma order_by_sorted (q : FlightViewSet.QuerySet) :
  StronglySorted by_departure (FlightViewSet.order_by_departure_time q).
Proof.
  apply Sorted_StronglySorted.
  - intros a b c. unfold by_departure. lia.
  - induction q as [|f q IH]; simpl; [constructor|].
    now apply insert_by_departure_sorted.
Qed.

(** What [distinct] and [order_by] make of the rows of a query. *)
Lemma ordered_distinct (q : FlightViewSet.QuerySet) :
  let qs := FlightViewSet.order_by_departure_time (FlightViewSet.distinct q)
  in
  (forall f, In f qs <-> In f q) /\ NoDup qs /\
  StronglySorted by_departure qs.
Proof.
  intros qs. split; [|split].
  - intros f. rewrite <- (distinct_In q f). unfold qs.
    split; apply Permutation_in; [symmetry|]; apply order_by_perm.
  - apply (Permutation_NoDup (order_by_perm _)). apply distinct_NoDup.
  - apply order_by_sorted.
Qed.

Lemma filter_crew_id_in_In (db : DB) (ids : list Z)
      (q : FlightViewSet.QuerySet) (f : Flight.t) :
  In f (FlightViewSet.filter_crew_id_in db ids q) <->
  In f q /\ crew_intersects db ids f.
Proof.
  unfold FlightViewSet.filter_crew_id_in, crew_intersects.
  rewrite in_flat_map. split.
  - intros (g & Hg & Hin). apply in_map_iff in Hin.
    destruct Hin as ([k c] & <- & Hfc). apply filter_In in Hfc.
    destruct Hfc as [Hfc Hc]. simpl in Hc.
    apply andb_true_iff in Hc. destruct Hc as [Hk Hc].
    apply Z.eqb_eq in Hk. subst k.
    apply existsb_exists in Hc. destruct Hc as (c' & Hc' & E).
    apply Z.eqb_eq in E. subst c'.
    split; [assumption|]. now exists c.
  - intros (Hf & c & Hc & Hfc). exists f. split; [assumption|].
    apply in_map_iff. exists (Flight.id f, c). split; [reflexivity|].
    apply filter_In. split; [assumption|]. simpl.
    rewrite Z.eqb_refl. simpl. apply existsb_exists. exists c.
    split; [assumption | apply Z.eqb_refl].
Qed.

Lemma optional_filter_incl (p : option string)
      (g : string -> Flight.t -> bool) (q : FlightViewSet.QuerySet) :
  incl (optional_filter p g q) q.
Proof.
  unfold optional_filter, FlightViewSet.filter_by.
  destruct (truthy p); [apply incl_filter | apply incl_refl].
Qed.

Lemma text_filters_incl (db : DB) (params : QueryParams.t) :
  incl (text_filters db params) (flights db).
Proof.
  unfold text_filters.
  repeat (eapply incl_tran; [apply optional_filter_incl|]).
  apply incl_refl.
Qed.

Section Query.

Variable date : Type.
Variable strptime_date : string -> option date.
Variable start_of_day : date -> Z.

Local Abbreviation when_given := FlightViewSet.when_given.
Local Abbreviation filter_date_gte :=
  (FlightViewSet.filter_date_gte strptime_date start_of_day).
Local Abbreviation get_queryset :=
  (FlightViewSet.get_queryset strptime_date start_of_day).

(** A filter that cannot raise. *)
Lemma when_given_total (p : option string)
      (g : string -> FlightViewSet.QuerySet -> FlightViewSet.QuerySet)
      (q : FlightViewSet.QuerySet) :
  when_given p (fun v q' => Ok (g v q')) q =
  Ok (match truthy p with Some v => g v q | None => q end).
Proof.
  unfold FlightViewSet.when_given. now destruct (truthy p).
Qed.

Lemma crew_step_cases (db : DB) (p : option string)
      (q : FlightViewSet.QuerySet) :
  let step :=
    when_given p
      (fun crew q' =>
         crew_ids <- FlightViewSet._params_to_ints crew ;;
         Ok (FlightViewSet.filter_crew_id_in db crew_ids q')) q in
  match truthy p with
  | None => step = Ok q
  | Some crew =>
      (exists ids,
          FlightViewSet._params_to_ints crew = Ok ids /\
          step = Ok (FlightViewSet.filter_crew_id_in db ids q)) \/
      (FlightViewSet._params_to_ints crew = Raise ValueError /\
       step = Raise ValueError)
  end.
Proof.
  unfold FlightViewSet.when_given. destruct (truthy p) as [crew|];
    [|reflexivity].
  unfold FlightViewSet._params_to_ints.
  destruct (int_each_cases (split "," crew)) as [[ids E]|E]; rewrite E;
    simpl; [left; now exists ids | now right].
Qed.

Lemma date_step_cases (column : Flight.t -> Z) (p : option string)
      (q : FlightViewSet.QuerySet) :
  match truthy p with
  | None => when_given p (filter_date_gte column) q = Ok q
  | Some value =>
      match strptime_date value with
      | Some d =>
          when_given p (filter_date_gte column) q =
          Ok (FlightViewSet.filter_by
                (fun f => column f >=? start_of_day d) q)
      | None => when_given p (filter_date_gte column) q = Raise ValueError
      end
  end.
Proof.
  unfold FlightViewSet.when_given, FlightViewSet.filter_date_gte.
  destruct (truthy p) as [value|]; [|reflexivity].
  now destruct (strptime_date value).
Qed.

(** The query is its five text filters, then the crew filter and the two
    date filters, which can raise, then [distinct] and [order_by]. *)
Lemma get_queryset_unfold (db : DB) (params : QueryParams.t) :
  get_queryset db params =
  (q1 <- when_given (QueryParams.crew params)
           (fun crew q =>
              crew_ids <- FlightViewSet._params_to_ints crew ;;
              Ok (FlightViewSet.filter_crew_id_in db crew_ids q))
           (text_filters db params) ;;
   q2 <- when_given (QueryParams.date_departure params)
           (filter_date_gte Flight.departure_time) q1 ;;
   q3 <- when_given (QueryParams.date_arrival params)
           (filter_date_gte Flight.arrival_time) q2 ;;
   Ok (FlightViewSet.order_by_departure_time (FlightViewSet.distinct q3))).
Proof.
  unfold FlightViewSet.get_queryset.
  repeat (rewrite when_given_total; cbn [bind]).
  reflexivity.
Qed.

(** The only exception of the query is [ValueError]. *)
Lemma get_queryset_cases (db : DB) (params : QueryParams.t) :
  (exists qs, get_queryset db params = Ok qs) \/
  get_queryset db params = Raise ValueError.
Proof.
  rewrite get_queryset_unfold.
  pose proof (crew_step_cases db (QueryParams.crew params)
                              (text_filters db params)) as Hc.
  cbn zeta in Hc.
  destruct (when_given (QueryParams.crew params) _ (text_filters db params))
    as [q1|e] eqn:E1.
  2:{ right. destruct (truthy (QueryParams.crew params));
        [|discriminate].
      destruct Hc as [(ids & _ & Hc)|[_ Hc]]; [discriminate|].
      now rewrite Hc. }
  cbn [bind].
  pose proof (date_step_cases Flight.departure_time
                (QueryParams.date_departure params) q1) as Hd.
  destruct (when_given (QueryParams.date_departure params) _ q1)
    as [q2|e] eqn:E2.
  2:{ right. destruct (truthy (QueryParams.date_departure params)) as [v|];
        [|discriminate].
      destruct (strptime_date v); [discriminate|]. now rewrite Hd. }
  cbn [bind].
  pose proof (date_step_cases Flight.arrival_time
                (QueryParams.date_arrival params) q2) as Ha.
  destruct (when_given (QueryParams.date_arrival params) _ q2)
    as [q3|e] eqn:E3.
  2:{ right. destruct (truthy (QueryParams.date_arrival params)) as [v|];
        [|discriminate].
      destruct (strptime_date v); [discriminate|]. now rewrite Ha. }
  cbn [bind]. left. eauto.
Qed.

(** C5, as the code has it.  A flight query whose crew parameter is not
    empty and has, between its commas, a piece that [int] refuses, or whose
    [date_departure] or [date_arrival] is not empty and is refused by
    [strptime] with ["%Y-%m-%d"], makes [get_queryset] raise [ValueError].
    Nothing catches it, so the request fails as an internal server error
    and not as a client error.  A crew or date parameter that is given
    empty is passed over without an error, although it is no list of
    integers and no date: the query answers as it does without the
    parameter. *)
Theorem malformed_query_raises_ValueError (db : DB)
        (params : QueryParams.t) :
  (((exists crew piece,
        truthy (QueryParams.crew params) = Some crew /\
        In piece (split "," crew) /\ int piece = None) \/
    (exists value,
        truthy (QueryParams.date_departure params) = Some value /\
        strptime_date value = None) \/
    (exists value,
        truthy (QueryParams.date_arrival params) = Some value /\
        strptime_date value = None)) ->
   get_queryset db params = Raise ValueError /\
   status_code ValueError = 500 /\
   client_error ValueError = false) /\
  (QueryParams.crew params = Some "" ->
   get_queryset db params =
   get_queryset db
     (QueryParams.Build (QueryParams.source_airport params)
                        (QueryParams.destination_airport params)
                        (QueryParams.source_city params)
                        (QueryParams.destination_city params)
                        (QueryParams.airplane params)
                        None
                        (QueryParams.date_departure params)
                        (QueryParams.date_arrival params))) /\
  (QueryParams.date_departure params = Some "" ->
   get_queryset db params =
   get_queryset db
     (QueryParams.Build (QueryParams.source_airport params)
                        (QueryParams.destination_airport params)
                        (QueryParams.source_city params)
                        (QueryParams.destination_city params)
                        (QueryParams.airplane params)
                        (QueryParams.crew params)
                        None
                        (QueryParams.date_arrival params))) /\
  (QueryParams.date_arrival params = Some "" ->
   get_queryset db params =
   get_queryset db
     (QueryParams.Build (QueryParams.source_airport params)
                        (QueryParams.destination_airport params)
                        (QueryParams.source_city params)
                        (QueryParams.destination_city params)
                        (QueryParams.airplane params)
                        (QueryParams.crew params)
                        (QueryParams.date_departure params)
                        None)).
Proof.
  split.
  2:{ destruct params as [sa da sc dc ap cr dd ad]; simpl.
      repeat split; intros ->; reflexivity. }
  intros Hbad. split; [|split; reflexivity].
  destruct (get_queryset_cases db params) as [[qs Hok]|Hraise];
    [|exact Hraise].
  exfalso. rewrite get_queryset_unfold in Hok.
  pose proof (crew_step_cases db (QueryParams.crew params)
                              (text_filters db params)) as Hc.
  cbn zeta in Hc.
  destruct (when_given (QueryParams.crew params) _ (text_filters db params))
    as [q1|e] eqn:E1; [|discriminate].
  cbn [bind] in Hok.
  pose proof (date_step_cases Flight.departure_time
                (QueryParams.date_departure params) q1) as Hd.
  destruct (when_given (QueryParams.date_departure params) _ q1)
    as [q2|e] eqn:E2; [|discriminate].
  cbn [bind] in Hok.
  pose proof (date_step_cases Flight.arrival_time
                (QueryParams.date_arrival params) q2) as Ha.
  destruct (when_given (QueryParams.date_arrival params) _ q2)
    as [q3|e] eqn:E3; [|discriminate].
  destruct Hbad as [(crew & piece & Hp & Hin & Hint)
                   |[(value & Hp & Hv)|(value & Hp & Hv)]].
  - rewrite Hp in Hc.
    destruct Hc as [(ids & Hids & _)|[_ Hc]]; [|discriminate].
    unfold FlightViewSet._params_to_ints in Hids.
    rewrite int_each_raises in Hids; [discriminate | now exists piece].
  - rewrite Hp, Hv in Hd. discriminate.
  - rewrite Hp, Hv in Ha. discriminate.
Qed.

(** The rows a query that ends normally is made from are flights of the
    table. *)
Lemma get_queryset_ok (db : DB) (params : QueryParams.t)
      (qs : FlightViewSet.QuerySet) :
  get_queryset db params = Ok qs ->
  exists q,
    qs = FlightViewSet.order_by_departure_time (FlightViewSet.distinct q) /\
    incl q (flights db).
Proof.
  rewrite get_queryset_unfold. intros Hok.
  pose proof (crew_step_cases db (QueryParams.crew params)
                              (text_filters db params)) as Hc.
  cbn zeta in Hc.
  destruct (when_given (QueryParams.crew params) _ (text_filters db params))
    as [q1|e] eqn:E1; [|discriminate].
  cbn [bind] in Hok.
  pose proof (date_step_cases Flight.departure_time
                (QueryParams.date_departure params) q1) as Hd.
  destruct (when_given (QueryParams.date_departure params) _ q1)
    as [q2|e] eqn:E2; [|discriminate].
  cbn [bind] in Hok.
  pose proof (date_step_cases Flight.arrival_time
                (QueryParams.date_arrival params) q2) as Ha.
  destruct (when_given (QueryParams.date_arrival params) _ q2)
    as [q3|e] eqn:E3; [|discriminate].
  cbn [bind] in Hok. injection Hok as <-.
  exists q3. split; [reflexivity|].
  assert (H1 : incl q1 (text_filters db params)).
  { destruct (truthy (QueryParams.crew params)).
    - destruct Hc as [(ids & _ & Hc)|[_ Hc]]; [|discriminate].
      injection Hc as ->. intros f Hf.
      now apply filter_crew_id_in_In in Hf.
    - injection Hc as ->. apply incl_refl. }
  assert (H2 : incl q2 q1).
  { destruct (truthy (QueryParams.date_departure params)) as [v|].
    - destruct (strptime_date v); [|discriminate].
      injection Hd as ->. apply incl_filter.
    - injection Hd as ->. apply incl_refl. }
  assert (H3 : incl q3 q2).
  { destruct (truthy (QueryParams.date_arrival params)) as [v|].
    - destruct (strptime_date v); [|discriminate].
      injection Ha as ->. apply incl_filter.
    - injection Ha as ->. apply incl_refl. }
  eapply incl_tran; [exact H3|]. eapply incl_tran; [exact H2|].
  eapply incl_tran; [exact H1|]. apply text_filters_incl.
Qed.

(** C6. With the crew filter [id1,...,idk] alone, the flights of the answer
    are the flights that have a crew member among [id1,...,idk], each of
    them and no other, and each once, also when several of its crew members
    are in the list.  Whatever the filters, an answer has no flight twice
    and is in ascending order of [departure_time]. *)
Theorem crew_filter_distinct_and_ordered (db : DB) :
  (forall crew ids,
      crew <> "" ->
      FlightViewSet._params_to_ints crew = Ok ids ->
      exists qs,
        get_queryset db (crew_params crew) = Ok qs /\
        (forall f, In f qs <->
                   In f (flights db) /\
                   exists c, In c ids /\ In (Flight.id f, c)
                                            (flight_crew db)) /\
        NoDup qs /\
        StronglySorted by_departure qs) /\
  (forall params qs,
      get_queryset db params = Ok qs ->
      NoDup qs /\
      (NoDup (map Flight.id (flights db)) -> NoDup (map Flight.id qs)) /\
      StronglySorted
        (fun a b => Flight.departure_time a <= Flight.departure_time b) qs).
Proof.
  split.
  - intros crew ids Hne Hids.
    exists (FlightViewSet.order_by_departure_time
              (FlightViewSet.distinct
                 (FlightViewSet.filter_crew_id_in db ids (flights db)))).
    split.
    + rewrite get_queryset_unfold. unfold crew_params; simpl.
      unfold FlightViewSet.when_given at 1; simpl.
      destruct crew as [|c crew']; [now elim Hne|]. simpl truthy.
      cbn iota. rewrite Hids. reflexivity.
    + destruct (ordered_distinct
                  (FlightViewSet.filter_crew_id_in db ids (flights db)))
        as (Hin & Hnd & Hs).
      split; [|now split].
      intros f. rewrite Hin. apply filter_crew_id_in_In.
  - intros params qs Hok. apply get_queryset_ok in Hok.
    destruct Hok as (q & -> & Hincl).
    destruct (ordered_distinct q) as (Hin & Hnd & Hs).
    split; [exact Hnd|]. split; [|exact Hs].
    intros Hpk.
    set (qs := FlightViewSet.order_by_departure_time
                 (FlightViewSet.distinct q)) in *.
    assert (Hsub : incl qs (flights db)).
    { intros f Hf. apply Hincl. now apply Hin. }
    clearbody qs. clear Hin Hs.
    induction qs as [|f qs IH]; simpl; constructor.
    + intros Hk. apply in_map_iff in Hk. destruct Hk as (g & Hk & Hg).
      apply NoDup_cons_iff in Hnd. destruct Hnd as [Hf _]. apply Hf.
      assert (g = f) as <-; [|assumption].
      apply (same_key_same_row Flight.id (flights db)); try assumption.
      * apply Hsub. now right.
      * apply Hsub. now left.
    + apply NoDup_cons_iff in Hnd. destruct Hnd as [_ Hnd].
      apply IH; [assumption|]. intros g Hg. apply Hsub. now right.
Qed.

End Query.

(** The crew parameter [abc] on the store of the tests: the query raises
    [ValueError], which is answered as an internal server error, not as a
    client error.  The empty crew parameter, which is no list of integers,
    and the empty date, which is no date (here no string at all is one),
    are passed over: the query answers with all the flights, as it does
    without parameters. *)
Lemma malformed_crew_is_a_server_error :
  (FlightViewSet.get_queryset no_date (fun d : Z => d) sample_db
                              (crew_params "abc") = Raise ValueError /\
   status_code ValueError = 500 /\
   client_error ValueError = false) /\
  (FlightViewSet._params_to_ints "" = Raise ValueError /\
   FlightViewSet.get_queryset no_date (fun d : Z => d) sample_db
                              (crew_params "") =
   FlightViewSet.get_queryset no_date (fun d : Z => d) sample_db no_params) /\
  (no_date "" = None /\
   FlightViewSet.get_queryset
     no_date (fun d : Z => d) sample_db
     (QueryParams.Build None None None None None None (Some "") None) =
   FlightViewSet.get_queryset no_date (fun d : Z => d) sample_db no_params) /\
  FlightViewSet.get_queryset no_date (fun d : Z => d) sample_db no_params =
  Ok [Flight.Build 2 1 1 100 200; Flight.Build 3 2 1 200 500;
      Flight.Build 1 1 1 300 400].
Proof. repeat split. Qed.

Lemma malformed_query_raises_ValueError_witness :
  FlightViewSet.get_queryset no_date (fun d : Z => d) sample_db
                             (crew_params "1,x") = Raise ValueError.
Proof.
  destruct (malformed_query_raises_ValueError
              Z no_date (fun d : Z => d) sample_db (crew_params "1,x"))
    as [Hraise _].
  refine (proj1 (Hraise _)).
  left. exists "1,x", "x". split; [reflexivity|].
  split; [simpl; auto | reflexivity].
Defined.

(** The crew filter [2, 3] on the store of the tests.  Flight 2 has both
    crew members, so the join with the crew table gives it twice, and
    flight 3 has crew member 3; the answer has each of them once, flight 2
    first as it leaves first. *)
Lemma crew_filter_distinct_and_ordered_witness :
  FlightViewSet.filter_crew_id_in sample_db [2; 3] (flights sample_db) =
  [Flight.Build 2 1 1 100 200; Flight.Build 2 1 1 100 200;
   Flight.Build 3 2 1 200 500] /\
  exists qs,
    FlightViewSet.get_queryset no_date (fun d : Z => d) sample_db
                               (crew_params "2, 3") = Ok qs /\
    map Flight.id qs = [2; 3] /\
    NoDup qs /\ StronglySorted by_departure qs.
Proof.
  split; [reflexivity|].
  destruct (crew_filter_distinct_and_ordered Z no_date (fun d : Z => d)
                                             sample_db) as [Hcrew _].
  assert (Hne : "2, 3" <> "") by discriminate.
  destruct (Hcrew "2, 3" [2; 3] Hne eq_refl) as (qs & E & _ & Hnd & Hs).
  exists qs. split; [exact E|]. split; [|now split].
  assert (E' : FlightViewSet.get_queryset no_date (fun d : Z => d) sample_db
                 (crew_params "2, 3") =
               Ok [Flight.Build 2 1 1 100 200; Flight.Build 3 2 1 200 500])
    by reflexivity.
  rewrite E in E'. injection E' as ->. reflexivity.
Defined.

(** * Further properties *)

(** ** When an order request succeeds *)

Lemma run_validation_intro (db : DB) (s : TicketSpec.t) :
  entry_acceptable db s ->
  exists a, TicketSerializer.run_validation db s = Ok a.
Proof.
  intros (f & p & Hf & Hp & Hr & Hfree).
  unfold TicketSerializer.run_validation,
    TicketSerializer.to_internal_value.
  rewrite Hf. cbn [bind].
  destruct (get_some _ _ _ _ Hf) as [_ Hid].
  unfold TicketSerializer.unique_together_validator; simpl.
  destruct (existsb _ (tickets db)) eqn:Hex.
  - exfalso. apply Hfree. apply existsb_exists in Hex.
    destruct Hex as (t & Hin & Hk).
    rewrite !andb_true_iff, !Z.eqb_eq in Hk. destruct Hk as [[H1 H2] H3].
    apply in_map_iff. exists t. split; [|assumption].
    unfold seat_key, spec_key. now rewrite H1, H2, H3, Hid.
  - cbn [bind]. unfold TicketSerializer.validate, related; simpl.
    rewrite Hp. cbn [bind].
    apply (validate_ticket_spec _ _ _ DRF_ValidationError) in Hr.
    rewrite Hr. simpl. eauto.
Qed.

Lemma many_intro (db : DB) (specs : list TicketSpec.t) :
  Forall (entry_acceptable db) specs ->
  exists vs, TicketSerializer.many db specs = Ok (vs, []).
Proof.
  induction 1 as [|s rest Hs _ IH]; simpl; [now exists []|].
  destruct (run_validation_intro db s Hs) as [a ->].
  destruct IH as [vs ->]. simpl. now exists (a :: vs).
Qed.

Lemma tickets_validated_acceptable (db : DB) (specs : list TicketSpec.t)
      (tds : list TicketAttrs.t) :
  OrderSerializer.tickets db specs = Ok tds ->
  Forall (entry_acceptable db) specs.
Proof.
  intros Hv. apply OrderSerializer_tickets_ok in Hv.
  destruct Hv as (_ & Hkeys & Hw & Hfree).
  apply Forall_forall. intros s Hin.
  assert (Hk : In (spec_key s) (map attrs_key tds)).
  { rewrite Hkeys. now apply in_map. }
  apply in_map_iff in Hk. destruct Hk as (a & Hk & Hina).
  rewrite Forall_forall in Hw. destruct (Hw a Hina) as (Hfa & p & Hp & Hr).
  pose proof (Hfree a Hina) as Hnew. rewrite Hk in Hnew.
  unfold attrs_key, spec_key in Hk. injection Hk as H1 H2 H3.
  exists (TicketAttrs.flight a), p.
  rewrite <- H3, <- H1, <- H2. auto.
Qed.

Lemma seat_keys_of_requested (o : Order.t) (ts : list Ticket.t) :
  forall specs,
    map ticket_fields ts = map (requested_fields o) specs ->
    map seat_key ts = map spec_key specs.
Proof.
  induction ts as [|t ts IH]; intros [|s specs] H; simpl in H;
    try discriminate; [reflexivity|].
  injection H as H1 H2 H3 _ Hrest. simpl. f_equal; [|now apply IH].
  unfold seat_key, spec_key. now rewrite H1, H2, H3.
Qed.

Lemma create_order_ok_keys (now user : Z) (specs : list TicketSpec.t)
      (db db' : DB) (o : Order.t) :
  OrderViewSet.create now user specs db = (db', Ok o) ->
  NoDup (map spec_key specs).
Proof.
  intros E. apply create_order_ok in E.
  destruct E as (_ & _ & _ & _ & ts & _ & Hf & Hnd & _).
  now rewrite <- (seat_keys_of_requested o ts specs Hf).
Qed.

(** X1. An order request succeeds exactly when its list of tickets is not
    empty, each entry alone is acceptable on the store (stored flight and
    airplane, seat inside the grid and not taken) and no two entries are
    for the same seat of the same flight. *)
Theorem create_order_succeeds_iff (now user : Z) (specs : list TicketSpec.t)
        (db : DB) :
  (exists db' o, OrderViewSet.create now user specs db = (db', Ok o)) <->
  specs <> [] /\ Forall (entry_acceptable db) specs /\
  NoDup (map spec_key specs).
Proof.
  split.
  - intros (db' & o & E).
    pose proof (create_order_ok_keys now user specs db db' o E) as Hnd.
    unfold OrderViewSet.create, bindM in E.
    destruct (OrderSerializer.tickets db specs) as [tds|e] eqn:Hv;
      [|discriminate].
    split; [now apply OrderSerializer_tickets_ok in Hv|].
    split; [now apply tickets_validated_acceptable with tds | exact Hnd].
  - intros (Hne & Hacc & Hnd).
    destruct (many_intro db specs Hacc) as [vs Hm].
    assert (Hv : OrderSerializer.tickets db specs = Ok vs).
    { unfold OrderSerializer.tickets. destruct specs; [now elim Hne|].
      now rewrite Hm. }
    destruct (create_order_validated now user specs vs db Hv) as [Hok _].
    exact (Hok Hnd).
Qed.

(** ** Creating, reading and deleting an order *)

Lemma fresh_id_above {A : Type} (pk_of : A -> Z) (table : list A) (r : A) :
  In r table -> pk_of r < fresh_id pk_of table.
Proof.
  unfold fresh_id. induction table as [|x table IH]; [intros []|].
  cbn [fold_right In]. intros [->|Hin]; [lia|]. specialize (IH Hin). lia.
Qed.

Lemma get_app_new {A : Type} (pk_of : A -> Z) (table : list A) (r : A) :
  (forall x, In x table -> pk_of x <> pk_of r) ->
  forall user_filter : A -> bool,
    user_filter r = true ->
    get pk_of (filter user_filter (table ++ [r])) (pk_of r) = Some r.
Proof.
  intros Hnew keep Hkeep. unfold get. rewrite filter_app. simpl.
  rewrite Hkeep.
  induction table as [|x table IH]; simpl.
  - now rewrite Z.eqb_refl.
  - assert (Hx : pk_of x <> pk_of r) by (apply Hnew; now left).
    assert (IH' : find (fun r0 => pk_of r0 =? pk_of r)
                       (filter keep table ++ [r]) = Some r).
    { apply IH. intros y Hy. apply Hnew. now right. }
    destruct (keep x); simpl; [|exact IH'].
    apply Z.eqb_neq in Hx. now rewrite Hx.
Qed.

Lemma DB_ext (a b : DB) :
  same_catalogue a b -> orders b = orders a -> tickets b = tickets a ->
  b = a.
Proof.
  destruct a, b. unfold same_catalogue. simpl.
  intros (-> & -> & -> & -> & -> & -> & ->) -> ->. reflexivity.
Qed.

Lemma not_found_for (db : DB) (u pk : Z) :
  (forall o, In o (orders db) -> Order.id o = pk -> Order.user o <> u) ->
  OrderViewSet.retrieve u pk db = (db, Raise Http404) /\
  OrderViewSet.destroy u pk db = (db, Raise Http404).
Proof.
  intros Hother.
  assert (G : get Order.id (OrderViewSet.get_queryset db u) pk = None).
  { destruct (get Order.id (OrderViewSet.get_queryset db u) pk) as [o|]
      eqn:G; [|reflexivity].
    apply get_some in G. destruct G as [Hin Hid].
    apply get_queryset_In in Hin. destruct Hin as [Hin Hu].
    exfalso. exact (Hother o Hin Hid Hu). }
  unfold OrderViewSet.retrieve, OrderViewSet.destroy, bindM,
    OrderViewSet.get_object.
  rewrite G. now split.
Qed.

Lemma created_order_retrieved (now user : Z) (specs : list TicketSpec.t)
      (db db' : DB) (o : Order.t) :
  OrderViewSet.create now user specs db = (db', Ok o) ->
  OrderViewSet.get_object db' user (Order.id o) = Ok o.
Proof.
  intros E. apply create_order_ok in E.
  destruct E as (_ & Ho & Hord & _).
  assert (Hu : Order.user o = user) by now rewrite Ho.
  assert (Hnew : forall x, In x (orders db) -> Order.id x <> Order.id o).
  { intros x Hx. pose proof (fresh_id_above Order.id (orders db) x Hx).
    rewrite Ho. simpl. lia. }
  unfold OrderViewSet.get_object, OrderViewSet.get_queryset.
  rewrite Hord, (get_app_new Order.id (orders db) o Hnew); [reflexivity|].
  rewrite Hu. apply Z.eqb_refl.
Qed.

(** X2. An order that has just been created is the order its user
    retrieves by its key and is in the list of its user; it is in the list
    of no other user, and another user who asks for it by its key gets
    not found. *)
Theorem created_order_is_of_its_user (now user : Z)
        (specs : list TicketSpec.t) (db db' : DB) (o : Order.t) :
  OrderViewSet.create now user specs db = (db', Ok o) ->
  OrderViewSet.retrieve user (Order.id o) db' = (db', Ok o) /\
  In o (OrderViewSet.list db' user) /\
  forall other,
    other <> user ->
    ~ In o (OrderViewSet.list db' other) /\
    OrderViewSet.retrieve other (Order.id o) db' = (db', Raise Http404).
Proof.
  intros E. apply create_order_ok in E.
  destruct E as (_ & Ho & Hord & _).
  assert (Hu : Order.user o = user) by now rewrite Ho.
  assert (Hnew : forall x, In x (orders db) -> Order.id x <> Order.id o).
  { intros x Hx. pose proof (fresh_id_above Order.id (orders db) x Hx).
    rewrite Ho. simpl. lia. }
  split.
  { unfold OrderViewSet.retrieve, OrderViewSet.get_object,
      OrderViewSet.get_queryset.
    rewrite Hord, (get_app_new Order.id (orders db) o Hnew); [reflexivity|].
    rewrite Hu. apply Z.eqb_refl. }
  split.
  { apply get_queryset_In. rewrite Hord. split; [|exact Hu].
    apply in_or_app. right. now left. }
  intros other Hother. split.
  - intros Hin. apply get_queryset_In in Hin. destruct Hin as [_ Hin].
    congruence.
  - destruct (not_found_for db' other (Order.id o)) as [H _];
      [|exact H].
    intros x Hx Hid. rewrite Hord in Hx. apply in_app_or in Hx.
    destruct Hx as [Hx|[<-|[]]]; [now elim (Hnew x Hx)|congruence].
Qed.

Lemma filter_keeps_all {A : Type} (keep : A -> bool) (l : list A) :
  (forall x, In x l -> keep x = true) -> filter keep l = l.
Proof.
  induction l as [|x l IH]; simpl; intros H; [reflexivity|].
  rewrite (H x (or_introl eq_refl)). f_equal. apply IH.
  intros y Hy. apply H. now right.
Qed.

Lemma filter_drops_all {A : Type} (keep : A -> bool) (l : list A) :
  (forall x, In x l -> keep x = false) -> filter keep l = [].
Proof.
  induction l as [|x l IH]; simpl; intros H; [reflexivity|].
  rewrite (H x (or_introl eq_refl)). apply IH.
  intros y Hy. apply H. now right.
Qed.

Lemma requested_tickets_owner (o : Order.t) (ts : list Ticket.t) :
  forall specs,
    map ticket_fields ts = map (requested_fields o) specs ->
    forall t, In t ts -> Ticket.order t = Order.id o.
Proof.
  induction ts as [|t ts IH]; intros [|s specs] H; simpl in H;
    try discriminate; [intros ? []|].
  injection H as _ _ _ H4 Hrest. intros t' [<-|Hin]; [exact H4|].
  now apply (IH specs).
Qed.

(** X3. Deleting an order right after it was created leaves every table
    with the rows it had before the order was created, when at that time
    every ticket had its order: the delete succeeds, the orders and the
    tickets are those from before, and the other tables were not written.
    (The keys the database gives out next are another matter: they are no
    rows of a table and the store does not hold them.) *)
Theorem create_then_destroy_restores (now user : Z)
        (specs : list TicketSpec.t) (db db' : DB) (o : Order.t) :
  every_ticket_has_its_order db ->
  OrderViewSet.create now user specs db = (db', Ok o) ->
  exists db'',
    OrderViewSet.destroy user (Order.id o) db' = (db'', Ok tt) /\
    orders db'' = orders db /\ tickets db'' = tickets db /\
    same_catalogue db db''.
Proof.
  intros Hinv E. exists db.
  split; [|split; [reflexivity|]; split; [reflexivity|];
           apply same_catalogue_refl].
  pose proof (created_order_retrieved now user specs db db' o E) as Hget.
  apply create_order_ok in E.
  destruct E as (_ & Ho & Hord & Hcat & ts & Hts & Hf & _).
  assert (Hnew : forall x, In x (orders db) -> Order.id x <> Order.id o).
  { intros x Hx. pose proof (fresh_id_above Order.id (orders db) x Hx).
    rewrite Ho. simpl. lia. }
  unfold OrderViewSet.destroy, bindM. rewrite Hget.
  unfold Order_delete. f_equal.
  apply DB_ext.
  - apply same_catalogue_trans with db'; [exact Hcat|].
    unfold same_catalogue. simpl. repeat split.
  - simpl. rewrite Hord, filter_app. simpl. rewrite Z.eqb_refl. simpl.
    rewrite app_nil_r. apply filter_keeps_all.
    intros x Hx. apply negb_true_iff, Z.eqb_neq. now apply Hnew.
  - simpl. rewrite Hts, filter_app.
    rewrite (filter_drops_all _ ts).
    + rewrite app_nil_r. apply filter_keeps_all.
      intros t Ht. apply negb_true_iff, Z.eqb_neq.
      destruct (Hinv t Ht) as (x & Hx & Hid). rewrite <- Hid.
      now apply Hnew.
    + intros t Ht. apply negb_false_iff, Z.eqb_eq.
      exact (requested_tickets_owner o ts specs Hf t Ht).
Qed.

(** X4. A delete that succeeds takes away the order with the key and the
    tickets of that order, and nothing else: the other orders and the
    tickets of the other orders stay, as do the flights and airplanes.
    After it the key is not found any more, by any user, for reading or
    for deleting again. *)
Theorem destroy_takes_order_and_tickets (user pk : Z) (db db' : DB) :
  OrderViewSet.destroy user pk db = (db', Ok tt) ->
  (forall o, In o (orders db') <-> In o (orders db) /\ Order.id o <> pk) /\
  (forall t, In t (tickets db') <->
             In t (tickets db) /\ Ticket.order t <> pk) /\
  same_catalogue db db' /\
  forall u,
    OrderViewSet.retrieve u pk db' = (db', Raise Http404) /\
    OrderViewSet.destroy u pk db' = (db', Raise Http404).
Proof.
  intros E. apply destroy_ok in E. destruct E as (_ & Hord & Hts & Hcat).
  assert (Ho : forall o, In o (orders db') <->
                         In o (orders db) /\ Order.id o <> pk).
  { intros o. rewrite Hord, filter_In, negb_true_iff, Z.eqb_neq. tauto. }
  split; [exact Ho|]. split.
  { intros t. rewrite Hts, filter_In, negb_true_iff, Z.eqb_neq. tauto. }
  split; [exact Hcat|].
  intros u. apply not_found_for.
  intros o Hin Hid. apply Ho in Hin. tauto.
Qed.

Lemma created_order_is_of_its_user_witness :
  OrderViewSet.retrieve 8 2 two_users_db =
  (two_users_db, Ok (Order.Build 2 1001 8)) /\
  OrderViewSet.retrieve 7 2 two_users_db = (two_users_db, Raise Http404).
Proof.
  assert (E : OrderViewSet.create 1001 8 [TicketSpec.Build 6 1 1] booked_db =
              (two_users_db, Ok (Order.Build 2 1001 8)))
    by (vm_compute; reflexivity).
  destruct (created_order_is_of_its_user 1001 8 _ booked_db two_users_db
                                         (Order.Build 2 1001 8) E)
    as (Hr & _ & Hother).
  split; [exact Hr|].
  assert (Hne : 7 <> 8) by lia.
  exact (proj2 (Hother 7 Hne)).
Defined.

Lemma create_then_destroy_restores_witness :
  exists db'',
    OrderViewSet.destroy 8 2 two_users_db = (db'', Ok tt) /\
    orders db'' = [Order.Build 1 1000 7] /\
    tickets db'' = [Ticket.Build 1 5 1 1 1; Ticket.Build 2 5 2 1 1].
Proof.
  assert (E : OrderViewSet.create 1001 8 [TicketSpec.Build 6 1 1] booked_db =
              (two_users_db, Ok (Order.Build 2 1001 8)))
    by (vm_compute; reflexivity).
  assert (Hinv : every_ticket_has_its_order booked_db).
  { intros t Ht. exists (Order.Build 1 1000 7).
    vm_compute in Ht. destruct Ht as [<-|[<-|[]]]; vm_compute; auto. }
  destruct (create_then_destroy_restores 1001 8 _ booked_db two_users_db
                                         (Order.Build 2 1001 8) Hinv E)
    as (db'' & Hd & Ho & Ht & _).
  exists db''. split; [exact Hd|]. split; [exact Ho | exact Ht].
Defined.

Lemma destroy_takes_order_and_tickets_witness :
  OrderViewSet.destroy 7 1 booked_db = (sample_db, Ok tt) /\
  OrderViewSet.destroy 7 1 sample_db = (sample_db, Raise Http404).
Proof.
  assert (E : OrderViewSet.destroy 7 1 booked_db = (sample_db, Ok tt))
    by (vm_compute; reflexivity).
  split; [exact E|].
  destruct (destroy_takes_order_and_tickets 7 1 booked_db sample_db E)
    as (_ & _ & _ & Hgone).
  exact (proj2 (Hgone 7)).
Defined.

(** ** Creating a flight *)

Lemma get_app_old {A : Type} (pk_of : A -> Z) (table more : list A) (pk : Z)
      (r : A) :
  get pk_of table pk = Some r -> get pk_of (table ++ more) pk = Some r.
Proof.
  unfold get. induction table as [|x table IH]; simpl; [discriminate|].
  destruct (pk_of x =? pk); [trivial | exact IH].
Qed.

(** X8. A request to create a flight is either accepted or refused by the
    serializer, with the store left as it was, and it is accepted exactly
    when its route and airplane are stored, its crew is not empty and made
    of stored crew members, and its departure is before its arrival; the
    validation that [Flight.save] runs again never refuses a flight on
    this way.  The flight is stored under a key above all others with the
    route, airplane and times of the request; every crew member of the
    request is linked to it and the links of the other flights stay;
    orders, tickets and airplanes are not touched. *)
Theorem flight_create_accepted_iff_valid (db : DB) (data : FlightData.t) :
  (flight_data_valid db data /\
   exists db',
     let f := Flight.Build (fresh_id Flight.id (flights db))
                           (FlightData.route data)
                           (FlightData.airplane data)
                           (FlightData.departure_time data)
                           (FlightData.arrival_time data) in
     FlightViewSet.create data db = (db', Ok f) /\
     flights db' = flights db ++ [f] /\
     (forall c, In c (FlightData.crew data) ->
                In (Flight.id f, c) (flight_crew db')) /\
     (forall k c, k <> Flight.id f ->
                  (In (k, c) (flight_crew db') <->
                   In (k, c) (flight_crew db))) /\
     airports db' = airports db /\ routes db' = routes db /\
     airplanes db' = airplanes db /\ crews db' = crews db /\
     orders db' = orders db /\ tickets db' = tickets db) \/
  (~ flight_data_valid db data /\
   exists d,
     FlightViewSet.create data db = (db, Raise (DRF_ValidationError d))).
Proof.
  unfold FlightViewSet.create, bindM, FlightSerializer.run_validation,
    flight_data_valid.
  destruct (to_internal_value_cases db data)
    as [(r & a & Hr & Ha & Hne & Hcrew & ->)|(Hbad & d & ->)];
    cbn [bind].
  2:{ right. split; [tauto | eauto]. }
  unfold FlightSerializer.validate; simpl.
  destruct (Z.geb_spec (FlightData.departure_time data)
                       (FlightData.arrival_time data)) as [Hlate|Hearly].
  { right. split; [lia | eauto]. }
  left. split; [repeat split; eauto|].
  rewrite (flight_create_run db data r a Hr Ha Hearly).
  eexists. split; [reflexivity|]. simpl.
  split; [reflexivity|]. split.
  { intros c Hc. apply in_or_app. right. apply in_map. now apply nodup_In. }
  split; [|repeat split].
  intros k c Hk. rewrite in_app_iff. split; [|now left].
  intros [H|H]; [exact H|].
  apply in_map_iff in H. destruct H as (c' & E & _).
  injection E as E _. now elim Hk.
Qed.

(** ** What every request keeps *)

Lemma airplane_create_effect (lo hi : Z) (data : AirplaneData.t) (db : DB) :
  store_after (AirplaneViewSet.create lo hi data db) = db \/
  exists row,
    store_after (AirplaneViewSet.create lo hi data db) =
    set_airplanes (airplanes db ++ [row]) db.
Proof.
  unfold AirplaneViewSet.create, AirplaneSerializer.create, bindM,
    store_after.
  destruct (AirplaneSerializer.run_validation lo hi db data) as [v|e];
    simpl; [right; eauto | now left].
Qed.

Lemma flight_create_effect (data : FlightData.t) (db : DB) :
  store_after (FlightViewSet.create data db) = db \/
  flight_data_valid db data /\
  exists f,
    Flight.route f = FlightData.route data /\
    Flight.airplane f = FlightData.airplane data /\
    Flight.departure_time f = FlightData.departure_time data /\
    Flight.arrival_time f = FlightData.arrival_time data /\
    flights (store_after (FlightViewSet.create data db)) = flights db ++ [f] /\
    routes (store_after (FlightViewSet.create data db)) = routes db /\
    airplanes (store_after (FlightViewSet.create data db)) = airplanes db /\
    tickets (store_after (FlightViewSet.create data db)) = tickets db.
Proof.
  unfold FlightViewSet.create, bindM, FlightSerializer.run_validation,
    flight_data_valid.
  destruct (to_internal_value_cases db data)
    as [(r & a & Hr & Ha & Hne & Hcrew & ->)|(Hbad & d & ->)];
    cbn [bind]; [|now left].
  unfold FlightSerializer.validate; simpl.
  destruct (Z.geb_spec (FlightData.departure_time data)
                       (FlightData.arrival_time data)) as [Hlate|Hearly];
    [now left|].
  right. split; [repeat split; eauto|].
  rewrite (flight_create_run db data r a Hr Ha Hearly).
  exists (Flight.Build (fresh_id Flight.id (flights db))
                       (FlightData.route data) (FlightData.airplane data)
                       (FlightData.departure_time data)
                       (FlightData.arrival_time data)).
  unfold store_after. simpl. repeat split.
Qed.

Lemma order_request_effect (now user : Z) (specs : list TicketSpec.t)
      (db : DB) :
  store_after (OrderViewSet.create now user specs db) = db \/
  exists o ts,
    same_catalogue db (store_after (OrderViewSet.create now user specs db)) /\
    tickets (store_after (OrderViewSet.create now user specs db)) =
    tickets db ++ ts /\
    map ticket_fields ts = map (requested_fields o) specs /\
    Forall (entry_acceptable db) specs.
Proof.
  destruct (OrderViewSet.create now user specs db) as [db' [o|e]] eqn:E;
    unfold store_after; simpl.
  - right.
    assert (Hacc : Forall (entry_acceptable db) specs).
    { pose proof E as E'. unfold OrderViewSet.create, bindM in E'.
      destruct (OrderSerializer.tickets db specs) as [tds|e] eqn:Hv;
        [|discriminate].
      now apply tickets_validated_acceptable with tds. }
    apply create_order_ok in E.
    destruct E as (_ & _ & _ & Hcat & ts & Hts & Hf & _).
    exists o, ts. auto.
  - left. now apply create_order_raise in E.
Qed.

Lemma destroy_effect (user pk : Z) (db : DB) :
  same_catalogue db (store_after (OrderViewSet.destroy user pk db)) /\
  incl (tickets (store_after (OrderViewSet.destroy user pk db)))
       (tickets db).
Proof.
  destruct (OrderViewSet.destroy user pk db) as [db' [[]|e]] eqn:E;
    unfold store_after; simpl.
  - apply destroy_ok in E. destruct E as (_ & _ & Hts & Hcat).
    split; [exact Hcat|]. rewrite Hts. apply incl_filter.
  - apply destroy_raise in E. destruct E as (-> & _).
    split; [apply same_catalogue_refl | apply incl_refl].
Qed.

Lemma flights_valid_step (lo hi : Z) (req : request) (db : DB) :
  flights_valid db -> flights_valid (handle lo hi req db).
Proof.
  intros Hv. destruct req as [now user specs|user pk|data|data]; simpl.
  - destruct (order_request_effect now user specs db)
      as [->|(o & ts & (_ & Hr & _ & Hp & _ & Hf & _) & _)];
      [exact Hv|].
    intros f Hin. rewrite Hf in Hin. rewrite Hr, Hp. now apply Hv.
  - destruct (destroy_effect user pk db)
      as [(_ & Hr & _ & Hp & _ & Hf & _) _].
    intros f Hin. rewrite Hf in Hin. rewrite Hr, Hp. now apply Hv.
  - destruct (flight_create_effect data db)
      as [->|((Hr & Ha & _ & _ & Ht) & f & E1 & E2 & E3 & E4 & Hf & Hrs
              & Hps & _)]; [exact Hv|].
    intros g Hin. rewrite Hf in Hin. rewrite Hrs, Hps.
    apply in_app_or in Hin. destruct Hin as [Hin|[<-|[]]];
      [now apply Hv|].
    rewrite E1, E2, E3, E4. auto.
  - destruct (airplane_create_effect lo hi data db) as [->|[row ->]];
      [exact Hv|].
    intros f Hin. simpl in Hin. destruct (Hv f Hin) as (Ht & Hr & a & Ha).
    simpl. split; [exact Ht|]. split; [exact Hr|].
    exists a. now apply get_app_old.
Qed.

(** X9. No request of the API breaks the flights: when every stored
    flight leaves before it arrives and has its route and its airplane in
    the store, this is so again after any request, accepted or refused. *)
Theorem flights_stay_valid (min_value max_value : Z) (db : DB)
        (reqs : list request) :
  flights_valid db ->
  flights_valid (fold_left (fun d r => handle min_value max_value r d)
                           reqs db).
Proof.
  revert db. induction reqs as [|req reqs IH]; intros db Hv; simpl;
    [exact Hv|].
  apply IH. now apply flights_valid_step.
Qed.

Lemma tickets_in_grid_step (lo hi : Z) (req : request) (db : DB) :
  tickets_in_grid db -> tickets_in_grid (handle lo hi req db).
Proof.
  intros Hg. destruct req as [now user specs|user pk|data|data]; simpl.
  - destruct (order_request_effect now user specs db)
      as [->|(o & ts & (_ & _ & _ & Hp & _ & Hf & _) & Hts & Hfields
              & Hacc)]; [exact Hg|].
    intros t Hin. rewrite Hts in Hin. rewrite Hf, Hp.
    apply in_app_or in Hin. destruct Hin as [Hin|Hin]; [now apply Hg|].
    assert (Hk : In (ticket_fields t) (map (requested_fields o) specs)).
    { rewrite <- Hfields. now apply in_map. }
    apply in_map_iff in Hk. destruct Hk as (s & Hk & Hs).
    rewrite Forall_forall in Hacc.
    destruct (Hacc s Hs) as (f & a & Hfl & Ha & Hr & _).
    unfold requested_fields, ticket_fields in Hk.
    injection Hk as H1 H2 H3 _.
    exists f, a. now rewrite <- H1, <- H2, <- H3.
  - destruct (destroy_effect user pk db)
      as [(_ & _ & _ & Hp & _ & Hf & _) Hincl].
    intros t Hin. rewrite Hf, Hp. apply Hg. now apply Hincl.
  - destruct (flight_create_effect data db)
      as [->|(_ & f & _ & _ & _ & _ & Hf & _ & Hps & Hts)]; [exact Hg|].
    intros t Hin. rewrite Hts in Hin. rewrite Hf, Hps.
    destruct (Hg t Hin) as (fl & a & Hfl & Ha & Hr).
    exists fl, a. split; [now apply get_app_old | now split].
  - destruct (airplane_create_effect lo hi data db) as [->|[row ->]];
      [exact Hg|].
    intros t Hin. simpl in Hin. destruct (Hg t Hin) as (fl & a & Hfl & Ha & Hr).
    exists fl, a. simpl. split; [exact Hfl|].
    split; [now apply get_app_old | exact Hr].
Qed.

(** X5. In every store reached through the requests of the API each
    ticket is on a stored flight and its row and seat are inside the grid
    of the airplane of the flight, the last row and the last seat of a row
    left out. *)
Theorem stored_tickets_are_in_grid (min_value max_value : Z) (db : DB) :
  reachable min_value max_value db ->
  forall t, In t (tickets db) ->
    exists flight airplane,
      get Flight.id (flights db) (Ticket.flight t) = Some flight /\
      get Airplane.id (airplanes db) (Flight.airplane flight)
      = Some airplane /\
      0 < Ticket.row t < Airplane.rows airplane /\
      0 < Ticket.seat t < Airplane.seats_in_row airplane.
Proof.
  intros Hr. change (tickets_in_grid db).
  induction Hr as [db _ Ht|db req _ IH].
  - intros t Hin. rewrite Ht in Hin. destruct Hin.
  - now apply tickets_in_grid_step.
Qed.

(** ** A flight is never sold out *)

Lemma below_In (n x : Z) : In x (below n) <-> 0 < x < n.
Proof.
  unfold below. rewrite in_map_iff. split.
  - intros (k & <- & Hk). apply in_seq in Hk. lia.
  - intros Hx. exists (Z.to_nat x). split; [lia|]. apply in_seq. lia.
Qed.

Lemma below_length (n : Z) :
  Z.of_nat (List.length (below n)) = Z.max 0 (n - 1).
Proof. unfold below. rewrite length_map, length_seq. lia. Qed.

(** The tickets of one flight are no more than the seats
    [validate_ticket] lets through. *)
Lemma tickets_count_bound (db : DB) (f : Flight.t) (a : Airplane.t) :
  tickets_in_grid db -> seats_unique db ->
  get Flight.id (flights db) (Flight.id f) = Some f ->
  get Airplane.id (airplanes db) (Flight.airplane f) = Some a ->
  tickets_count db f <= bookable_seats a.
Proof.
  intros Hgrid Huniq Hf Ha.
  unfold tickets_count, bookable_seats.
  set (mine := filter (fun t => Ticket.flight t =? Flight.id f)
                      (tickets db)).
  set (place := fun t : Ticket.t => (Ticket.row t, Ticket.seat t)).
  assert (Hkeys : map seat_key mine =
                  map (fun p : Z * Z => (fst p, snd p, Flight.id f))
                      (map place mine)).
  { rewrite map_map. apply map_ext_in. intros t Ht.
    apply filter_In in Ht. destruct Ht as [_ Ht]. apply Z.eqb_eq in Ht.
    unfold seat_key, place. simpl. now rewrite Ht. }
  assert (Hnd : NoDup (map place mine)).
  { apply (NoDup_map_inv (fun p : Z * Z => (fst p, snd p, Flight.id f))).
    rewrite <- Hkeys. now apply seats_unique_filter. }
  assert (Hin : incl (map place mine)
                     (list_prod (below (Airplane.rows a))
                                (below (Airplane.seats_in_row a)))).
  { intros [row seat] Hp. apply in_map_iff in Hp.
    destruct Hp as (t & Hp & Ht). injection Hp as <- <-.
    apply filter_In in Ht. destruct Ht as [Ht Hfl]. apply Z.eqb_eq in Hfl.
    destruct (Hgrid t Ht) as (f' & a' & Hf' & Ha' & Hr).
    rewrite Hfl, Hf in Hf'. injection Hf' as <-.
    rewrite Ha in Ha'. injection Ha' as <-.
    apply in_prod; apply below_In; apply Hr. }
  pose proof (NoDup_incl_length Hnd Hin) as Hlen.
  rewrite length_map, length_prod in Hlen.
  rewrite <- !below_length, <- Nat2Z.inj_mul. lia.
Qed.

(** X6. In every store reached through the requests of the API, a stored
    flight has no more tickets than
    [max(0, rows - 1) * max(0, seats_in_row - 1)], the seats that
    [validate_ticket] lets through.  So on an airplane with
    at least one row and one seat in a row [tickets_available] never goes
    below [rows + seats_in_row - 1]: no flight is ever sold out. *)
Theorem flight_never_sold_out (min_value max_value : Z) (db : DB)
        (f : Flight.t) (a : Airplane.t) :
  reachable min_value max_value db ->
  get Flight.id (flights db) (Flight.id f) = Some f ->
  get Airplane.id (airplanes db) (Flight.airplane f) = Some a ->
  tickets_count db f <=
  Z.max 0 (Airplane.rows a - 1) * Z.max 0 (Airplane.seats_in_row a - 1) /\
  (1 <= Airplane.rows a -> 1 <= Airplane.seats_in_row a ->
   exists n,
     Flight_tickets_available db f = Ok n /\
     Airplane.rows a + Airplane.seats_in_row a - 1 <= n).
Proof.
  intros Hr Hf Ha.
  assert (Hgrid : tickets_in_grid db).
  { clear Hf Ha. induction Hr as [db _ Ht|db req _ IH].
    - intros t Hin. rewrite Ht in Hin. destruct Hin.
    - now apply tickets_in_grid_step. }
  assert (Huniq : seats_unique db).
  { apply reachable_consistent in Hr. apply Hr. }
  pose proof (tickets_count_bound db f a Hgrid Huniq Hf Ha) as Hb.
  unfold bookable_seats in Hb. split; [exact Hb|].
  intros Hrows Hseats.
  rewrite (tickets_available_eq db f a Ha). eexists. split; [reflexivity|].
  nia.
Qed.

(** ** Saving a ticket on its own *)

Lemma classic_in_range (row seat : Z) (airplane : Airplane.t) :
  in_range row seat airplane \/ ~ in_range row seat airplane.
Proof. unfold in_range. lia. Qed.

(** X7. [Ticket.save] of a new ticket whose flight, airplane and order are
    stored: when the seat is inside the grid and no stored ticket has it,
    the ticket is added to the store as it is, under a key above all
    others, and nothing else changes; when the seat is outside the grid,
    or a stored ticket has it, a validation error is raised and the store
    stays as it was. *)
Theorem ticket_save_new (db : DB) (self : Ticket.t) (flight : Flight.t)
        (airplane : Airplane.t) (o : Order.t) :
  get Flight.id (flights db) (Ticket.flight self) = Some flight ->
  get Airplane.id (airplanes db) (Flight.airplane flight) = Some airplane ->
  get Order.id (orders db) (Ticket.order self) = Some o ->
  (in_range (Ticket.row self) (Ticket.seat self) airplane ->
   ~ In (seat_key self) (map seat_key (tickets db)) ->
   exists r,
     Ticket_save true self db = (set_tickets (tickets db ++ [r]) db, Ok r) /\
     ticket_fields r = ticket_fields self /\
     forall t, In t (tickets db) -> Ticket.id t < Ticket.id r) /\
  (~ in_range (Ticket.row self) (Ticket.seat self) airplane \/
   In (seat_key self) (map seat_key (tickets db)) ->
   exists detail,
     Ticket_save true self db = (db, Raise (Django_ValidationError detail))).
Proof.
  intros Hf Ha Ho. split.
  - intros Hr Hfree.
    assert (Hclean : Ticket_full_clean db true self = Ok tt).
    { rewrite (Ticket_full_clean_intro db true self flight airplane o);
        try assumption.
      now apply Ticket_validate_unique_adding. }
    rewrite (Ticket_save_adding_run self db Hclean).
    eexists. split; [reflexivity|]. split; [reflexivity|].
    intros t Ht. simpl. now apply fresh_id_above.
  - intros [Hout|Htaken].
    + now apply Ticket_save_out_of_range with flight airplane.
    + destruct (classic_in_range (Ticket.row self) (Ticket.seat self)
                                 airplane) as [Hr|Hout].
      2:{ now apply Ticket_save_out_of_range with flight airplane. }
      exists ["__all__"]. unfold Ticket_save, bindM.
      rewrite (Ticket_full_clean_intro db true self flight airplane o);
        try assumption.
      destruct (Ticket_validate_unique_cases db true [] self) as [U|U];
        rewrite U; [|reflexivity].
      apply Ticket_validate_unique_adding in U. contradiction.
Qed.

(** X17. The error of [validate_ticket] names the first attribute that is
    out of range: [row] when the row is, whatever the seat, and [seat]
    when the row is in range and the seat is not. *)
Theorem validate_ticket_names_field (row seat : Z) (airplane : Airplane.t)
        (error_to_raise : list string -> exn) :
  (~ 0 < row < Airplane.rows airplane ->
   Ticket.validate_ticket row seat airplane error_to_raise =
   Raise (error_to_raise ["row"])) /\
  (0 < row < Airplane.rows airplane ->
   ~ 0 < seat < Airplane.seats_in_row airplane ->
   Ticket.validate_ticket row seat airplane error_to_raise =
   Raise (error_to_raise ["seat"])).
Proof.
  unfold Ticket.validate_ticket; simpl.
  destruct (Z.ltb_spec 0 row), (Z.ltb_spec row (Airplane.rows airplane)),
    (Z.ltb_spec 0 seat), (Z.ltb_spec seat (Airplane.seats_in_row airplane));
    simpl; split; intros; try reflexivity; lia.
Qed.

(** ** What a flight query answers *)


Lemma int_each_total (pieces : list string) :
  (forall piece, In piece pieces -> int piece <> None) ->
  exists ids, FlightViewSet.int_each pieces = Ok ids.
Proof.
  induction pieces as [|p rest IH]; intros Hall; simpl; [now exists []|].
  destruct (int p) as [n|] eqn:E.
  - destruct IH as [ids ->]; [intros q Hq; apply Hall; now right|].
    simpl. now exists (n :: ids).
  - exfalso. apply (Hall p); [now left | exact E].
Qed.

Lemma truthy_idem (p : option string) : truthy (truthy p) = truthy p.
Proof. destruct p as [[|c s]|]; reflexivity. Qed.

Section Answers.

Variable date : Type.
Variable strptime_date : string -> option date.
Variable start_of_day : date -> Z.

Local Abbreviation get_queryset :=
  (FlightViewSet.get_queryset strptime_date start_of_day).


(** X11. A flight query ends normally exactly when every parameter that is
    parsed can be parsed: each piece of a given crew parameter is an
    integer for [int], and a given date is a date for [strptime]. *)
Theorem query_succeeds_iff_well_formed (db : DB) (params : QueryParams.t) :
  (exists qs, get_queryset db params = Ok qs) <->
  query_well_formed strptime_date params.
Proof.
  rewrite (get_queryset_unfold date strptime_date start_of_day).
  unfold query_well_formed, when_param.
  pose proof (crew_step_cases db (QueryParams.crew params)
                              (text_filters db params)) as Hc.
  cbn zeta in Hc.
  destruct (FlightViewSet.when_given (QueryParams.crew params) _
                                     (text_filters db params))
    as [q1|e] eqn:E1; cbn [bind].
  2:{ split; [intros [qs H]; discriminate|]. intros (Hcrew & _).
      exfalso. destruct (truthy (QueryParams.crew params)) as [v|];
        [|discriminate].
      destruct Hc as [(ids & _ & Hc)|[Hraise _]]; [discriminate|].
      destruct (int_each_total (split "," v) (Hcrew v eq_refl))
        as [ids Hids].
      unfold FlightViewSet._params_to_ints in Hraise. congruence. }
  assert (Hcrew : forall v, truthy (QueryParams.crew params) = Some v ->
                  forall piece, In piece (split "," v) ->
                                int piece <> None).
  { intros v Hv piece Hin Hbad. rewrite Hv in Hc.
    destruct Hc as [(ids & Hids & _)|[_ Hc]]; [|discriminate].
    unfold FlightViewSet._params_to_ints in Hids.
    rewrite int_each_raises in Hids; [discriminate | now exists piece]. }
  pose proof (date_step_cases date strptime_date start_of_day
                Flight.departure_time
                (QueryParams.date_departure params) q1) as Hd.
  destruct (FlightViewSet.when_given (QueryParams.date_departure params) _ q1)
    as [q2|e] eqn:E2; cbn [bind].
  2:{ split; [intros [qs H]; discriminate|]. intros (_ & Hdep & _).
      exfalso.
      destruct (truthy (QueryParams.date_departure params)) as [v|];
        [|discriminate].
      destruct (strptime_date v) eqn:Ev; [discriminate|].
      now apply (Hdep v eq_refl). }
  assert (Hdep : forall v,
             truthy (QueryParams.date_departure params) = Some v ->
             strptime_date v <> None).
  { intros v Hv Hbad. rewrite Hv, Hbad in Hd. discriminate. }
  pose proof (date_step_cases date strptime_date start_of_day
                Flight.arrival_time
                (QueryParams.date_arrival params) q2) as Ha.
  destruct (FlightViewSet.when_given (QueryParams.date_arrival params) _ q2)
    as [q3|e] eqn:E3; cbn [bind].
  2:{ split; [intros [qs H]; discriminate|]. intros (_ & _ & Harr).
      exfalso.
      destruct (truthy (QueryParams.date_arrival params)) as [v|];
        [|discriminate].
      destruct (strptime_date v) eqn:Ev; [discriminate|].
      now apply (Harr v eq_refl). }
  split; [|eauto]. intros _. split; [exact Hcrew|]. split; [exact Hdep|].
  intros v Hv Hbad. rewrite Hv, Hbad in Ha. discriminate.
Qed.

(** X12. A parameter given empty counts as a parameter not given: the
    query answers the same whether its empty parameters are there or
    not.  An empty [crew] or date is thus passed over, not refused. *)
Theorem empty_parameters_are_ignored (db : DB) (params : QueryParams.t) :
  get_queryset db (without_empty params) = get_queryset db params.
Proof.
  unfold FlightViewSet.get_queryset, FlightViewSet.when_given,
    without_empty.
  cbn [QueryParams.source_airport QueryParams.destination_airport
       QueryParams.source_city QueryParams.destination_city
       QueryParams.airplane QueryParams.crew QueryParams.date_departure
       QueryParams.date_arrival].
  rewrite !truthy_idem. reflexivity.
Qed.

End Answers.

(** ** The flights of an order *)

Lemma has_key_In (key : Z) (d : OrderDetailSerializer.Flights) :
  OrderDetailSerializer.has_key key d = true <-> In key (map fst d).
Proof.
  unfold OrderDetailSerializer.has_key. rewrite existsb_exists, in_map_iff.
  split.
  - intros (kv & Hin & E). apply Z.eqb_eq in E. now exists kv.
  - intros (kv & E & Hin). exists kv. split; [exact Hin|].
    now apply Z.eqb_eq.
Qed.

Lemma has_key_existsb (key : Z) (d : OrderDetailSerializer.Flights) :
  existsb (Z.eqb key) (map fst d) = OrderDetailSerializer.has_key key d.
Proof.
  unfold OrderDetailSerializer.has_key.
  induction d as [|kv d IH]; simpl; [reflexivity|].
  now rewrite IH, (Z.eqb_sym key).
Qed.

Lemma append_ticket_keys (key : Z) (seat : Z * Z)
      (d : OrderDetailSerializer.Flights) :
  map fst (OrderDetailSerializer.append_ticket key seat d) = map fst d.
Proof.
  unfold OrderDetailSerializer.append_ticket. rewrite map_map.
  apply map_ext. intros kv. now destruct (fst kv =? key).
Qed.

Lemma append_ticket_ids (key : Z) (seat : Z * Z)
      (d : OrderDetailSerializer.Flights) :
  (forall kv, In kv d -> FlightGroup.id (snd kv) = fst kv) ->
  forall kv, In kv (OrderDetailSerializer.append_ticket key seat d) ->
             FlightGroup.id (snd kv) = fst kv.
Proof.
  intros H kv Hin. unfold OrderDetailSerializer.append_ticket in Hin.
  apply in_map_iff in Hin. destruct Hin as (kv0 & E & Hin0).
  specialize (H kv0 Hin0).
  destruct (fst kv0 =? key); subst kv; simpl; exact H.
Qed.

Lemma entry_seats_append_ticket (key : Z) (seat : Z * Z)
      (d : OrderDetailSerializer.Flights) (k : Z) :
  entry_seats (OrderDetailSerializer.append_ticket key seat d) k =
  if (k =? key) && OrderDetailSerializer.has_key key d
  then entry_seats d k ++ [seat]
  else entry_seats d k.
Proof.
  unfold entry_seats, OrderDetailSerializer.append_ticket,
    OrderDetailSerializer.has_key.
  induction d as [|kv d IH]; simpl.
  - now rewrite andb_false_r.
  - destruct (fst kv =? key) eqn:Ek; simpl.
    + destruct (fst kv =? k) eqn:Ekk.
      * apply Z.eqb_eq in Ek, Ekk.
        assert ((k =? key) = true) as -> by (apply Z.eqb_eq; congruence).
        reflexivity.
      * assert ((k =? key) = false) as Hne.
        { apply Z.eqb_neq. apply Z.eqb_eq in Ek. apply Z.eqb_neq in Ekk.
          congruence. }
        rewrite Hne in *. simpl in IH. exact IH.
    + destruct (fst kv =? k) eqn:Ekk.
      * assert ((k =? key) = false) as ->.
        { apply Z.eqb_neq. apply Z.eqb_neq in Ek. apply Z.eqb_eq in Ekk.
          congruence. }
        reflexivity.
      * exact IH.
Qed.

Lemma entry_seats_new (d : OrderDetailSerializer.Flights) (key : Z)
      (e : FlightGroup.t) (k : Z) :
  OrderDetailSerializer.has_key key d = false ->
  entry_seats (d ++ [(key, e)]) k =
  if k =? key then FlightGroup.tickets e else entry_seats d k.
Proof.
  unfold entry_seats, OrderDetailSerializer.has_key.
  induction d as [|kv d IH]; simpl; intros Hno.
  - rewrite (Z.eqb_sym key k). now destruct (k =? key).
  - apply orb_false_iff in Hno. destruct Hno as [Hkv Hno].
    destruct (fst kv =? k) eqn:Ekk.
    + assert ((k =? key) = false) as ->; [|reflexivity].
      apply Z.eqb_neq. apply Z.eqb_neq in Hkv. apply Z.eqb_eq in Ekk.
      congruence.
    + now apply IH.
Qed.

Lemma entry_seats_absent (d : OrderDetailSerializer.Flights) (key : Z) :
  OrderDetailSerializer.has_key key d = false -> entry_seats d key = [].
Proof.
  unfold entry_seats, OrderDetailSerializer.has_key.
  induction d as [|kv d IH]; simpl; intros Hno; [reflexivity|].
  apply orb_false_iff in Hno. destruct Hno as [Hkv Hno].
  rewrite Hkv. now apply IH.
Qed.

Lemma new_entry_ok (db : DB) (flight : Flight.t) (e : FlightGroup.t) :
  OrderDetailSerializer.new_entry db flight = Ok e ->
  FlightGroup.id e = Flight.id flight /\ FlightGroup.tickets e = [].
Proof.
  unfold OrderDetailSerializer.new_entry.
  destruct (related Route.id (routes db) (Flight.route flight)) as [r|];
    cbn [bind]; [|discriminate].
  destruct (Route_source_dest db r) as [sd|]; cbn [bind]; [|discriminate].
  destruct (related Airplane.id (airplanes db) (Flight.airplane flight))
    as [a|]; cbn [bind]; [|discriminate].
  intros H. injection H as <-. now split.
Qed.

(** What the loop of [get_flights] makes of the dictionary. *)
Lemma for_tickets_spec (db : DB) (ts : list Ticket.t) :
  forall d d',
    NoDup (map fst d) ->
    (forall kv, In kv d -> FlightGroup.id (snd kv) = fst kv) ->
    OrderDetailSerializer.for_tickets db ts d = Ok d' ->
    NoDup (map fst d') /\
    (forall kv, In kv d' -> FlightGroup.id (snd kv) = fst kv) /\
    map fst d' = map fst d ++ first_seen (map fst d) (map Ticket.flight ts) /\
    forall k, entry_seats d' k = entry_seats d k ++ seats_on k ts.
Proof.
  induction ts as [|t rest IH]; intros d d' Hnd Hid Hrun; simpl in Hrun.
  - injection Hrun as <-. simpl. rewrite app_nil_r.
    repeat split; try assumption. intros k. unfold seats_on. simpl.
    now rewrite app_nil_r.
  - unfold related in Hrun.
    destruct (get Flight.id (flights db) (Ticket.flight t)) as [fl|] eqn:Hfl;
      cbn [bind] in Hrun; [|discriminate].
    destruct (get_some _ _ _ _ Hfl) as [_ Hk].
    destruct (OrderDetailSerializer.has_key (Flight.id fl) d) eqn:Hhas;
      cbn [bind] in Hrun.
    + apply IH in Hrun.
      * destruct Hrun as (Hnd' & Hid' & Hkeys & Hseats).
        split; [exact Hnd'|]. split; [exact Hid'|].
        rewrite append_ticket_keys in Hkeys. split.
        -- simpl. rewrite <- Hk, has_key_existsb, Hhas. exact Hkeys.
        -- intros k. rewrite Hseats, entry_seats_append_ticket, Hhas.
           unfold seats_on. simpl. rewrite <- Hk, (Z.eqb_sym (Flight.id fl)).
           destruct (k =? Flight.id fl); simpl;
             [now rewrite <- app_assoc | reflexivity].
      * now rewrite append_ticket_keys.
      * now apply append_ticket_ids.
    + destruct (OrderDetailSerializer.new_entry db fl) as [e|] eqn:He;
        cbn [bind] in Hrun; [|discriminate].
      destruct (new_entry_ok db fl e He) as [Heid Hets].
      assert (Hnew : ~ In (Flight.id fl) (map fst d)).
      { intros Hin. apply has_key_In in Hin. congruence. }
      apply IH in Hrun.
      * destruct Hrun as (Hnd' & Hid' & Hkeys & Hseats).
        split; [exact Hnd'|]. split; [exact Hid'|].
        rewrite append_ticket_keys, map_app in Hkeys. simpl in Hkeys.
        split.
        -- simpl. rewrite <- Hk, has_key_existsb, Hhas.
           rewrite Hkeys, <- app_assoc. reflexivity.
        -- intros k. rewrite Hseats, entry_seats_append_ticket.
           assert (OrderDetailSerializer.has_key
                     (Flight.id fl) (d ++ [(Flight.id fl, e)]) = true)
             as ->.
           { apply has_key_In. rewrite map_app. apply in_or_app.
             right. now left. }
           rewrite andb_true_r, (entry_seats_new d _ e k Hhas), Hets.
           unfold seats_on. simpl. rewrite <- Hk, (Z.eqb_sym (Flight.id fl)).
           destruct (k =? Flight.id fl) eqn:Ek; simpl; [|reflexivity].
           apply Z.eqb_eq in Ek. subst k.
           now rewrite (entry_seats_absent d _ Hhas).
      * rewrite append_ticket_keys, map_app. simpl.
        apply NoDup_app; [exact Hnd | repeat constructor; intros [] |].
        intros k Hin [<-|[]]. contradiction.
      * apply append_ticket_ids. intros kv Hin. apply in_app_or in Hin.
        destruct Hin as [Hin|[<-|[]]]; [now apply Hid | exact Heid].
Qed.

Lemma first_seen_In (l : list Z) :
  forall seen k,
    In k (first_seen seen l) <-> In k l /\ ~ In k seen.
Proof.
  induction l as [|x l IH]; intros seen k; simpl; [tauto|].
  destruct (existsb (Z.eqb x) seen) eqn:E.
  - rewrite IH. apply existsb_exists in E. destruct E as (y & Hy & E).
    apply Z.eqb_eq in E. subst y. split; [tauto|].
    intros [[->|Hin] Hno]; [contradiction | tauto].
  - assert (Hx : ~ In x seen).
    { intros Hin.
      assert (existsb (Z.eqb x) seen = true); [|congruence].
      apply existsb_exists. exists x. split; [exact Hin|apply Z.eqb_refl]. }
    simpl. rewrite IH, in_app_iff. simpl. split.
    + intros [<-|[Hin Hno]]; [tauto|]. split; [tauto|]. tauto.
    + intros [[->|Hin] Hno]; [now left|].
      destruct (Z.eq_dec x k) as [->|Hne]; [now left|]. right.
      split; [exact Hin|]. intros [H|[H|[]]]; [contradiction | congruence].
Qed.

Lemma entry_seats_of (d : OrderDetailSerializer.Flights) (kv : Z * FlightGroup.t) :
  NoDup (map fst d) -> In kv d ->
  entry_seats d (fst kv) = FlightGroup.tickets (snd kv).
Proof.
  unfold entry_seats. induction d as [|x d IH]; simpl; intros Hnd Hin;
    [easy|].
  apply NoDup_cons_iff in Hnd. destruct Hnd as [Hx Hnd].
  destruct Hin as [->|Hin]; [now rewrite Z.eqb_refl|].
  destruct (fst x =? fst kv) eqn:E; [|now apply IH].
  exfalso. apply Hx. apply Z.eqb_eq in E. rewrite E. now apply in_map.
Qed.

Lemma for_tickets_total (db : DB) (ts : list Ticket.t) :
  references_stored db ts ->
  forall d, exists d', OrderDetailSerializer.for_tickets db ts d = Ok d'.
Proof.
  induction ts as [|t rest IH]; intros Hrefs d; simpl; [eauto|].
  destruct (Hrefs t (or_introl eq_refl))
    as (fl & r & src & dst & a & Hfl & Hr & Hsrc & Hdst & Ha).
  unfold related. rewrite Hfl. cbn [bind].
  assert (Hrest : references_stored db rest).
  { intros t' Hin. apply Hrefs. now right. }
  destruct (OrderDetailSerializer.has_key (Flight.id fl) d); cbn [bind];
    [now apply IH|].
  unfold OrderDetailSerializer.new_entry, Route_source_dest, related.
  rewrite Hr. cbn [bind]. rewrite Hsrc, Hdst. cbn [bind]. rewrite Ha.
  cbn [bind]. now apply IH.
Qed.

(** X13. [OrderDetailSerializer.get_flights] groups the tickets of an
    order by flight.  When the flights, routes, airports and airplanes the
    tickets lead to are stored it returns a list, and in the list it
    returns there is one entry for each flight that has a ticket, in the
    order in which the flights first come up among the tickets; the
    entry of a flight lists the row and seat of the tickets of that
    flight, in their order, and of no other; so every ticket is shown,
    under its flight. *)
Theorem get_flights_groups_by_flight (db : DB)
        (order_tickets : list Ticket.t) :
  (references_stored db order_tickets ->
   exists groups,
     OrderDetailSerializer.get_flights db order_tickets = Ok groups) /\
  (forall groups,
      OrderDetailSerializer.get_flights db order_tickets = Ok groups ->
      map FlightGroup.id groups =
      first_seen [] (map Ticket.flight order_tickets) /\
      NoDup (map FlightGroup.id groups) /\
      (forall g, In g groups ->
                 FlightGroup.tickets g =
                 seats_on (FlightGroup.id g) order_tickets) /\
      (forall t, In t order_tickets ->
                 exists g,
                   In g groups /\ FlightGroup.id g = Ticket.flight t /\
                   In (Ticket.row t, Ticket.seat t)
                      (FlightGroup.tickets g))).
Proof.
  unfold OrderDetailSerializer.get_flights. split.
  { intros Hrefs.
    destruct (for_tickets_total db order_tickets Hrefs []) as [d' ->].
    simpl. eauto. }
  intros groups Hrun.
  destruct (OrderDetailSerializer.for_tickets db order_tickets [])
    as [d'|] eqn:E; cbn [bind] in Hrun; [|discriminate].
  injection Hrun as <-.
  apply for_tickets_spec in E; [|constructor | intros kv []].
  destruct E as (Hnd & Hid & Hkeys & Hseats). simpl in Hkeys.
  assert (Hids : map FlightGroup.id (map snd d') = map fst d').
  { rewrite map_map. apply map_ext_in. exact Hid. }
  assert (Hof : forall g, In g (map snd d') ->
                FlightGroup.tickets g =
                seats_on (FlightGroup.id g) order_tickets).
  { intros g Hg. apply in_map_iff in Hg. destruct Hg as (kv & <- & Hkv).
    rewrite <- (entry_seats_of d' kv Hnd Hkv), (Hid kv Hkv).
    now rewrite Hseats. }
  split; [now rewrite Hids|]. split; [now rewrite Hids|].
  split; [exact Hof|].
  intros t Ht.
  assert (Hk : In (Ticket.flight t) (map FlightGroup.id (map snd d'))).
  { rewrite Hids, Hkeys. apply first_seen_In. split; [|intros []].
    now apply in_map. }
  apply in_map_iff in Hk. destruct Hk as (g & Hg & Hin).
  exists g. split; [exact Hin|]. split; [exact Hg|].
  rewrite (Hof g Hin), Hg. unfold seats_on.
  apply (in_map (fun t => (Ticket.row t, Ticket.seat t))).
  apply filter_In. split; [exact Ht | apply Z.eqb_refl].
Qed.

(** ** The text filters *)





(** ** Writing and reading a crew parameter *)

Lemma digit_char (n : Z) :
  0 <= n ->
  let c := ascii_of_nat (Z.to_nat (48 + n mod 10)) in
  code c = 48 + n mod 10 /\ is_digit c = true /\
  Ascii.eqb c "," = false /\ is_space c = false.
Proof.
  intros Hn c.
  assert (Hm : 0 <= n mod 10 < 10) by (apply Z.mod_pos_bound; lia).
  assert (Hc : code c = 48 + n mod 10).
  { unfold code, c. rewrite nat_ascii_embedding by lia. lia. }
  split; [exact Hc|]. unfold is_digit, is_space. rewrite Hc.
  split; [lia|]. split; [|lia].
  apply Ascii.eqb_neq. intros E.
  assert (code c = 44) by (rewrite E; reflexivity). lia.
Qed.

Lemma digits_head (fuel : nat) :
  forall n rest,
    0 <= n ->
    exists d t, digits (S fuel) n rest = String d t /\ is_digit d = true.
Proof.
  induction fuel as [|fuel IH]; intros n rest Hn.
  - destruct (digit_char n Hn) as (_ & Hd & _).
    cbn [digits]. destruct (n <? 10); eauto.
  - destruct (digit_char n Hn) as (_ & Hd & _).
    change (digits (S (S fuel)) n rest)
      with (let rest' := String (ascii_of_nat (Z.to_nat (48 + n mod 10)))
                                rest in
            if n <? 10 then rest' else digits (S fuel) (n / 10) rest').
    cbn zeta. destruct (n <? 10); [eauto|].
    apply IH. apply Z.div_pos; lia.
Qed.

Lemma digits_plain (fuel : nat) :
  forall n rest,
    0 <= n -> plain rest = true -> plain (digits fuel n rest) = true.
Proof.
  induction fuel as [|fuel IH]; intros n rest Hn Hrest; [exact Hrest|].
  destruct (digit_char n Hn) as (_ & _ & Hcomma & Hspace).
  cbn [digits]. cbn zeta.
  assert (Hp : plain (String (ascii_of_nat (Z.to_nat (48 + n mod 10))) rest)
               = true).
  { cbn [plain]. now rewrite Hcomma, Hspace, Hrest. }
  destruct (n <? 10); [exact Hp|].
  apply IH; [apply Z.div_pos; lia | exact Hp].
Qed.

(** Reading the digits of [n] back gives [n]. *)
Lemma decimal_digits (fuel : nat) :
  forall n,
    0 <= n < 2 ^ Z.of_nat (S fuel) ->
    exists k,
      1 <= k /\ (k = 1 \/ 10 ^ (k - 1) <= n) /\
      forall rest acc seen after_digit,
        decimal (digits (S fuel) n rest) acc seen after_digit =
        decimal rest (acc * 10 ^ k + n) (seen + k) true.
Proof.
  assert (Hone : forall fuel n,
             0 <= n < 10 ->
             forall rest acc seen after_digit,
               decimal (digits (S fuel) n rest) acc seen after_digit =
               decimal rest (acc * 10 ^ 1 + n) (seen + 1) true).
  { intros f n Hn rest acc seen b.
    destruct (digit_char n (proj1 Hn)) as (Hc & Hd & _).
    cbn [digits]. cbn zeta.
    assert ((n <? 10) = true) as -> by (apply Z.ltb_lt; lia).
    cbn [decimal]. rewrite Hd, Hc.
    rewrite Z.mod_small by lia. f_equal; lia. }
  induction fuel as [|fuel IH]; intros n Hn.
  - change (2 ^ Z.of_nat 1) with 2 in Hn.
    exists 1. split; [lia|]. split; [now left|]. apply Hone. lia.
  - destruct (Z.ltb_spec n 10) as [Hsmall|Hbig].
    { exists 1. split; [lia|]. split; [now left|]. apply Hone. lia. }
    assert (Hq : 0 <= n / 10 < 2 ^ Z.of_nat (S fuel)).
    { split; [apply Z.div_pos; lia|].
      apply Z.div_lt_upper_bound; [lia|].
      replace (Z.of_nat (S (S fuel))) with (Z.succ (Z.of_nat (S fuel)))
        in Hn by lia.
      rewrite Z.pow_succ_r in Hn by lia. lia. }
    destruct (IH (n / 10) Hq) as (k & Hk & Hlow & Hread).
    pose proof (Z.div_mod n 10 ltac:(lia)) as Hdm.
    assert (Hm : 0 <= n mod 10 < 10) by (apply Z.mod_pos_bound; lia).
    exists (k + 1). split; [lia|]. split.
    { right. replace (k + 1 - 1) with (Z.succ (k - 1)) by lia.
      rewrite Z.pow_succ_r by lia.
      destruct Hlow as [->|Hlow]; [simpl; lia | lia]. }
    intros rest acc seen b.
    destruct (digit_char n (proj1 Hn)) as (Hc & Hd & _).
    change (digits (S (S fuel)) n rest)
      with (let rest' := String (ascii_of_nat (Z.to_nat (48 + n mod 10)))
                                rest in
            if n <? 10 then rest' else digits (S fuel) (n / 10) rest').
    cbn zeta.
    assert ((n <? 10) = false) as -> by (apply Z.ltb_ge; lia).
    rewrite Hread. cbn [decimal]. rewrite Hd, Hc.
    rewrite Z.pow_add_r, Z.pow_1_r by lia. f_equal; lia.
Qed.

(** The white space of [int] is white space of [str.strip]. *)
Lemma int_space_is_space (c : ascii) :
  is_space c = false -> is_int_space c = false.
Proof.
  unfold is_space, is_int_space.
  destruct ((9 <=? code c) && (code c <=? 13)); [discriminate|].
  destruct (Z.eqb_spec (code c) 32) as [->|_]; [discriminate|].
  destruct ((28 <=? code c) && (code c <=? 32)); [discriminate|].
  simpl. trivial.
Qed.

Lemma rstrip_plain (s : string) :
  plain s = true -> rstrip is_int_space s = s.
Proof.
  induction s as [|c s IH]; [reflexivity|]. cbn [plain rstrip].
  rewrite !andb_true_iff, !negb_true_iff. intros [[_ Hc] Hs].
  rewrite (IH Hs), (int_space_is_space c Hc). now destruct s.
Qed.

Lemma strip_plain (s : string) :
  plain s = true -> rstrip is_int_space (lstrip is_int_space s) = s.
Proof.
  intros Hs.
  assert (lstrip is_int_space s = s) as ->; [|now apply rstrip_plain].
  destruct s as [|c s]; [reflexivity|]. cbn [plain] in Hs. cbn [lstrip].
  rewrite !andb_true_iff, !negb_true_iff in Hs.
  destruct Hs as [[_ Hc] _]. now rewrite (int_space_is_space c Hc).
Qed.

Lemma int_after_space (s : string) : int (String " " s) = int s.
Proof. reflexivity. Qed.

Lemma int_of_digits (d : ascii) (t : string) (n k : Z) :
  is_digit d = true -> plain (String d t) = true ->
  decimal (String d t) 0 0 false = Some (n, k) -> k <= int_max_str_digits ->
  int (String d t) = Some n.
Proof.
  intros Hd Hp Hread Hk. unfold int. rewrite (strip_plain _ Hp).
  assert (Hbody : (match decimal (String d t) 0 0 false with
                   | Some (n0, seen) =>
                       if seen <=? int_max_str_digits
                       then Some (1 * n0) else None
                   | None => None
                   end) = Some n).
  { rewrite Hread. apply Z.leb_le in Hk. rewrite Hk. f_equal. lia. }
  destruct d as [[] [] [] [] [] [] [] []]; try discriminate Hd;
    exact Hbody.
Qed.

(** What [str] writes, [int] reads back. *)
Lemma int_str (n : Z) :
  - 10 ^ 4300 < n < 10 ^ 4300 -> int (str n) = Some n.
Proof.
  assert (Hbound : forall k, 4300 <= k -> 10 ^ 4300 <= 10 ^ k).
  { intros k Hk. apply Z.pow_le_mono_r; [reflexivity | exact Hk]. }
  revert Hbound. generalize (10 ^ 4300). intros bound Hbound Hn.
  assert (Hnat : forall m,
             0 <= m < bound ->
             exists d t k,
               digits (S (Z.to_nat (Z.log2 m))) m EmptyString = String d t /\
               is_digit d = true /\ plain (String d t) = true /\
               decimal (String d t) 0 0 false = Some (m, k) /\
               k <= int_max_str_digits).
  { intros m Hm.
    destruct (digits_head (Z.to_nat (Z.log2 m)) m EmptyString (proj1 Hm))
      as (d & t & E & Hd).
    assert (Hfuel : 0 <= m < 2 ^ Z.of_nat (S (Z.to_nat (Z.log2 m)))).
    { split; [lia|].
      rewrite Nat2Z.inj_succ, Z2Nat.id by apply Z.log2_nonneg.
      destruct (Z.eq_dec m 0) as [->|Hpos]; [reflexivity|].
      apply Z.log2_spec. lia. }
    destruct (decimal_digits _ m Hfuel) as (k & Hk & Hlow & Hread).
    exists d, t, k. split; [exact E|]. split; [exact Hd|].
    split; [rewrite <- E; apply digits_plain; [lia | reflexivity]|].
    split.
    - rewrite <- E, Hread. cbn [decimal]. f_equal; f_equal; lia.
    - unfold int_max_str_digits. destruct Hlow as [->|Hlow]; [lia|].
      destruct (Z.le_gt_cases k 4300) as [H|H]; [exact H|].
      exfalso.
      assert (bound <= 10 ^ (k - 1)) by (apply Hbound; lia).
      lia. }
  unfold str. destruct (Z.ltb_spec n 0) as [Hneg|Hpos].
  - destruct (Hnat (- n)) as (d & t & k & E & Hd & Hp & Hread & Hk); [lia|].
    rewrite E. unfold int.
    assert (Hp' : plain (String "-" (String d t)) = true).
    { cbn [plain]. cbn [plain] in Hp. now rewrite Hp. }
    rewrite (strip_plain _ Hp'), Hread.
    apply Z.leb_le in Hk. rewrite Hk. f_equal. lia.
  - destruct (Hnat n) as (d & t & k & E & Hd & Hp & Hread & Hk); [lia|].
    rewrite E. now apply int_of_digits with k.
Qed.

Lemma str_plain (n : Z) : plain (str n) = true.
Proof.
  unfold str. destruct (Z.ltb_spec n 0).
  - cbn [plain]. rewrite digits_plain; [reflexivity | lia | reflexivity].
  - apply digits_plain; [lia | reflexivity].
Qed.

Lemma split_plain (s : string) : plain s = true -> split "," s = [s].
Proof.
  induction s as [|c s IH]; [reflexivity|]. cbn [plain split].
  rewrite !andb_true_iff, !negb_true_iff. intros [[Hc _] Hs].
  now rewrite Hc, (IH Hs).
Qed.

Lemma split_plain_comma (s t : string) :
  plain s = true ->
  split "," (s ++ String "," t) = s :: split "," t.
Proof.
  induction s as [|c s IH]; [reflexivity|]. cbn [plain].
  rewrite !andb_true_iff, !negb_true_iff. intros [[Hc _] Hs].
  change (String c s ++ String "," t)%string
    with (String c (s ++ String "," t)).
  cbn [split]. now rewrite Hc, (IH Hs).
Qed.

Lemma split_after_space (w : string) (p : string) (ps : list string) :
  split "," w = p :: ps -> split "," (String " " w) = String " " p :: ps.
Proof. intros E. cbn [split]. now rewrite E. Qed.

Lemma split_write_ids (spaced : bool) (ids : list Z) :
  ids <> [] -> split "," (write_ids spaced ids) = written_pieces spaced ids.
Proof.
  induction ids as [|n rest IH]; intros Hne; [now elim Hne|].
  destruct rest as [|m rest].
  - simpl. apply split_plain, str_plain.
  - change (write_ids spaced (n :: m :: rest))
      with (str n ++ String "," (if spaced then " " else "") ++
            write_ids spaced (m :: rest))%string.
    assert (IH' : split "," (write_ids spaced (m :: rest)) =
                  written_pieces spaced (m :: rest))
      by (apply IH; discriminate).
    destruct spaced.
    + change (str n ++ String "," " " ++ write_ids true (m :: rest))%string
        with (str n ++ String "," (String " "
                                      (write_ids true (m :: rest))))%string.
      rewrite (split_plain_comma _ _ (str_plain n)).
      unfold written_pieces in IH'.
      rewrite (split_after_space _ _ _ IH'). reflexivity.
    + change (str n ++ String "," "" ++ write_ids false (m :: rest))%string
        with (str n ++ String "," (write_ids false (m :: rest)))%string.
      rewrite (split_plain_comma _ _ (str_plain n)), IH'. reflexivity.
Qed.

(** X14. Reading a crew parameter that was written from keys gives the
    keys back: for a list of keys that is not empty, each written by
    [str] with at most 4300 digits, and a comma between them, with or
    without a space after it (the two ways of the tests and of the
    documentation of the parameter), [_params_to_ints] returns the list. *)
Theorem params_to_ints_reads_written_ids (spaced : bool) (ids : list Z) :
  ids <> [] ->
  (forall n, In n ids -> - 10 ^ 4300 < n < 10 ^ 4300) ->
  FlightViewSet._params_to_ints (write_ids spaced ids) = Ok ids.
Proof.
  intros Hne Hsize. unfold FlightViewSet._params_to_ints.
  rewrite (split_write_ids spaced ids Hne).
  destruct ids as [|n rest]; [now elim Hne|].
  unfold written_pieces. cbn [FlightViewSet.int_each].
  rewrite (int_str n) by (apply Hsize; now left).
  assert (Hrest : FlightViewSet.int_each
                    (map (fun m => ((if spaced then " " else "") ++ str m)%string)
                         rest) = Ok rest).
  { assert (Hs : forall m, In m rest -> - 10 ^ 4300 < m < 10 ^ 4300)
      by (intros m Hm; apply Hsize; now right).
    clear Hne Hsize. induction rest as [|m rest IH]; [reflexivity|].
    cbn [map FlightViewSet.int_each].
    assert (int ((if spaced then " " else "") ++ str m) = Some m) as ->.
    { destruct spaced; [apply (eq_trans (int_after_space (str m)))|];
        apply int_str; apply Hs; now left. }
    rewrite IH; [reflexivity|]. intros k Hk. apply Hs. now right. }
  rewrite Hrest. reflexivity.
Qed.

(** ** Which seats can be ordered *)

Lemma taken_places_In (db : DB) (f : Flight.t) (row seat : Z) :
  In (row, seat) (taken_places db f) <->
  In (row, seat, Flight.id f) (map seat_key (tickets db)).
Proof.
  unfold taken_places, seats_on. rewrite !in_map_iff. split.
  - intros (t & E & Hin). apply filter_In in Hin. destruct Hin as [Hin Hf].
    apply Z.eqb_eq in Hf. injection E as <- <-. exists t.
    split; [|exact Hin]. unfold seat_key. now rewrite Hf.
  - intros (t & E & Hin). unfold seat_key in E. injection E as <- <- Hf.
    exists t. split; [reflexivity|]. apply filter_In.
    split; [exact Hin | now apply Z.eqb_eq].
Qed.

(** X16. [taken_places] of a flight tells which seats cannot be ordered
    any more: for a stored flight with a stored airplane and a seat inside
    the grid, the order request for this one seat succeeds if and only if
    the seat is not among the taken places of the flight. *)
Theorem free_seat_can_be_ordered (now user : Z) (db : DB) (f : Flight.t)
        (a : Airplane.t) (row seat : Z) :
  get Flight.id (flights db) (Flight.id f) = Some f ->
  get Airplane.id (airplanes db) (Flight.airplane f) = Some a ->
  0 < row < Airplane.rows a -> 0 < seat < Airplane.seats_in_row a ->
  ((exists db' o,
       OrderViewSet.create now user
                           [TicketSpec.Build row seat (Flight.id f)] db =
       (db', Ok o)) <->
   ~ In (row, seat) (taken_places db f)).
Proof.
  intros Hf Ha Hrow Hseat.
  set (s := TicketSpec.Build row seat (Flight.id f)).
  rewrite taken_places_In. split.
  - intros (db' & o & E). unfold OrderViewSet.create, bindM in E.
    destruct (OrderSerializer.tickets db [s]) as [tds|e] eqn:Hv;
      [|discriminate].
    apply tickets_validated_acceptable in Hv.
    apply Forall_inv in Hv. destruct Hv as (_ & _ & _ & _ & _ & Hfree).
    exact Hfree.
  - intros Hfree.
    assert (Hacc : Forall (entry_acceptable db) [s]).
    { constructor; [|constructor]. exists f, a.
      split; [exact Hf|]. split; [exact Ha|].
      split; [split; assumption | exact Hfree]. }
    destruct (many_intro db [s] Hacc) as [vs Hm].
    assert (Hv : OrderSerializer.tickets db [s] = Ok vs).
    { unfold OrderSerializer.tickets. now rewrite Hm. }
    destruct (create_order_validated now user [s] vs db Hv) as [Hok _].
    apply Hok. simpl. repeat constructor. intros [].
Qed.

(** ** How an order request fails *)

Lemma run_validation_raises (db : DB) (s : TicketSpec.t) (e : exn) :
  flights_valid db ->
  TicketSerializer.run_validation db s = Raise e ->
  exists d, e = DRF_ValidationError d.
Proof.
  intros Hvalid.
  unfold TicketSerializer.run_validation,
    TicketSerializer.to_internal_value.
  destruct (get Flight.id (flights db) (TicketSpec.flight s)) as [f|] eqn:Hf;
    cbn [bind]; [|intros H; injection H as <-; eauto].
  unfold TicketSerializer.unique_together_validator.
  destruct (existsb _ (tickets db)); cbn [bind];
    [intros H; injection H as <-; eauto|].
  unfold TicketSerializer.validate, related; simpl.
  apply get_some in Hf. destruct Hf as [Hin _].
  destruct (Hvalid f Hin) as (_ & _ & a & Ha). rewrite Ha. cbn [bind].
  destruct (Ticket.validate_ticket (TicketSpec.row s) (TicketSpec.seat s) a
                                   DRF_ValidationError) as [[]|e'] eqn:V;
    cbn [bind]; [discriminate|].
  intros H. injection H as <-.
  destruct (classic_in_range (TicketSpec.row s) (TicketSpec.seat s) a)
    as [Hr|Hr].
  - apply (validate_ticket_spec _ _ _ DRF_ValidationError) in Hr.
    congruence.
  - destruct (validate_ticket_raises _ _ _ DRF_ValidationError Hr)
      as [field V'].
    rewrite V in V'. injection V' as ->. eauto.
Qed.

Lemma many_raises (db : DB) (specs : list TicketSpec.t) (e : exn) :
  flights_valid db ->
  TicketSerializer.many db specs = Raise e -> False.
Proof.
  intros Hvalid. induction specs as [|s rest IH]; simpl; [discriminate|].
  destruct (TicketSerializer.run_validation db s) as [a|e'] eqn:R.
  - destruct (TicketSerializer.many db rest) as [r|e'']; simpl;
      [discriminate | intros H; apply IH; exact H].
  - destruct (run_validation_raises db s e' Hvalid R) as [d ->].
    destruct (TicketSerializer.many db rest) as [r|e'']; simpl;
      [discriminate | intros H; apply IH; exact H].
Qed.

(** X18. How an order request fails, in a store where every flight leaves
    before it arrives and has its route and its airplane: it is refused by the serializer with its validation error,
    which is answered as a client error, or, when each entry alone passes
    the serializer, it fails on the uniqueness check of [full_clean] with
    the validation error of the model, which is not handled and is
    answered as a server error; this last case is the one of a seat that
    is asked for twice in the request.  In both cases nothing is
    written. *)
Theorem order_request_failures (now user : Z) (specs : list TicketSpec.t)
        (db db' : DB) (e : exn) :
  flights_valid db ->
  OrderViewSet.create now user specs db = (db', Raise e) ->
  db' = db /\
  ((exists d, e = DRF_ValidationError d /\ status_code e = 400 /\
              is_ok (OrderSerializer.tickets db specs) = false) \/
   (e = Django_ValidationError ["__all__"] /\ status_code e = 500 /\
    is_ok (OrderSerializer.tickets db specs) = true /\
    ~ NoDup (map spec_key specs))).
Proof.
  intros Hvalid E.
  split; [now apply create_order_raise in E|].
  destruct (OrderSerializer.tickets db specs) as [tds|e'] eqn:Hv.
  - right.
    assert (Hdup : ~ NoDup (map spec_key specs)).
    { intros Hnd.
      destruct (create_order_validated now user specs tds db Hv)
        as [Hok _].
      destruct (Hok Hnd) as (db1 & o & E'). congruence. }
    destruct (create_order_validated now user specs tds db Hv) as [_ Hd].
    rewrite (Hd Hdup) in E. injection E as _ <-. now repeat split.
  - left. unfold OrderViewSet.create, bindM in E. rewrite Hv in E.
    injection E as _ <-.
    unfold OrderSerializer.tickets in Hv.
    destruct specs as [|s rest]; [injection Hv as <-; eauto|].
    destruct (TicketSerializer.many db (s :: rest)) as [r|e''] eqn:Hm.
    + cbn [bind] in Hv. destruct (snd r); [discriminate|].
      injection Hv as <-. eauto.
    + exfalso. exact (many_raises db (s :: rest) e'' Hvalid Hm).
Qed.

(** ** A flight that was created is found *)

Lemma flight_create_ok (db db' : DB) (data : FlightData.t) (f : Flight.t) :
  FlightViewSet.create data db = (db', Ok f) ->
  In f (flights db') /\
  forall c, In c (FlightData.crew data) ->
            In (Flight.id f, c) (flight_crew db').
Proof.
  unfold FlightViewSet.create, bindM, FlightSerializer.run_validation.
  destruct (to_internal_value_cases db data)
    as [(r & a & Hr & Ha & Hne & Hcrew & ->)|(Hbad & d & ->)];
    cbn [bind]; [|discriminate].
  unfold FlightSerializer.validate; simpl.
  destruct (Z.geb_spec (FlightData.departure_time data)
                       (FlightData.arrival_time data)) as [Hlate|Hearly];
    [discriminate|].
  rewrite (flight_create_run db data r a Hr Ha Hearly). cbn zeta.
  intros E. injection E as <- <-. simpl. split.
  - apply in_or_app. right. now left.
  - intros c Hc. apply in_or_app. right.
    apply (in_map (fun c0 => (fresh_id Flight.id (flights db), c0))).
    now apply nodup_In.
Qed.

Lemma str_not_empty (n : Z) : exists d t, str n = String d t.
Proof.
  unfold str. destruct (n <? 0) eqn:E; [eauto|].
  apply Z.ltb_ge in E.
  destruct (digits_head (Z.to_nat (Z.log2 n)) n EmptyString E)
    as (d & t & H & _).
  eauto.
Qed.

Section Found.

Variable date : Type.
Variable strptime_date : string -> option date.
Variable start_of_day : date -> Z.

Local Abbreviation get_queryset :=
  (FlightViewSet.get_queryset strptime_date start_of_day).

(** X19. A flight that a request has just created is in the answer of the
    flight query without parameters, and in the answer of the query whose
    [crew] parameter is the key, written by [str], of any crew member
    the request gave to the flight. *)
Theorem created_flight_is_found (db db' : DB) (data : FlightData.t)
        (f : Flight.t) :
  FlightViewSet.create data db = (db', Ok f) ->
  (exists qs, get_queryset db' no_params = Ok qs /\ In f qs) /\
  forall c,
    In c (FlightData.crew data) -> - 10 ^ 4300 < c < 10 ^ 4300 ->
    exists qs, get_queryset db' (crew_params (str c)) = Ok qs /\ In f qs.
Proof.
  intros E. apply flight_create_ok in E. destruct E as [Hf Hcrew].
  split.
  - exists (FlightViewSet.order_by_departure_time
              (FlightViewSet.distinct (flights db'))).
    split; [reflexivity|].
    now apply (ordered_distinct (flights db')).
  - intros c Hc Hsize.
    exists (FlightViewSet.order_by_departure_time
              (FlightViewSet.distinct
                 (FlightViewSet.filter_crew_id_in db' [c] (flights db')))).
    split.
    + rewrite (get_queryset_unfold date strptime_date start_of_day).
      assert (Hread : FlightViewSet._params_to_ints (str c) = Ok [c]).
      { unfold FlightViewSet._params_to_ints.
        rewrite (split_plain _ (str_plain c)).
        cbn [FlightViewSet.int_each]. now rewrite (int_str c Hsize). }
      destruct (str_not_empty c) as (d & t & Hs).
      unfold crew_params. rewrite Hs in *.
      unfold FlightViewSet.when_given at 1. cbn [QueryParams.crew truthy].
      rewrite Hread. reflexivity.
    + apply (ordered_distinct
               (FlightViewSet.filter_crew_id_in db' [c] (flights db'))).
      apply filter_crew_id_in_In. split; [exact Hf|].
      exists c. split; [now left | now apply Hcrew].
Qed.

End Found.

(** ** The further properties on the store of the tests *)

Lemma below_int_limit (n : Z) :
  - 100 < n < 100 -> - 10 ^ 4300 < n < 10 ^ 4300.
Proof.
  assert (H : 10 ^ 2 <= 10 ^ 4300) by (apply Z.pow_le_mono_r; lia).
  change (10 ^ 2) with 100 in H. revert H.
  generalize (10 ^ 4300). intros limit H Hn. lia.
Qed.

Lemma sample_flights_valid : flights_valid sample_db.
Proof.
  intros f Hf. simpl in Hf.
  destruct Hf as [<-|[<-|[<-|[]]]];
    (split; [simpl; lia|]; split; eexists; reflexivity).
Qed.

Lemma booked_reachable : reachable 0 0 booked_db.
Proof.
  change booked_db
    with (handle 0 0 (CreateOrder 1000 7 [TicketSpec.Build 5 1 1;
                                          TicketSpec.Build 5 2 1])
                 sample_db).
  apply reachable_step. apply reachable_start; reflexivity.
Qed.

Lemma stored_tickets_are_in_grid_witness :
  exists flight airplane,
    get Flight.id (flights booked_db) 1 = Some flight /\
    get Airplane.id (airplanes booked_db) (Flight.airplane flight)
    = Some airplane /\
    0 < 5 < Airplane.rows airplane /\
    0 < 1 < Airplane.seats_in_row airplane.
Proof.
  assert (Hin : In (Ticket.Build 1 5 1 1 1) (tickets booked_db))
    by (vm_compute; auto).
  exact (stored_tickets_are_in_grid 0 0 booked_db booked_reachable
                                    (Ticket.Build 1 5 1 1 1) Hin).
Defined.

Lemma flight_never_sold_out_witness :
  tickets_count booked_db (Flight.Build 1 1 1 300 400) <= 95 /\
  exists n,
    Flight_tickets_available booked_db (Flight.Build 1 1 1 300 400) = Ok n /\
    25 <= n.
Proof.
  assert (Ef : get Flight.id (flights booked_db) 1 =
               Some (Flight.Build 1 1 1 300 400)) by (vm_compute; reflexivity).
  assert (Ea : get Airplane.id (airplanes booked_db) 1 =
               Some (Airplane.Build 1 "Boeing" 20 6 1))
    by (vm_compute; reflexivity).
  destruct (flight_never_sold_out 0 0 booked_db (Flight.Build 1 1 1 300 400)
                                  (Airplane.Build 1 "Boeing" 20 6 1)
                                  booked_reachable Ef Ea) as [Hcount Hleft].
  split; [exact Hcount|].
  apply Hleft; simpl; lia.
Defined.

Lemma ticket_save_new_witness :
  (exists r,
      Ticket_save true (Ticket.Build 0 5 3 1 1) booked_db =
      (set_tickets (tickets booked_db ++ [r]) booked_db, Ok r) /\
      ticket_fields r = (5, 3, 1, 1)) /\
  (exists detail,
      Ticket_save true (Ticket.Build 0 5 1 1 1) booked_db =
      (booked_db, Raise (Django_ValidationError detail))).
Proof.
  assert (Ef : get Flight.id (flights booked_db) 1 =
               Some (Flight.Build 1 1 1 300 400)) by (vm_compute; reflexivity).
  assert (Ea : get Airplane.id (airplanes booked_db) 1 =
               Some (Airplane.Build 1 "Boeing" 20 6 1))
    by (vm_compute; reflexivity).
  assert (Eo : get Order.id (orders booked_db) 1 =
               Some (Order.Build 1 1000 7)) by (vm_compute; reflexivity).
  split.
  - destruct (ticket_save_new booked_db (Ticket.Build 0 5 3 1 1)
                              (Flight.Build 1 1 1 300 400)
                              (Airplane.Build 1 "Boeing" 20 6 1)
                              (Order.Build 1 1000 7) Ef Ea Eo) as [Hnew _].
    destruct Hnew as (r & E & Hfields & _).
    + unfold in_range; simpl; lia.
    + vm_compute. intros [H|[H|[]]]; discriminate H.
    + exists r. split; [exact E | exact Hfields].
  - destruct (ticket_save_new booked_db (Ticket.Build 0 5 1 1 1)
                              (Flight.Build 1 1 1 300 400)
                              (Airplane.Build 1 "Boeing" 20 6 1)
                              (Order.Build 1 1000 7) Ef Ea Eo) as [_ Hold].
    apply Hold. right. vm_compute. auto.
Defined.

Lemma flights_stay_valid_witness :
  flights_valid sample_db /\
  flights_valid
    (fold_left (fun d r => handle 0 0 r d)
               [CreateFlight (FlightData.Build 1 1 500 600 [1; 2]);
                CreateFlight (FlightData.Build 1 1 600 500 [1]);
                CreateOrder 1000 7 [TicketSpec.Build 5 1 4]]
               sample_db).
Proof.
  split; [exact sample_flights_valid|].
  apply (flights_stay_valid 0 0 sample_db). exact sample_flights_valid.
Defined.


Lemma params_to_ints_reads_written_ids_witness :
  write_ids true [1; -2; 30] = "1, -2, 30" /\
  FlightViewSet._params_to_ints (write_ids true [1; -2; 30]) = Ok [1; -2; 30].
Proof.
  split; [vm_compute; reflexivity|].
  apply (params_to_ints_reads_written_ids true [1; -2; 30]);
    [discriminate|].
  intros n Hn. apply below_int_limit.
  simpl in Hn. destruct Hn as [<-|[<-|[<-|[]]]]; lia.
Defined.

Lemma free_seat_can_be_ordered_witness :
  exists db' o,
    OrderViewSet.create 1001 8 [TicketSpec.Build 5 3 1] booked_db =
    (db', Ok o).
Proof.
  assert (Ef : get Flight.id (flights booked_db) 1 =
               Some (Flight.Build 1 1 1 300 400)) by (vm_compute; reflexivity).
  assert (Ea : get Airplane.id (airplanes booked_db) 1 =
               Some (Airplane.Build 1 "Boeing" 20 6 1))
    by (vm_compute; reflexivity).
  assert (Hrow : 0 < 5 < 20) by lia.
  assert (Hseat : 0 < 3 < 6) by lia.
  apply (free_seat_can_be_ordered 1001 8 booked_db
                                  (Flight.Build 1 1 1 300 400)
                                  (Airplane.Build 1 "Boeing" 20 6 1) 5 3
                                  Ef Ea Hrow Hseat).
  vm_compute. intros [H|[H|[]]]; discriminate H.
Defined.

Lemma order_request_failures_witness :
  status_code (Django_ValidationError ["__all__"]) = 500 /\
  ~ NoDup (map spec_key [TicketSpec.Build 5 1 1; TicketSpec.Build 5 1 1]).
Proof.
  assert (E : OrderViewSet.create 1000 7 [TicketSpec.Build 5 1 1;
                                          TicketSpec.Build 5 1 1] sample_db =
              (sample_db, Raise (Django_ValidationError ["__all__"])))
    by (vm_compute; reflexivity).
  destruct (order_request_failures 1000 7 _ sample_db sample_db _
                                   sample_flights_valid E)
    as (_ & [(d & Hd & _)|(_ & Hcode & _ & Hdup)]);
    [discriminate Hd|].
  split; [exact Hcode | exact Hdup].
Defined.

Lemma created_flight_is_found_witness :
  exists qs,
    FlightViewSet.get_queryset
      no_date (fun d : Z => d)
      (store_after (FlightViewSet.create (FlightData.Build 1 1 500 600 [1; 2])
                                         sample_db))
      (crew_params "2") = Ok qs /\
    In (Flight.Build 4 1 1 500 600) qs.
Proof.
  set (r := FlightViewSet.create (FlightData.Build 1 1 500 600 [1; 2])
                                 sample_db).
  assert (E : r = (store_after r, Ok (Flight.Build 4 1 1 500 600)))
    by (vm_compute; reflexivity).
  destruct (created_flight_is_found Z no_date (fun d : Z => d) sample_db
                                    (store_after r) _ _ E) as [_ Hcrew].
  assert (Hin : In 2 [1; 2]) by (simpl; auto).
  assert (Hsmall : - 100 < 2 < 100) by lia.
  exact (Hcrew 2 Hin (below_int_limit 2 Hsmall)).
Defined.

Lemma get_flights_groups_by_flight_witness :
  exists groups,
    OrderDetailSerializer.get_flights booked_db (tickets booked_db)
    = Ok groups /\
    map FlightGroup.id groups = [1] /\
    map FlightGroup.tickets groups = [[(5, 1); (5, 2)]].
Proof.
  destruct (get_flights_groups_by_flight booked_db (tickets booked_db))
    as [Hsome Hshape].
  assert (E : OrderDetailSerializer.get_flights booked_db (tickets booked_db)
              = Ok [FlightGroup.Build 1 "Airport1 (City1) - Airport2 (City2)"
                                      "Boeing"
                                      300 400 [(5, 1); (5, 2)]]).
  { vm_compute. reflexivity. }
  eexists. split; [exact E|].
  destruct (Hshape _ E) as (Hids & _). split; [exact Hids | reflexivity].
Defined.

Lemma validate_ticket_names_field_witness :
  Ticket.validate_ticket 20 6 (Airplane.Build 1 "Boeing" 20 6 1)
                         DRF_ValidationError =
  Raise (DRF_ValidationError ["row"]) /\
  Ticket.validate_ticket 19 6 (Airplane.Build 1 "Boeing" 20 6 1)
                         DRF_ValidationError =
  Raise (DRF_ValidationError ["seat"]).
Proof.
  split.
  - apply (validate_ticket_names_field 20 6). simpl. lia.
  - apply (validate_ticket_names_field 19 6); simpl; lia.
Defined.
